(** * SqlSplitter/sql_splitter.py: a shallow embedding and its properties

    The development follows the source file top-down:

    - [Py]: the pieces of Python's [str], text-mode file iteration and
      integer formatting that [sql_splitter.py] calls;
    - [Os]: the part of the host the program talks to: a tree of directories
      and files, standard output, the wall clock and the memory probe;
    - [Splitter]: [SQLSplitter.__init__], [_update_progress],
      [_write_statements_to_file], [split_sql] and [main], written in a small
      state-and-exception monad over [Os.world];
    - [Spec]: the statement scanner in the words of the specification;
    - [Plan]: pure list functions used to describe what a run writes;
    - [Trial]: a small dump, two machines and a splitter to run things on;
    - [More]: what a run prints and how far it gets, for the properties
      that go beyond the specification; [Display]: [_format_size] and the
      arithmetic of a progress line; [Cases]: more objects to run on;
    - the properties.

    What is left out: the parsing of the command line ([main] starts from
    the parsed arguments), the rendering of the printed figures (floating
    point; a line is kept as the figures it shows), and failures of the host
    other than those the file tree decides (a missing file or directory, a
    directory or a regular file where the other is needed). Files are
    written as on POSIX, with [\n] left as it is.

    [_format_time] hands its argument to [datetime.timedelta], which renders
    any time below 86400 * 10^9 seconds; it is taken to succeed. *)

From Stdlib Require Import ZArith NArith QArith Lia List String Ascii.
From Stdlib Require Import Lqa.
From Stdlib Require Import Decimal DecimalN DecimalPos DecimalFacts.
From stdpp Require Import base option list gmap.

Local Open Scope Z_scope.
Local Open Scope list_scope.

(** ** Python values *)

Module Py.

(** A [str] is a sequence of Unicode code points. *)
Abbreviation char := N.
Abbreviation str := (list N).

(** A literal, for examples ([Ascii] covers the code points below 256). *)
Definition lit (s : string) : str := List.map N_of_ascii (list_ascii_of_string s).

Definition LF : char := 10%N.
Definition CR : char := 13%N.

(** [str.isspace] on one code point, as [str.strip] uses it: CPython's
    [_PyUnicode_IsWhitespace] table. *)
Definition isspace (c : char) : bool :=
  ((9 <=? c) && (c <=? 13) || (28 <=? c) && (c <=? 32)
   || (c =? 133) || (c =? 160) || (c =? 5760)
   || (8192 <=? c) && (c <=? 8202)
   || (c =? 8232) || (c =? 8233) || (c =? 8239) || (c =? 8287)
   || (c =? 12288))%N.

Fixpoint lstrip (s : str) : str :=
  match s with
  | [] => []
  | c :: s' => if isspace c then lstrip s' else s
  end.

Definition rstrip (s : str) : str := rev (lstrip (rev s)).

(** [s.strip()] *)
Definition strip (s : str) : str := rstrip (lstrip s).

(** [s.startswith(p)] *)
Fixpoint startswith (s p : str) : bool :=
  match p, s with
  | [], _ => true
  | _ :: _, [] => false
  | a :: p', b :: s' => (a =? b)%N && startswith s' p'
  end.

(** [c in s] for a one-character [c] *)
Definition contains (c : char) (s : str) : bool := existsb (N.eqb c) s.

(** [sep.join(l)] *)
Fixpoint join (sep : str) (l : list str) : str :=
  match l with
  | [] => []
  | [x] => x
  | x :: l' => x ++ sep ++ join sep l'
  end.

(** Truthiness of a string or a list: non-empty. *)
Definition truthy {A} (l : list A) : bool :=
  match l with [] => false | _ => true end.

(** [len(s.encode('utf-8'))] *)
Definition utf8_width (c : char) : N :=
  (if c <? 128 then 1 else if c <? 2048 then 2 else if c <? 65536 then 3 else 4)%N.

Definition utf8_len (s : str) : N := fold_right (fun c n => utf8_width c + n)%N 0%N s.

(** Decimal digits of a natural number, most significant first. *)
Fixpoint uint_chars (u : Decimal.uint) : str :=
  match u with
  | Nil => []
  | D0 u => 48%N :: uint_chars u
  | D1 u => 49%N :: uint_chars u
  | D2 u => 50%N :: uint_chars u
  | D3 u => 51%N :: uint_chars u
  | D4 u => 52%N :: uint_chars u
  | D5 u => 53%N :: uint_chars u
  | D6 u => 54%N :: uint_chars u
  | D7 u => 55%N :: uint_chars u
  | D8 u => 56%N :: uint_chars u
  | D9 u => 57%N :: uint_chars u
  end.

(** [str(n)] for [n >= 0] *)
Definition decimal (n : N) : str := uint_chars (N.to_uint n).

(** [f"{n:03d}"] for [n >= 0]: the decimal digits, zero-filled on the left
    up to width 3 and never truncated. *)
Definition format_03d (n : N) : str :=
  let d := decimal n in
  repeat 48%N (3 - length d) ++ d.

(** The value a string of decimal digits denotes (digits are not checked:
    [int()] would reject anything else). *)
Definition digit_value (c : char) : N := (c - 48)%N.
Definition int_of (s : str) : N := fold_left (fun v c => 10 * v + digit_value c)%N s 0%N.

Definition is_digit (c : char) : Prop := (48 <= c <= 57)%N.

(** Text-mode input with [newline=None]: ["\r\n"] and a lone ["\r"] are
    read as ["\n"]. *)
Fixpoint universal_newlines (s : str) : str :=
  match s with
  | [] => []
  | c :: s' =>
      if (c =? CR)%N then
        LF :: match s' with
              | [] => []
              | d :: s'' => if (d =? LF)%N then universal_newlines s''
                            else universal_newlines s'
              end
      else c :: universal_newlines s'
  end.

(** Iterating a text file: each item is a line with its ["\n"]; a last line
    without one is yielded as it is. [cur] is the line being read. *)
Fixpoint split_lines (cur s : str) : list str :=
  match s with
  | [] => match cur with [] => [] | _ => [cur] end
  | c :: s' =>
      if (c =? LF)%N then (cur ++ [c]) :: split_lines [] s'
      else split_lines (cur ++ [c]) s'
  end.

(** [for line in open(path, 'r', encoding='utf-8')] over decoded text. *)
Definition readlines (text : str) : list str := split_lines [] (universal_newlines text).

End Py.

(** ** The host: file tree, standard output, clock *)

Module Os.
Import Py.

(** A path is the list of its components below the root, the way the
    operating system resolves the string the program was given (current
    directory, [.], [..], repeated separators and links already followed).
    The root is the empty list. *)
Abbreviation path := (list (list N)).

(** [st_size] is what [stat] reports: the byte count for a regular file,
    0 for a pipe or a character device such as [/dev/stdin]. [content] is
    the text the file decodes to. *)
Inductive node :=
  | Dir
  | File (st_size : N) (content : str).

Abbreviation tree := (gmap path node).

Inductive exn :=
  | FileNotFoundError
  | FileExistsError
  | NotADirectoryError
  | IsADirectoryError
  | ZeroDivisionError.

(** What the program prints. The figures of a line are kept, their
    rendering ([_format_size], [_format_time], float formatting) is not
    modelled. *)
Inductive event :=
  | Warn_large (size : N)
  | Progress (processed total : N) (elapsed : Q) (memory : N)
  | Finished
  | Total_time (t : Q)
  | Summary (files statements : nat) (dir : path)
  | Error_processing (e : exn)
  | Error_writing (p : path) (e : exn)
  | Error_main (e : exn).

(** [flushed] is a ghost field: the calls of [_write_statements_to_file]
    that wrote their file, oldest first, each with the batch it was given.
    Nothing in the program reads it. [ticks] counts the clock readings
    taken so far. *)
Record world := World {
  files : tree;
  stdout : list event;
  ticks : nat;
  flushed : list (path * list str)
}.

(** The readings the host hands out: [clock k] is what the [k]-th call of
    [time.time()] returns (seconds), [rss k] the resident memory sampled
    after [k] clock readings. *)
Record host := Host {
  clock : nat -> Q;
  rss : nat -> N
}.

Inductive outcome (A : Type) :=
  | Ret (a : A)
  | Raise (e : exn)
  | SysExit (code : Z).
Arguments Ret {A} a.
Arguments Raise {A} e.
Arguments SysExit {A} code.

(** Computations: a state monad over [world] with Python's two ways of
    leaving early, an exception and [sys.exit]. *)
Definition M (A : Type) : Type := world -> world * outcome A.

Definition ret {A} (a : A) : M A := fun w => (w, Ret a).

Definition bind {A B} (m : M A) (k : A -> M B) : M B :=
  fun w =>
    match m w with
    | (w', Ret a) => k a w'
    | (w', Raise e) => (w', Raise e)
    | (w', SysExit c) => (w', SysExit c)
    end.

Definition raise {A} (e : exn) : M A := fun w => (w, Raise e).

(** [sys.exit(code)] raises [SystemExit], which [except Exception] does not
    catch. *)
Definition sys_exit {A} (code : Z) : M A := fun w => (w, SysExit code).

(** [try: m except Exception as e: h e] *)
Definition try_except {A} (m : M A) (h : exn -> M A) : M A :=
  fun w =>
    match m w with
    | (w', Raise e) => h e w'
    | r => r
    end.

Definition print (e : event) : M unit :=
  fun w => (World (files w) (stdout w ++ [e]) (ticks w) (flushed w), Ret tt).

(** [time.time()] *)
Definition time_time (h : host) : M Q :=
  fun w => (World (files w) (stdout w) (S (ticks w)) (flushed w), Ret (clock h (ticks w))).

(** [psutil.Process().memory_info().rss] *)
Definition memory_rss (h : host) : M N :=
  fun w => (w, Ret (rss h (ticks w))).

(** What a path leads to; the root is always a directory. *)
Definition node_at (t : tree) (p : path) : option node :=
  match p with
  | [] => Some Dir
  | _ => t !! p
  end.

(** [os.path.isdir(p)] *)
Definition isdir (t : tree) (p : path) : bool :=
  match node_at t p with Some Dir => true | _ => false end.

(** [os.path.exists(p)] *)
Definition path_exists (p : path) : M bool :=
  fun w => (w, Ret (match node_at (files w) p with Some _ => true | None => false end)).

(** The size a directory reports; only progress figures ever use it. *)
Definition dir_size : N := 4096.

(** [os.path.getsize(p)] *)
Definition getsize (p : path) : M N :=
  fun w =>
    match node_at (files w) p with
    | Some Dir => (w, Ret dir_size)
    | Some (File sz _) => (w, Ret sz)
    | None => (w, Raise FileNotFoundError)
    end.

(** [os.makedirs(base/rest, exist_ok=True)], walking down from [base]:
    a missing component is created, a directory is entered, and a regular
    file in the way is an error ([FileExistsError] when it is the last
    component, [NotADirectoryError] before). *)
Fixpoint mkdirs_from (base rest : path) (t : tree) : tree + exn :=
  match rest with
  | [] => inl t
  | c :: rest' =>
      let p := base ++ [c] in
      match node_at t p with
      | Some Dir => mkdirs_from p rest' t
      | Some (File _ _) =>
          inr (match rest' with [] => FileExistsError | _ => NotADirectoryError end)
      | None => mkdirs_from p rest' (<[p := Dir]> t)
      end
  end.

(** The paths [mkdirs_from base rest] visits: [base] extended by one or
    more components of [rest]. *)
Definition on_way (base rest q : path) : Prop :=
  exists k, (0 < k <= length rest)%nat /\ q = base ++ take k rest.

Definition makedirs (p : path) : M unit :=
  fun w =>
    match mkdirs_from [] p (files w) with
    | inl t => (World t (stdout w) (ticks w) (flushed w), Ret tt)
    | inr e => (w, Raise e)
    end.

(** [open(p, 'r', encoding='utf-8')]: the decoded text of a file. The lines
    are those of the file as it stands when it is opened. *)
Definition open_read (p : path) : M str :=
  fun w =>
    match node_at (files w) p with
    | Some (File _ text) => (w, Ret text)
    | Some Dir => (w, Raise IsADirectoryError)
    | None => (w, Raise FileNotFoundError)
    end.

(** [os.path.join(dir, name)] for a [name] that is one component. *)
Definition path_join (dir : path) (name : str) : path := dir ++ [name].

(** [with open(join(dir, name), 'w', encoding='utf-8') as f: f.write(text)]:
    the directory has to be there and the name must not be a directory;
    a file already under the name is truncated and replaced. *)
Definition write_text (dir : path) (name : str) (text : str) : M unit :=
  fun w =>
    match node_at (files w) dir with
    | Some Dir =>
        match node_at (files w) (path_join dir name) with
        | Some Dir => (w, Raise IsADirectoryError)
        | _ => (World (<[path_join dir name := File (utf8_len text) text]> (files w))
                      (stdout w) (ticks w) (flushed w), Ret tt)
        end
    | Some (File _ _) => (w, Raise NotADirectoryError)
    | None => (w, Raise FileNotFoundError)
    end.

(** Ghost: note a successful flush. *)
Definition note_flush (p : path) (batch : list str) : M unit :=
  fun w => (World (files w) (stdout w) (ticks w) (flushed w ++ [(p, batch)]), Ret tt).

(** A fresh process over a file tree. *)
Definition boot (t : tree) : world := World t [] 0 [].

(** The exit status of the process. *)
Definition exit_status {A} (o : outcome A) : Z :=
  match o with
  | Ret _ => 0
  | Raise _ => 1
  | SysExit c => c
  end.

End Os.

Notation "'let*' x := m 'in' k" := (Os.bind m (fun x => k))
  (at level 10, x name, m at level 100, k at level 200, only parsing).
Notation "m ;;; k" := (Os.bind m (fun _ => k))
  (at level 100, k at level 200, only parsing, right associativity).

(** ** sql_splitter.py *)

Module Splitter.
Import Py Os.

(** The attributes of a [SQLSplitter] object. [processed_size] and
    [last_progress_time] are the ones [_update_progress] assigns. *)
Record SQLSplitter := Self {
  input_file : path;
  output_dir : path;
  statements_per_file : Z;
  file_size : N;
  start_time : Q;
  processed_size : N;
  last_progress_time : Q
}.

(** The local variables of [split_sql]. *)
Record locals := Locals {
  statements : list str;
  current_statement : list str;
  current_file_index : nat;
  statement_count : nat
}.

Section WithHost.

(** The clock and the memory probe of the machine the program runs on. *)
Variable h : host.

(** [Path(p).stem], pathlib's rule for the final component of a path
    without its suffix; it never contains a separator. A part file is named
    after the stem followed by [_part], so it is never the input file. *)
Variable stem : path -> str.

(** [SQLSplitter.__init__] *)
Definition __init__ (input_file output_dir : path) (statements_per_file : Z)
  : M SQLSplitter :=
  makedirs output_dir ;;;
  let* there := path_exists input_file in
  if negb there then raise FileNotFoundError
  else
    let* size := getsize input_file in
    (if (1024 * 1024 * 1024 <? size)%N then print (Warn_large size) else ret tt) ;;;
    let* t0 := time_time h in
    let* t1 := time_time h in
    ret (Self input_file output_dir statements_per_file size t0 0%N t1).

(** [SQLSplitter._update_progress]. [processed_size / file_size] is a
    division of two [int]s and raises when [file_size] is 0; the two other
    divisions are guarded in the source ([if elapsed_time > 0],
    [if speed > 0]). *)
Definition _update_progress (self : SQLSplitter) (line_size : N) : M SQLSplitter :=
  let processed := (processed_size self + line_size)%N in
  let* current_time := time_time h in
  if Qle_bool (1 # 2) (current_time - last_progress_time self) then
    if (file_size self =? 0)%N then raise ZeroDivisionError
    else
      let* memory_usage := memory_rss h in
      print (Progress processed (file_size self)
                      (current_time - start_time self) memory_usage) ;;;
      ret (Self (input_file self) (output_dir self) (statements_per_file self)
                (file_size self) (start_time self) processed current_time)
  else
    ret (Self (input_file self) (output_dir self) (statements_per_file self)
              (file_size self) (start_time self) processed (last_progress_time self)).

(** The file name [f"{input_filename}_part{file_index+1:03d}.sql"] *)
Definition part_name (input_filename : str) (file_index : nat) : str :=
  input_filename ++ lit "_part" ++ format_03d (N.of_nat file_index + 1) ++ lit ".sql".

(** [SQLSplitter._write_statements_to_file] *)
Definition _write_statements_to_file (self : SQLSplitter) (statements : list str)
    (input_filename : str) (file_index : nat) : M unit :=
  let name := part_name input_filename file_index in
  try_except
    (write_text (output_dir self) name (join [LF; LF] statements) ;;;
     note_flush (path_join (output_dir self) name) statements)
    (fun e => print (Error_writing (path_join (output_dir self) name) e) ;;;
              sys_exit 1).

(** The test of source line 101. *)
Definition is_comment (line : str) : bool :=
  startswith (strip line) (lit "--") || startswith (strip line) (lit "/*").

(** [';' in line] *)
Definition has_semicolon (line : str) : bool := contains 59%N line.

(** One turn of the [for line in f] loop (source lines 97 to 124). *)
Definition for_line (input_filename : str) (line : str) (sl : SQLSplitter * locals)
  : M (SQLSplitter * locals) :=
  let '(self, l) := sl in
  let* self := _update_progress self (utf8_len line) in
  if is_comment line then ret (self, l)
  else
    let current := current_statement l ++ [line] in
    if has_semicolon line then
      let statement := strip (join [] current) in
      if truthy statement then
        let stmts := statements l ++ [statement] in
        let count := S (statement_count l) in
        if (statements_per_file self <=? Z.of_nat (length stmts))%Z then
          _write_statements_to_file self stmts input_filename (current_file_index l) ;;;
          ret (self, Locals [] [] (S (current_file_index l)) count)
        else ret (self, Locals stmts [] (current_file_index l) count)
      else ret (self, Locals (statements l) [] (current_file_index l) (statement_count l))
    else ret (self, Locals (statements l) current (current_file_index l) (statement_count l)).

Fixpoint for_lines (input_filename : str) (lines : list str) (sl : SQLSplitter * locals)
  : M (SQLSplitter * locals) :=
  match lines with
  | [] => ret sl
  | line :: rest =>
      let* sl' := for_line input_filename line sl in
      for_lines input_filename rest sl'
  end.

(** Source lines 126 to 131: the statement left in the buffer. *)
Definition last_statement (l : locals) : locals :=
  if truthy (current_statement l) then
    let statement := strip (join [] (current_statement l)) in
    if truthy statement then
      Locals (statements l ++ [statement]) (current_statement l)
             (current_file_index l) (S (statement_count l))
    else l
  else l.

(** Source lines 133 to 140: the batch left over. *)
Definition last_batch (self : SQLSplitter) (input_filename : str) (l : locals) : M locals :=
  if truthy (statements l) then
    _write_statements_to_file self (statements l) input_filename (current_file_index l) ;;;
    ret (Locals (statements l) (current_statement l)
                (S (current_file_index l)) (statement_count l))
  else ret l.

(** Source lines 142 to 149. [file_size / total_time] raises when the two
    clock readings are equal. *)
Definition report (self : SQLSplitter) (l : locals) : M unit :=
  let* now := time_time h in
  let total_time := (now - start_time self)%Q in
  print Finished ;;;
  print (Total_time total_time) ;;;
  if Qeq_bool total_time 0 then raise ZeroDivisionError
  else print (Summary (current_file_index l) (statement_count l) (output_dir self)).

(** The body of the [with open(...) as f] block and what follows it inside
    the [try] (source lines 96 to 149), over the lines [f] yields. *)
Definition split_sql_body (self : SQLSplitter) (input_filename : str) (lines : list str)
  : M unit :=
  let* sl := for_lines input_filename lines (self, Locals [] [] 0 0) in
  let* l := last_batch (fst sl) input_filename (last_statement (snd sl)) in
  report (fst sl) l.

(** [SQLSplitter.split_sql] *)
Definition split_sql (self : SQLSplitter) : M unit :=
  let input_filename := stem (input_file self) in
  try_except
    (let* text := open_read (input_file self) in
     split_sql_body self input_filename (readlines text))
    (fun e => print (Error_processing e) ;;; sys_exit 1).

(** [main], from the parsed arguments on. *)
Definition main (input_file output_dir : path) (statements : Z) : M unit :=
  try_except
    (let* splitter := __init__ input_file output_dir statements in
     split_sql splitter)
    (fun e => print (Error_main e) ;;; sys_exit 1).

End WithHost.

End Splitter.


(** ** The statement scanner as the specification words it *)

Module Spec.
Import Py Splitter.

(** Modelled on the specification (section 4.1, steps 2 and 3), without
    the batching: a line whose trimmed form starts with [--] or [/*] is
    skipped; any other line joins the buffer; a line with a [;] ends the
    statement, which is the buffer joined and trimmed, kept when it is not
    empty; what the buffer holds at the end of the input is trimmed and kept
    the same way. *)
Fixpoint detect (buffer : list str) (lines : list str) : list str :=
  match lines with
  | [] =>
      match strip (join [] buffer) with
      | [] => []
      | statement => [statement]
      end
  | line :: rest =>
      if is_comment line then detect buffer rest
      else if has_semicolon line then
        match strip (join [] (buffer ++ [line])) with
        | [] => detect [] rest
        | statement => statement :: detect [] rest
        end
      else detect (buffer ++ [line]) rest
  end.

Definition boundary_detection (lines : list str) : list str := detect [] lines.

End Spec.

(** ** What a run is going to write *)

Module Plan.
Import Py Os Splitter.

(** One turn of the loop on the local variables alone: the locals after the
    turn and the batch it hands to the writer, if any. *)
Definition step (n : Z) (line : str) (l : locals) : locals * option (list str) :=
  if is_comment line then (l, None)
  else
    let current := current_statement l ++ [line] in
    if has_semicolon line then
      let statement := strip (join [] current) in
      if truthy statement then
        let stmts := statements l ++ [statement] in
        if (n <=? Z.of_nat (length stmts))%Z then
          (Locals [] [] (S (current_file_index l)) (S (statement_count l)), Some stmts)
        else (Locals stmts [] (current_file_index l) (S (statement_count l)), None)
      else (Locals (statements l) [] (current_file_index l) (statement_count l), None)
    else (Locals (statements l) current (current_file_index l) (statement_count l), None).

Definition opt_list {A} (o : option A) : list A :=
  match o with Some a => [a] | None => [] end.

(** The batches the loop hands over, in order, and the locals it ends with. *)
Fixpoint sweep (n : Z) (lines : list str) (l : locals) : list (list str) * locals :=
  match lines with
  | [] => ([], l)
  | line :: rest =>
      let '(l1, ob) := step n line l in
      let '(bs, l2) := sweep n rest l1 in
      (opt_list ob ++ bs, l2)
  end.

(** The batch written after the loop. *)
Definition wrap_up (l : locals) : list (list str) :=
  match statements (last_statement l) with
  | [] => []
  | b => [b]
  end.

(** All the batches of a run over [lines]. *)
Definition batches (n : Z) (lines : list str) : list (list str) :=
  let '(bs, l) := sweep n lines (Locals [] [] 0 0) in
  bs ++ wrap_up l.

(** The files the batches go to: batch [i] of [bs] is file number
    [first + i]. *)
Fixpoint targets (dir : path) (input_filename : str) (first : nat) (bs : list (list str))
  : list (path * list str) :=
  match bs with
  | [] => []
  | b :: bs' =>
      (path_join dir (part_name input_filename first), b)
        :: targets dir input_filename (S first) bs'
  end.

(** The tree after a batch is written to its file. *)
Definition put (t : tree) (pb : path * list str) : tree :=
  <[fst pb := File (utf8_len (join [LF; LF] (snd pb))) (join [LF; LF] (snd pb))]> t.

Definition put_all (t : tree) (plan : list (path * list str)) : tree :=
  fold_left put plan t.

(** The writer can write file [name] of [dir]. *)
Definition can_write (t : tree) (dir : path) (name : str) : bool :=
  isdir t dir &&
  match node_at t (path_join dir name) with Some Dir => false | _ => true end.

(** No part file of the run is barred: the output directory is there and
    none of the names is taken by a directory. *)
Definition writable (t : tree) (dir : path) (input_filename : str) : Prop :=
  forall i, can_write t dir (part_name input_filename i) = true.

(** The attributes [__init__] sets and nothing changes afterwards. *)
Definition same_config (a b : SQLSplitter) : Prop :=
  input_file b = input_file a /\ output_dir b = output_dir a /\
  statements_per_file b = statements_per_file a /\ file_size b = file_size a /\
  start_time b = start_time a.

(** The part files a run of [split_sql] is to write, from the tree it
    starts in. *)
Definition planned (stem : path -> str) (self : SQLSplitter) (t : tree)
  : list (path * list str) :=
  match node_at t (input_file self) with
  | Some (File _ text) =>
      targets (output_dir self) (stem (input_file self)) 0
              (batches (statements_per_file self) (readlines text))
  | _ => []
  end.

(** File [p] holds batch [b]: its text is the statements of [b] with a
    blank line between them. *)
Definition holds (t : tree) (p : path) (b : list str) : Prop :=
  exists size, t !! p = Some (File size (join [LF; LF] b)).

(** The flushes a computation adds when it is run in [w], and their
    statements in order. *)
Definition written_by {A} (m : M A) (w : world) : list (path * list str) :=
  drop (length (flushed w)) (flushed (fst (m w))).

Definition statements_written {A} (m : M A) (w : world) : list str :=
  concat (map snd (written_by m w)).

(** [self] with another [statements_per_file]. *)
Definition with_statements (self : SQLSplitter) (n : Z) : SQLSplitter :=
  Self (input_file self) (output_dir self) n (file_size self) (start_time self)
       (processed_size self) (last_progress_time self).

(** The outcome of the loop with [statements_per_file] set to [n] in the
    splitter it returns. *)
Definition retag (n : Z) (r : world * outcome (SQLSplitter * locals))
  : world * outcome (SQLSplitter * locals) :=
  match r with
  | (w, Ret (s, l)) => (w, Ret (with_statements s n, l))
  | _ => r
  end.

Definition not_comment (line : str) : bool := negb (is_comment line).

End Plan.

(** ** Trial runs *)

Module Trial.
Import Py Os Splitter.

(** A clock that advances by [step] seconds at each reading. *)
Definition steady (step : Q) : host :=
  Host (fun k => (inject_Z (Z.of_nat k) * step)%Q) (fun _ => 0%N).

(** [Path(p).stem] up to Python 3.13: the last component, cut before its
    last dot when that dot is neither first nor last. *)
Fixpoint rfind_dot (s : str) (i : nat) (found : option nat) : option nat :=
  match s with
  | [] => found
  | c :: s' => rfind_dot s' (S i) (if (c =? 46)%N then Some i else found)
  end.

Definition stem (p : path) : str :=
  let name := List.last p [] in
  match rfind_dot name 0 None with
  | Some i => if (0 <? i)%nat && (i <? length name - 1)%nat then take i name else name
  | None => name
  end.

(** A regular file holding [text], and a pipe delivering it. *)
Definition regular (text : str) : node := File (utf8_len text) text.
Definition pipe (text : str) : node := File 0 text.

Definition dump : path := [lit "data"; lit "dump.sql"].
Definition out : path := [lit "out"].

(** [data/dump.sql] is there, [out] is not. *)
Definition tree_before (input : node) : tree :=
  <[dump := input]> (<[[lit "data"] := Dir]> ∅).

(** The same once [out] has been made. *)
Definition tree_ready (input : node) : tree :=
  <[dump := input]> (<[[lit "data"] := Dir]> (<[out := Dir]> ∅)).

Definition two_statements : str :=
  lit "SELECT 1;" ++ [LF] ++ lit "SELECT 2;" ++ [LF].

(** A machine whose clock advances by one second at each reading, a faster
    one, and a splitter as [__init__] leaves it on the former. *)
Definition slow : host := steady 1.
Definition fast : host := steady (1 # 10).

Definition splitter (n : Z) : SQLSplitter :=
  Self dump out n (utf8_len two_statements) 0 0 1.

Definition ready : world := World (tree_ready (regular two_statements)) [] 2 [].

End Trial.

(** ** What a run prints, and how far it gets *)

Module More.
Import Py Os Splitter Plan.

(** How many of the batches [bs], bound for the files numbered from [first]
    on, get written before a file cannot be: the writer exits at the first
    name that is barred. *)
Fixpoint runs_until (t : tree) (dir : path) (input_filename : str) (first : nat)
    (bs : list (list str)) : nat :=
  match bs with
  | [] => 0
  | _ :: bs' =>
      if can_write t dir (part_name input_filename first)
      then S (runs_until t dir input_filename (S first) bs')
      else 0
  end.

(** What a computation prints when it is run in [w]. *)
Definition printed_by {A} (m : M A) (w : world) : list event :=
  drop (length (stdout w)) (stdout (fst (m w))).

(** The elapsed times of the progress lines among [evs], in order. *)
Fixpoint progress_times (evs : list event) : list Q :=
  match evs with
  | [] => []
  | Progress _ _ elapsed _ :: evs' => elapsed :: progress_times evs'
  | _ :: evs' => progress_times evs'
  end.

(** Their figures, bytes read so far and the size of the input. *)
Fixpoint progress_figures (evs : list event) : list (N * N) :=
  match evs with
  | [] => []
  | Progress processed total _ _ :: evs' => (processed, total) :: progress_figures evs'
  | _ :: evs' => progress_figures evs'
  end.

(** Each time is at least half a second after the one before, [t0] being
    before the first. *)
Fixpoint spaced (t0 : Q) (ts : list Q) : Prop :=
  match ts with
  | [] => True
  | t :: ts' => (1 # 2 <= t - t0)%Q /\ spaced t ts'
  end.

(** What one call of [_update_progress] leaves in the object: [sz] more
    bytes read, [t] as the time of the last progress line. *)
Definition next (self : SQLSplitter) (sz : N) (t : Q) (self' : SQLSplitter) : Prop :=
  processed_size self' = (processed_size self + sz)%N /\
  start_time self' = start_time self /\
  file_size self' = file_size self /\
  last_progress_time self' = t.

(** No progress line among [evs]. *)
Definition quiet (evs : list event) : Prop :=
  progress_times evs = [] /\ progress_figures evs = [].

(** A run of lines that ends a statement: its last line has a semicolon and
    no line before has one. *)
Definition terminated (g : list str) : Prop :=
  exists body t, g = body ++ [t] /\ has_semicolon t = true /\
                 Forall (fun l => has_semicolon l = false) body.

(** The statement a run of lines makes. *)
Definition statement_of (g : list str) : str := strip (join [] g).

End More.

(** ** The figures of a progress line *)

Module Display.

Inductive size_unit := B | KB | MB | GB | TB.

(** The loop of [_format_size] over the units left: the first unit under
    which the size is below 1024, the size being divided by 1024 from one
    unit to the next. The number is returned with its unit; its rendering
    with two decimals is not modelled. *)
Fixpoint scale (units : list size_unit) (size : Q) : Q * size_unit :=
  match units with
  | [] => (size, TB)
  | unit :: units' =>
      if Qle_bool 1024 size then scale units' (size / 1024) else (size, unit)
  end.

(** [SQLSplitter._format_size] *)
Definition _format_size (size : Q) : Q * size_unit := scale [B; KB; MB; GB] size.

(** The power of 1024 a unit stands for. *)
Definition rank (u : size_unit) : Q :=
  match u with
  | B => 1
  | KB => 1024
  | MB => 1024 * 1024
  | GB => 1024 * 1024 * 1024
  | TB => 1024 * 1024 * 1024 * 1024
  end.

(** [a / b]: [ZeroDivisionError], here [None], when [b] is 0. *)
Definition divide (a b : Q) : option Q :=
  if Qeq_bool b 0 then None else Some (a / b)%Q.

Definition of_N (n : N) : Q := inject_Z (Z.of_N n).

(** Source lines 68 to 72: the percentage, the speed and the remaining
    time [_update_progress] computes from the bytes read, the size of the
    file and the time elapsed. *)
Definition estimate (processed_size file_size : N) (elapsed_time : Q)
  : option (Q * Q * Q) :=
  ratio ← divide (of_N processed_size) (of_N file_size);
  let progress := (ratio * 100)%Q in
  speed ← (if Qle_bool elapsed_time 0 then Some 0%Q
           else divide (of_N processed_size) elapsed_time);
  let remaining_size := (of_N file_size - of_N processed_size)%Q in
  remaining_time ← (if Qle_bool speed 0 then Some 0%Q
                    else divide remaining_size speed);
  Some (progress, speed, remaining_time).

End Display.

(** ** More objects to run the program on *)

Module Cases.
Import Py Os Splitter Trial.

(** The tree of [ready] with a directory under the name of the second part
    file. *)
Definition barred : world :=
  World (<[out ++ [lit "dump_part002.sql"] := Dir]> (tree_ready (regular two_statements)))
        [] 2 [].

(** An input of comments and blank lines. *)
Definition notes_only : str :=
  lit "-- note" ++ [LF] ++ lit "  " ++ [LF] ++ lit "/* x; */" ++ [LF].

Definition ready_notes : world := World (tree_ready (regular notes_only)) [] 2 [].


End Cases.

(** * Properties *)

Import Py Os Splitter Plan.

(** ** Strings and numbers *)

Section PyFacts.

Lemma lstrip_keeps c s : contains c s = true -> isspace c = false -> contains c (lstrip s) = true.
Proof.
  intros Hc Hs. induction s as [|d s IH]; simpl in *; [done|].
  destruct (isspace d) eqn:Hd.
  - apply orb_true_iff in Hc as [Hc|Hc]; [|auto].
    apply N.eqb_eq in Hc. subst d. congruence.
  - exact Hc.
Qed.

Lemma contains_rev c s : contains c (rev s) = contains c s.
Proof.
  unfold contains. induction s as [|d s IH]; simpl; [done|].
  rewrite existsb_app, IH. simpl. rewrite orb_false_r. apply orb_comm.
Qed.

Lemma strip_keeps c s : contains c s = true -> isspace c = false -> contains c (strip s) = true.
Proof.
  intros Hc Hs. unfold strip, rstrip.
  rewrite contains_rev. apply lstrip_keeps; [|done].
  rewrite contains_rev. by apply lstrip_keeps.
Qed.

Lemma contains_app c s t : contains c (s ++ t) = contains c s || contains c t.
Proof. apply existsb_app. Qed.

Lemma join_empty l : join [] l = concat l.
Proof.
  induction l as [|y l IH]; [done|].
  destruct l as [|z l]; [simpl; by rewrite app_nil_r|].
  change (join [] (y :: z :: l)) with (y ++ [] ++ join [] (z :: l)).
  by rewrite IH.
Qed.

Lemma join_snoc_empty l x : join [] (l ++ [x]) = join [] l ++ x.
Proof. rewrite !join_empty, concat_app. simpl. by rewrite app_nil_r. Qed.

Lemma join_snoc sep l x : l <> [] -> join sep (l ++ [x]) = join sep l ++ sep ++ x.
Proof.
  induction l as [|y l IH]; [done|]. intros _.
  destruct l as [|z l]; [reflexivity|].
  change (join sep ((y :: z :: l) ++ [x])) with (y ++ sep ++ join sep ((z :: l) ++ [x])).
  rewrite IH by done.
  change (join sep (y :: z :: l)) with (y ++ sep ++ join sep (z :: l)).
  by rewrite <- !app_assoc.
Qed.

Lemma truthy_true {A} (l : list A) : truthy l = true <-> l <> [].
Proof. destruct l; simpl; split; congruence. Qed.

(** A line with a semicolon never trims to nothing. *)
Lemma statement_truthy buffer line :
  contains 59%N line = true -> truthy (strip (join [] (buffer ++ [line]))) = true.
Proof.
  intros H. apply truthy_true. intros E.
  assert (K : contains 59%N (strip (join [] (buffer ++ [line]))) = true).
  { apply strip_keeps; [|reflexivity].
    rewrite join_snoc_empty, contains_app, H. apply orb_true_r. }
  rewrite E in K. discriminate.
Qed.

(** Decimal digits *)
Lemma int_of_snoc s c : int_of (s ++ [c]) = (10 * int_of s + digit_value c)%N.
Proof. unfold int_of. by rewrite fold_left_app. Qed.

Lemma uint_chars_revapp d e :
  uint_chars (Decimal.revapp d e) = rev (uint_chars d) ++ uint_chars e.
Proof.
  revert e. induction d; intros e; simpl; try done;
    rewrite IHd; simpl; by rewrite <- app_assoc.
Qed.

Lemma int_of_rev_chars d : int_of (rev (uint_chars d)) = Unsigned.of_lu d.
Proof.
  induction d; simpl uint_chars; simpl rev; [reflexivity|..];
    rewrite int_of_snoc, IHd; simpl Unsigned.of_lu; unfold digit_value; lia.
Qed.

Lemma int_of_uint u : int_of (uint_chars u) = N.of_uint u.
Proof.
  unfold N.of_uint. rewrite Unsigned.of_uint_alt, <- int_of_rev_chars.
  unfold Decimal.rev. rewrite uint_chars_revapp. simpl. by rewrite app_nil_r, rev_involutive.
Qed.

Lemma int_of_decimal n : int_of (decimal n) = n.
Proof. unfold decimal. rewrite int_of_uint. apply DecimalN.Unsigned.of_to. Qed.

Lemma int_of_zeros k s : int_of (repeat 48%N k ++ s) = int_of s.
Proof.
  unfold int_of. rewrite fold_left_app. f_equal.
  induction k; simpl; [done|]. exact IHk.
Qed.

Lemma int_of_format_03d n : int_of (format_03d n) = n.
Proof. unfold format_03d. by rewrite int_of_zeros, int_of_decimal. Qed.

Lemma format_03d_inj m n : format_03d m = format_03d n -> m = n.
Proof. intros E. by rewrite <- (int_of_format_03d m), E, int_of_format_03d. Qed.

Lemma format_03d_length n :
  length (format_03d n) = Nat.max 3 (length (decimal n)).
Proof. unfold format_03d. rewrite length_app, repeat_length. lia. Qed.

End PyFacts.

Section Digits.

Lemma uint_chars_digits u : Forall is_digit (uint_chars u).
Proof. induction u; simpl; constructor; auto; unfold is_digit; lia. Qed.

Lemma int_of_cons c s :
  int_of (c :: s) = (digit_value c * 10 ^ N.of_nat (length s) + int_of s)%N.
Proof.
  induction s as [|d s IH] using rev_ind.
  - unfold int_of. simpl. lia.
  - change (c :: s ++ [d]) with ((c :: s) ++ [d]).
    rewrite !int_of_snoc, IH, length_app. simpl length.
    replace (N.of_nat (length s + 1)) with (N.succ (N.of_nat (length s))) by lia.
    rewrite N.pow_succ_r'. lia.
Qed.

Lemma int_of_lt s : Forall is_digit s -> (int_of s < 10 ^ N.of_nat (length s))%N.
Proof.
  induction s as [|d s IH] using rev_ind; intros H.
  - unfold int_of. simpl. lia.
  - apply Forall_app in H as [Hs Hd]. apply Forall_inv in Hd.
    rewrite int_of_snoc, length_app. simpl length.
    replace (N.of_nat (length s + 1)) with (N.succ (N.of_nat (length s))) by lia.
    rewrite N.pow_succ_r'. specialize (IH Hs).
    unfold is_digit, digit_value in *. lia.
Qed.

Lemma to_uint_normal n : N.to_uint n = unorm (N.to_uint n).
Proof.
  rewrite <- (DecimalN.Unsigned.to_of (N.to_uint n)).
  by rewrite DecimalN.Unsigned.of_to.
Qed.

Lemma decimal_shape n :
  decimal n = [48%N] \/ exists c s, decimal n = c :: s /\ (49 <= c <= 57)%N.
Proof.
  unfold decimal. rewrite to_uint_normal. unfold unorm.
  pose proof (nzhead_nonzero (N.to_uint n)) as Hnz.
  destruct (nzhead (N.to_uint n)) as [|u|u|u|u|u|u|u|u|u|u]; simpl;
    [by left|by destruct (Hnz u)|right; eexists _, _; split; [done|lia]..].
Qed.

Lemma decimal_digits n : Forall is_digit (decimal n).
Proof. apply uint_chars_digits. Qed.

(** Up to 999 the number takes the three columns; from 1000 on it is
    printed in full, with no padding. *)
Lemma decimal_short n : (n < 1000)%N -> (length (decimal n) <= 3)%nat.
Proof.
  intros Hn. destruct (decimal_shape n) as [E|(c & s & E & Hc)]; [rewrite E; simpl; lia|].
  pose proof (int_of_decimal n) as V. rewrite E, int_of_cons in V.
  rewrite E. simpl length.
  destruct (le_lt_dec 3 (length s)) as [Hl|Hl]; [|lia]. exfalso.
  assert (10 ^ 3 <= 10 ^ N.of_nat (length s))%N by (apply N.pow_le_mono_r; lia).
  unfold digit_value in V. change (10 ^ 3)%N with 1000%N in *. nia.
Qed.

Lemma decimal_long n : (1000 <= n)%N -> (4 <= length (decimal n))%nat.
Proof.
  intros Hn. pose proof (int_of_lt _ (decimal_digits n)) as V.
  rewrite int_of_decimal in V.
  destruct (le_lt_dec 4 (length (decimal n))) as [Hl|Hl]; [done|]. exfalso.
  assert (10 ^ N.of_nat (length (decimal n)) <= 10 ^ 3)%N by (apply N.pow_le_mono_r; lia).
  change (10 ^ 3)%N with 1000%N in *.
  lia.
Qed.

Lemma decimal_nonempty n : (1 <= length (decimal n))%nat.
Proof.
  destruct (decimal_shape n) as [E|(c & s & E & Hc)]; rewrite E; simpl; lia.
Qed.

Lemma format_03d_width n :
  (3 <= length (format_03d n))%nat /\
  ((n < 1000)%N -> length (format_03d n) = 3%nat) /\
  ((1000 <= n)%N -> format_03d n = decimal n).
Proof.
  rewrite format_03d_length. split; [lia|]. split.
  - intros H. apply decimal_short in H. lia.
  - intros H. apply decimal_long in H. unfold format_03d.
    replace (3 - length (decimal n))%nat with 0%nat by lia. reflexivity.
Qed.

End Digits.

(** ** One call, one turn of the loop *)

Section Steps.

Lemma part_name_inj fn i j : part_name fn i = part_name fn j -> i = j.
Proof.
  unfold part_name. intros E.
  apply app_inv_head in E. apply app_inv_head in E.
  apply app_inv_tail in E. apply format_03d_inj in E. lia.
Qed.

Lemma path_join_inj dir a b : path_join dir a = path_join dir b -> a = b.
Proof. unfold path_join. intros E. apply app_inv_head in E. congruence. Qed.

Lemma path_join_not_dir dir a : path_join dir a <> dir.
Proof.
  unfold path_join. intros E. apply (f_equal (@length _)) in E.
  rewrite length_app in E. simpl in E. lia.
Qed.

Lemma node_at_join t dir a : node_at t (path_join dir a) = t !! path_join dir a.
Proof. unfold path_join. by destruct dir. Qed.

Lemma node_at_put_other t pb p : p <> fst pb -> node_at (put t pb) p = node_at t p.
Proof.
  intros Hne. unfold put, node_at. destruct p; [done|].
  by rewrite lookup_insert_ne.
Qed.

(** The writer's file system call. *)
Lemma write_text_spec dir name text w :
  (can_write (files w) dir name = true /\
   write_text dir name text w =
     (World (<[path_join dir name := File (utf8_len text) text]> (files w))
            (stdout w) (ticks w) (flushed w), Ret tt))
  \/ (can_write (files w) dir name = false /\
      exists e, write_text dir name text w = (w, Raise e)).
Proof.
  unfold can_write, isdir, write_text.
  destruct (node_at (files w) dir) as [[|sz c]|]; simpl; eauto.
  destruct (node_at (files w) (path_join dir name)) as [[|sz c]|]; simpl; eauto.
Qed.

Variable h : host.

Lemma update_progress_spec self sz w :
  files (fst (_update_progress h self sz w)) = files w /\
  flushed (fst (_update_progress h self sz w)) = flushed w /\
  ((exists self', snd (_update_progress h self sz w) = Ret self' /\ same_config self self')
   \/ (snd (_update_progress h self sz w) = Raise ZeroDivisionError /\ file_size self = 0%N)).
Proof.
  unfold _update_progress, bind, time_time, memory_rss, print, ret, raise. simpl.
  destruct (Qle_bool _ _); simpl.
  - destruct (file_size self =? 0)%N eqn:E; simpl.
    + apply N.eqb_eq in E. auto.
    + split; [done|]. split; [done|]. left. eexists. split; [done|]. by repeat split.
  - split; [done|]. split; [done|]. left. eexists. split; [done|]. by repeat split.
Qed.

Lemma write_statements_spec self stmts fn i w :
  let tgt := (path_join (output_dir self) (part_name fn i), stmts) in
  (can_write (files w) (output_dir self) (part_name fn i) = true /\
   snd (_write_statements_to_file self stmts fn i w) = Ret tt /\
   files (fst (_write_statements_to_file self stmts fn i w)) = put (files w) tgt /\
   flushed (fst (_write_statements_to_file self stmts fn i w)) = flushed w ++ [tgt])
  \/ (can_write (files w) (output_dir self) (part_name fn i) = false /\
      snd (_write_statements_to_file self stmts fn i w) = SysExit 1 /\
      files (fst (_write_statements_to_file self stmts fn i w)) = files w /\
      flushed (fst (_write_statements_to_file self stmts fn i w)) = flushed w).
Proof.
  intros tgt. unfold _write_statements_to_file, try_except, bind.
  destruct (write_text_spec (output_dir self) (part_name fn i) (join [LF; LF] stmts) w)
    as [[Hc E]|[Hc [e E]]]; rewrite E; [left|right]; simpl; auto.
Qed.

(** One turn of the loop against [Plan.step]. *)
Lemma for_line_refines fn line self l w :
  let X := for_line h fn line (self, l) w in
  let n := statements_per_file self in
  (snd X = Raise ZeroDivisionError /\ file_size self = 0%N /\
   files (fst X) = files w /\ flushed (fst X) = flushed w)
  \/ exists self', same_config self self' /\
       match snd (step n line l) with
       | None => snd X = Ret (self', fst (step n line l)) /\
                 files (fst X) = files w /\ flushed (fst X) = flushed w
       | Some b =>
           let tgt := (path_join (output_dir self) (part_name fn (current_file_index l)), b) in
           (can_write (files w) (output_dir self) (part_name fn (current_file_index l)) = true /\
            snd X = Ret (self', fst (step n line l)) /\
            files (fst X) = put (files w) tgt /\ flushed (fst X) = flushed w ++ [tgt])
           \/ (can_write (files w) (output_dir self) (part_name fn (current_file_index l)) = false /\
               snd X = SysExit 1 /\
               files (fst X) = files w /\ flushed (fst X) = flushed w)
       end.
Proof.
  intros X n. subst X. unfold for_line, bind. cbv beta iota.
  destruct (update_progress_spec self (utf8_len line) w) as (Hf & Hl & Hr).
  destruct (_update_progress h self (utf8_len line) w) as [w1 r1]. simpl in Hf, Hl, Hr.
  destruct Hr as [(self' & -> & Hcfg)|[-> Hz]]; [right|left; simpl; auto].
  exists self'. split; [done|].
  destruct Hcfg as (Hi & Ho & Hn & Hs & Ht).
  unfold step. fold n. rewrite Hn. fold n.
  destruct (is_comment line); simpl; [by rewrite Hf, Hl|].
  destruct (has_semicolon line); simpl; [|by rewrite Hf, Hl].
  destruct (truthy (strip (join [] (current_statement l ++ [line])))); simpl; [|by rewrite Hf, Hl].
  destruct (n <=? Z.of_nat (length (statements l ++ [strip (join [] (current_statement l ++ [line]))])));
    simpl; [|by rewrite Hf, Hl].
  destruct (write_statements_spec self'
              (statements l ++ [strip (join [] (current_statement l ++ [line]))])
              fn (current_file_index l) w1) as [(Hc & Hr & Hf' & Hl')|(Hc & Hr & Hf' & Hl')];
    rewrite Ho, Hf in Hc; rewrite ?Ho, ?Hf, ?Hl in Hf', Hl';
    destruct (_write_statements_to_file self' _ fn (current_file_index l) w1) as [w2 r2];
    simpl in *; subst r2; [left|right]; simpl; repeat split; congruence.
Qed.

End Steps.

(** ** The loop *)

Section PlanFacts.

Lemma sweep_cons_fst n line rest l :
  fst (sweep n (line :: rest) l)
  = opt_list (snd (step n line l)) ++ fst (sweep n rest (fst (step n line l))).
Proof. simpl. destruct (step n line l) as [l1 ob]. simpl. by destruct (sweep n rest l1). Qed.

Lemma sweep_cons_snd n line rest l :
  snd (sweep n (line :: rest) l) = snd (sweep n rest (fst (step n line l))).
Proof. simpl. destruct (step n line l) as [l1 ob]. simpl. by destruct (sweep n rest l1). Qed.

Lemma step_index n line l :
  current_file_index (fst (step n line l))
  = (length (opt_list (snd (step n line l))) + current_file_index l)%nat.
Proof.
  unfold step.
  repeat match goal with |- context [if ?b then _ else _] => destruct b end; reflexivity.
Qed.

Lemma targets_app dir fn i bs cs :
  targets dir fn i (bs ++ cs) = targets dir fn i bs ++ targets dir fn (length bs + i) cs.
Proof.
  revert i. induction bs as [|b bs IH]; intros i; simpl; [done|].
  rewrite IH. do 3 f_equal. lia.
Qed.

Lemma targets_length dir fn i bs : length (targets dir fn i bs) = length bs.
Proof. revert i. induction bs; intros; simpl; auto. Qed.

Lemma targets_snd dir fn i bs : map snd (targets dir fn i bs) = bs.
Proof. revert i. induction bs; intros; simpl; f_equal; auto. Qed.

Lemma targets_fst dir fn i bs :
  map fst (targets dir fn i bs)
  = map (fun j => path_join dir (part_name fn j)) (seq i (length bs)).
Proof. revert i. induction bs; intros; simpl; f_equal; auto. Qed.

Lemma put_all_app t p q : put_all t (p ++ q) = put_all (put_all t p) q.
Proof. apply fold_left_app. Qed.

Lemma can_write_put t dir fn i b j :
  can_write t dir (part_name fn j) = true ->
  can_write (put t (path_join dir (part_name fn i), b)) dir (part_name fn j) = true.
Proof.
  unfold can_write, isdir. intros H. apply andb_true_iff in H as [Hd Hn].
  rewrite node_at_put_other by (simpl; intros E; symmetry in E; by apply path_join_not_dir in E).
  rewrite Hd. simpl.
  destruct (decide (path_join dir (part_name fn j) = path_join dir (part_name fn i))) as [E|E].
  - rewrite E, node_at_join. unfold put. simpl. by rewrite lookup_insert_eq.
  - by rewrite node_at_put_other.
Qed.

Lemma writable_put t dir fn i b :
  writable t dir fn -> writable (put t (path_join dir (part_name fn i), b)) dir fn.
Proof. intros H j. apply can_write_put, H. Qed.

Lemma writable_put_all t dir fn i bs :
  writable t dir fn -> writable (put_all t (targets dir fn i bs)) dir fn.
Proof.
  revert t i. induction bs as [|b bs IH]; intros t i H; simpl; [done|].
  apply IH. by apply writable_put.
Qed.

Lemma writable_take t dir fn i bs k :
  writable t dir fn -> writable (put_all t (take k (targets dir fn i bs))) dir fn.
Proof.
  intros H.
  replace (take k (targets dir fn i bs)) with (targets dir fn i (take k bs)).
  - by apply writable_put_all.
  - revert i k. induction bs as [|b bs IH]; intros i [|k]; simpl; try done. by rewrite IH.
Qed.

End PlanFacts.

Section Loop.
Variable h : host.

Lemma same_config_trans a b c : same_config a b -> same_config b c -> same_config a c.
Proof. unfold same_config. intros (?&?&?&?&?) (?&?&?&?&?). repeat split; congruence. Qed.

Lemma same_config_refl a : same_config a a.
Proof. by repeat split. Qed.

Lemma for_lines_cons fn line rest sl w :
  for_lines h fn (line :: rest) sl w
  = match for_line h fn line sl w with
    | (w', Ret a) => for_lines h fn rest a w'
    | (w', Raise e) => (w', Raise e)
    | (w', SysExit c) => (w', SysExit c)
    end.
Proof. reflexivity. Qed.

(** The loop against [Plan.sweep]: what has been written is a prefix of the
    plan, and the whole plan when the loop runs to its end. *)
Lemma for_lines_refines fn lines : forall self l w,
  let X := for_lines h fn lines (self, l) w in
  let plan := targets (output_dir self) fn (current_file_index l)
                      (fst (sweep (statements_per_file self) lines l)) in
  exists k,
    (k <= length plan)%nat /\
    flushed (fst X) = flushed w ++ take k plan /\
    files (fst X) = put_all (files w) (take k plan) /\
    match snd X with
    | Ret (self', l') =>
        k = length plan /\
        l' = snd (sweep (statements_per_file self) lines l) /\ same_config self self'
    | Raise e => e = ZeroDivisionError /\ file_size self = 0%N /\ lines <> []
    | SysExit c =>
        c = 1 /\ exists i, can_write (files (fst X)) (output_dir self) (part_name fn i) = false
    end.
Proof.
  induction lines as [|line rest IH]; intros self l w X plan.
  - exists 0%nat. subst X plan. simpl. rewrite app_nil_r.
    repeat split; auto using same_config_refl; lia.
  - subst X. rewrite for_lines_cons.
    destruct (for_line_refines h fn line self l w) as [(Hr & Hz & Hf & Hl)|(self' & Hcfg & Hm)].
    + destruct (for_line h fn line (self, l) w) as [w1 r1]. simpl in *. subst r1.
      exists 0%nat. simpl. rewrite app_nil_r. repeat split; auto; try lia; try done.
    + assert (Hplan : plan = targets (output_dir self) fn (current_file_index l)
                        (opt_list (snd (step (statements_per_file self) line l)))
                      ++ targets (output_dir self') fn
                           (current_file_index (fst (step (statements_per_file self) line l)))
                           (fst (sweep (statements_per_file self') rest
                                       (fst (step (statements_per_file self) line l))))).
      { subst plan. rewrite sweep_cons_fst, targets_app, step_index.
        destruct Hcfg as (_ & -> & -> & _). done. }
      destruct (snd (step (statements_per_file self) line l)) as [b|] eqn:Eo.
      * destruct Hm as [(Hc & Hr & Hf & Hl)|(Hc & Hr & Hf & Hl)];
          destruct (for_line h fn line (self, l) w) as [w1 r1]; simpl in Hr, Hf, Hl; subst r1.
        -- destruct (IH self' (fst (step (statements_per_file self) line l)) w1)
             as (k & Hk0 & Hk1 & Hk2 & Hk3).
           exists (S k). rewrite Hplan. cbn [opt_list targets app take length].
           split; [lia|].
           split; [by rewrite Hk1, Hl, <- app_assoc|]. split; [by rewrite Hk2, Hf|].
           destruct (for_lines h fn rest _ w1) as [w2 [[self2 l2]|e|c]]; cbn [fst snd] in *.
           ++ destruct Hk3 as (Hle & -> & Hc2). split; [lia|]. split.
              ** rewrite sweep_cons_snd. by destruct Hcfg as (_ & _ & -> & _).
              ** eapply same_config_trans; eauto.
           ++ destruct Hk3 as (-> & Hz & _). destruct Hcfg as (_ & _ & _ & Hs & _).
              repeat split; congruence.
           ++ destruct Hk3 as (-> & i & Hi). split; [done|]. exists i.
              by destruct Hcfg as (_ & <- & _).
        -- exists 0%nat. simpl. rewrite app_nil_r. split; [lia|]. repeat split; auto.
           exists (current_file_index l). by rewrite Hf.
      * destruct Hm as (Hr & Hf & Hl).
        destruct (for_line h fn line (self, l) w) as [w1 r1]; simpl in Hr, Hf, Hl; subst r1.
        destruct (IH self' (fst (step (statements_per_file self) line l)) w1)
          as (k & Hk0 & Hk1 & Hk2 & Hk3).
        exists k. rewrite Hplan. cbn [opt_list targets app].
        split; [done|].
        split; [by rewrite Hk1, Hl|]. split; [by rewrite Hk2, Hf|].
        destruct (for_lines h fn rest _ w1) as [w2 [[self2 l2]|e|c]]; cbn [fst snd] in *.
        -- destruct Hk3 as (Hle & -> & Hc2). split; [done|]. split.
           ++ rewrite sweep_cons_snd. by destruct Hcfg as (_ & _ & -> & _).
           ++ eapply same_config_trans; eauto.
        -- destruct Hk3 as (-> & Hz & _). destruct Hcfg as (_ & _ & _ & Hs & _).
           repeat split; congruence.
        -- destruct Hk3 as (-> & i & Hi). split; [done|]. exists i.
           by destruct Hcfg as (_ & <- & _).
Qed.

End Loop.

(** ** The plan: statements and sizes *)

Section SweepFacts.

Lemma sweep_index n lines : forall l,
  current_file_index (snd (sweep n lines l))
  = (length (fst (sweep n lines l)) + current_file_index l)%nat.
Proof.
  induction lines as [|line rest IH]; intros l; [done|].
  rewrite sweep_cons_fst, sweep_cons_snd, IH, step_index, length_app. lia.
Qed.

Lemma last_statement_index l : current_file_index (last_statement l) = current_file_index l.
Proof.
  unfold last_statement.
  repeat match goal with |- context [if ?b then _ else _] => destruct b end; reflexivity.
Qed.

Lemma batches_eq n lines :
  batches n lines
  = fst (sweep n lines (Locals [] [] 0 0)) ++ wrap_up (snd (sweep n lines (Locals [] [] 0 0))).
Proof. unfold batches. by destruct (sweep n lines _). Qed.

(** The statements of all batches, in order, are the statements the scanner
    of the specification finds. *)
Lemma sweep_detect n lines : forall l,
  concat (fst (sweep n lines l)) ++ statements (last_statement (snd (sweep n lines l)))
  = statements l ++ Spec.detect (current_statement l) lines.
Proof.
  induction lines as [|line rest IH]; intros l.
  - cbn [sweep fst snd concat app Spec.detect]. unfold last_statement.
    destruct (current_statement l) as [|x b] eqn:Eb; [simpl; by rewrite app_nil_r|].
    cbn [truthy].
    destruct (strip (join [] (x :: b))); cbn [truthy statements]; [by rewrite app_nil_r|done].
  - rewrite sweep_cons_fst, sweep_cons_snd, concat_app, <- app_assoc, IH.
    unfold step. simpl Spec.detect.
    destruct (is_comment line); simpl; [done|].
    destruct (has_semicolon line) eqn:Hs; simpl; [|done].
    pose proof (statement_truthy (current_statement l) line Hs) as Ht.
    rewrite Ht.
    destruct (strip (join [] (current_statement l ++ [line]))) as [|c s] eqn:E; [done|].
    destruct (n <=? _); simpl; by rewrite ?app_nil_r, <- ?app_assoc.
Qed.

Lemma concat_wrap_up l : concat (wrap_up l) = statements (last_statement l).
Proof. unfold wrap_up. destruct (statements (last_statement l)); simpl; by rewrite ?app_nil_r. Qed.

Lemma batches_detect n lines : concat (batches n lines) = Spec.boundary_detection lines.
Proof.
  rewrite batches_eq, concat_app, concat_wrap_up, sweep_detect. reflexivity.
Qed.

(** Sizes: the loop only hands over full batches. *)
Lemma sweep_full n lines : forall l,
  0 < n -> Z.of_nat (length (statements l)) < n ->
  Forall (fun b => Z.of_nat (length b) = n) (fst (sweep n lines l)) /\
  Z.of_nat (length (statements (snd (sweep n lines l)))) < n.
Proof.
  induction lines as [|line rest IH]; intros l Hn Hl; [by split|].
  rewrite sweep_cons_fst, sweep_cons_snd.
  assert (K : Forall (fun b => Z.of_nat (length b) = n) (opt_list (snd (step n line l))) /\
              Z.of_nat (length (statements (fst (step n line l)))) < n).
  { unfold step.
    destruct (is_comment line); simpl; [by split|].
    destruct (has_semicolon line); simpl; [|by split].
    destruct (truthy _); simpl; [|by split].
    destruct (Z.leb_spec n (Z.of_nat (length (statements l ++
                [strip (join [] (current_statement l ++ [line]))])))) as [H|H]; simpl.
    - split; [|lia]. constructor; [|done].
      rewrite length_app in *. simpl in *. lia.
    - by split. }
  destruct K as [K1 K2]. destruct (IH _ Hn K2) as [I1 I2].
  split; [by apply Forall_app|done].
Qed.

(** With a bound of one or less every statement is a batch of its own. *)
Lemma sweep_single n lines : forall l,
  n <= 1 -> statements l = [] ->
  Forall (fun b => length b = 1%nat) (fst (sweep n lines l)) /\
  statements (snd (sweep n lines l)) = [].
Proof.
  induction lines as [|line rest IH]; intros l Hn Hl; [by split|].
  rewrite sweep_cons_fst, sweep_cons_snd.
  assert (K : Forall (fun b => length b = 1%nat) (opt_list (snd (step n line l))) /\
              statements (fst (step n line l)) = []).
  { unfold step. rewrite Hl.
    destruct (is_comment line); simpl; [by split|].
    destruct (has_semicolon line); simpl; [|by split].
    destruct (truthy _); simpl; [|by split].
    change (Z.of_nat 1) with 1.
    destruct (Z.leb_spec n 1) as [H|H]; [|lia]. simpl.
    split; [|done]. by repeat constructor. }
  destruct K as [K1 K2]. destruct (IH _ Hn K2) as [I1 I2].
  split; [by apply Forall_app|done].
Qed.

Lemma sweep_nonempty n lines : forall l,
  Forall (fun b => b <> []) (fst (sweep n lines l)).
Proof.
  induction lines as [|line rest IH]; intros l; [by constructor|].
  rewrite sweep_cons_fst. apply Forall_app. split; [|apply IH].
  unfold step.
  repeat match goal with |- context [if ?b then _ else _] => destruct b end;
    simpl; constructor; try done.
  by destruct (statements l).
Qed.

Lemma wrap_up_nonempty l : Forall (fun b => b <> []) (wrap_up l).
Proof. unfold wrap_up. destruct (statements (last_statement l)); by repeat constructor. Qed.

Lemma batches_nonempty n lines : Forall (fun b => b <> []) (batches n lines).
Proof.
  rewrite batches_eq. apply Forall_app. split; [apply sweep_nonempty|apply wrap_up_nonempty].
Qed.

Lemma last_statement_length l :
  (length (statements l) <= length (statements (last_statement l))
   <= S (length (statements l)))%nat.
Proof.
  unfold last_statement.
  repeat match goal with |- context [if ?b then _ else _] => destruct b end;
    simpl; rewrite ?length_app; simpl; lia.
Qed.

Lemma wrap_up_bounds n l :
  Z.of_nat (length (statements l)) < n ->
  Forall (fun b => 1 <= Z.of_nat (length b) <= n) (wrap_up l).
Proof.
  intros H. unfold wrap_up. pose proof (last_statement_length l) as K.
  destruct (statements (last_statement l)) as [|x b]; constructor; [|done].
  simpl in *. lia.
Qed.

End SweepFacts.

(** ** The body of [split_sql] *)

Section Body.
Variable h : host.

Lemma report_spec self l w :
  files (fst (report h self l w)) = files w /\
  flushed (fst (report h self l w)) = flushed w /\
  (snd (report h self l w) = Ret tt \/ snd (report h self l w) = Raise ZeroDivisionError).
Proof.
  unfold report, bind, time_time, print, raise. simpl.
  destruct (Qeq_bool _ _); simpl; auto.
Qed.

Lemma last_batch_spec self fn l w :
  let X := last_batch self fn l w in
  let tgt := (path_join (output_dir self) (part_name fn (current_file_index l)), statements l) in
  match statements l with
  | [] => X = (w, Ret l)
  | _ =>
      (can_write (files w) (output_dir self) (part_name fn (current_file_index l)) = true /\
       (exists l', snd X = Ret l') /\
       files (fst X) = put (files w) tgt /\ flushed (fst X) = flushed w ++ [tgt])
      \/ (can_write (files w) (output_dir self) (part_name fn (current_file_index l)) = false /\
          snd X = SysExit 1 /\ files (fst X) = files w /\ flushed (fst X) = flushed w)
  end.
Proof.
  intros X tgt. subst X. unfold last_batch.
  destruct (statements l) as [|s ss] eqn:E; [done|]. cbn [truthy]. unfold bind.
  subst tgt. rewrite <- E.
  destruct (write_statements_spec self (statements l) fn (current_file_index l) w)
    as [(Hc & Hr & Hf & Hl)|(Hc & Hr & Hf & Hl)];
    destruct (_write_statements_to_file self (statements l) fn (current_file_index l) w)
      as [w1 r1]; simpl in Hr, Hf, Hl; subst r1; [left|right]; simpl; eauto.
Qed.

(** The whole body against [Plan.batches]. *)
Lemma body_refines self fn lines w :
  let X := split_sql_body h self fn lines w in
  let plan := targets (output_dir self) fn 0 (batches (statements_per_file self) lines) in
  exists k,
    (k <= length plan)%nat /\
    flushed (fst X) = flushed w ++ take k plan /\
    files (fst X) = put_all (files w) (take k plan) /\
    match snd X with
    | Ret _ => k = length plan
    | Raise e =>
        e = ZeroDivisionError /\ ((file_size self = 0%N /\ lines <> []) \/ k = length plan)
    | SysExit c =>
        c = 1 /\ exists i, can_write (files (fst X)) (output_dir self) (part_name fn i) = false
    end.
Proof.
  intros X plan. subst X.
  set (n := statements_per_file self) in *.
  set (l0 := Locals [] [] 0 0).
  set (bs := fst (sweep n lines l0)). set (le := snd (sweep n lines l0)).
  assert (Hplan : plan = targets (output_dir self) fn 0 bs
                         ++ targets (output_dir self) fn (length bs) (wrap_up le)).
  { subst plan. rewrite batches_eq, targets_app. by rewrite Nat.add_0_r. }
  destruct (for_lines_refines h fn lines self l0 w) as (k & Hk0 & Hk1 & Hk2 & Hk3).
  fold n in Hk0, Hk1, Hk2, Hk3. cbn [current_file_index l0] in Hk0, Hk1, Hk2, Hk3.
  fold bs in Hk0, Hk1, Hk2, Hk3. fold le in Hk3.
  unfold split_sql_body, bind. fold l0.
  destruct (for_lines h fn lines (self, l0) w) as [w1 [[self1 l1]|e|c]]; cbn [fst snd] in *.
  - destruct Hk3 as (-> & -> & Hcfg). rewrite firstn_all in Hk1, Hk2.
    assert (Ho : output_dir self1 = output_dir self) by apply Hcfg.
    pose proof (last_batch_spec self1 fn (last_statement le) w1) as Hb.
    cbv zeta in Hb. rewrite last_statement_index in Hb.
    assert (Hi : current_file_index le = length bs).
    { subst le bs. rewrite sweep_index. simpl. lia. }
    rewrite Hi, Ho in Hb.
    unfold wrap_up in Hplan.
    destruct (statements (last_statement le)) as [|s ss] eqn:Es.
    + rewrite Hb. cbv beta iota. simpl in Hplan. rewrite app_nil_r in Hplan.
      destruct (report_spec self1 (last_statement le) w1) as (Rf & Rl & Rr).
      destruct (report h self1 (last_statement le) w1) as [w2 r2]. simpl in Rf, Rl, Rr.
      exists (length plan). cbn [fst snd]. rewrite firstn_all, Hplan, Rf, Rl.
      split; [done|]. split; [done|]. split; [done|].
      destruct Rr as [-> | ->]; auto.
    + destruct Hb as [(Hc & (l' & Hr) & Hf & Hl)|(Hc & Hr & Hf & Hl)];
        destruct (last_batch self1 fn (last_statement le) w1) as [w2 r2];
        simpl in Hr, Hf, Hl; subst r2; cbv beta iota.
      * destruct (report_spec self1 l' w2) as (Rf & Rl & Rr).
        destruct (report h self1 l' w2) as [w3 r3]. simpl in Rf, Rl, Rr.
        exists (length plan). cbn [fst snd]. rewrite firstn_all, Hplan, Rf, Rl, Hf, Hl, Hk1, Hk2.
        split; [done|]. split; [by rewrite <- app_assoc|].
        split; [by rewrite put_all_app|].
        destruct Rr as [-> | ->]; auto.
      * exists (length (targets (output_dir self) fn 0 bs)). cbn [fst snd].
        rewrite Hplan, take_app_length, Hf, Hl, length_app.
        split; [lia|]. split; [done|]. split; [done|]. split; [done|].
        by exists (length bs).
  - destruct Hk3 as (-> & Hz & Hne). exists k.
    rewrite Hplan, length_app, take_app_le by done.
    split; [lia|]. repeat split; auto.
  - destruct Hk3 as (-> & i & Hi). exists k.
    rewrite Hplan, length_app, take_app_le by done.
    split; [lia|]. repeat split; eauto.
Qed.

End Body.

(** ** [split_sql] *)

Section Run.
Variable h : host.
Variable stem : path -> str.

Lemma written_by_app {A} (m : M A) w new :
  flushed (fst (m w)) = flushed w ++ new -> written_by m w = new.
Proof. unfold written_by. intros ->. by rewrite drop_app_length. Qed.

(** [split_sql] against the plan: a run writes a prefix of what is planned,
    and all of it unless a write fails or the progress display divides by
    a zero [file_size]. *)
Lemma split_sql_refines self w :
  let X := split_sql h stem self w in
  let plan := planned stem self (files w) in
  exists k,
    (k <= length plan)%nat /\
    flushed (fst X) = flushed w ++ take k plan /\
    files (fst X) = put_all (files w) (take k plan) /\
    (snd X = Ret tt \/ snd X = SysExit 1) /\
    (writable (files w) (output_dir self) (stem (input_file self)) ->
     (forall size text, node_at (files w) (input_file self) = Some (File size text) ->
                        file_size self = 0%N -> text = []) ->
     k = length plan).
Proof.
  intros X plan. subst X plan. unfold split_sql, planned, try_except, bind, open_read.
  destruct (node_at (files w) (input_file self)) as [[|size text]|] eqn:En.
  1,3: exists 0%nat; simpl; rewrite app_nil_r; repeat split; auto.
  destruct (body_refines h self (stem (input_file self)) (readlines text) w)
    as (k & Hk0 & Hk1 & Hk2 & Hk3).
  destruct (split_sql_body h self (stem (input_file self)) (readlines text) w)
    as [w1 [[]|e|c]]; cbn [fst snd] in *.
  - exists k. repeat split; auto.
  - exists k. simpl. destruct Hk3 as (-> & Hk3).
    repeat split; auto. intros Hw Hsz.
    destruct Hk3 as [(Hz & Hne)|Hk]; [|done].
    rewrite (Hsz _ _ eq_refl Hz) in Hne. done.
  - exists k. destruct Hk3 as (-> & i & Hi).
    repeat split; auto. intros Hw Hsz. exfalso.
    rewrite Hk2 in Hi.
    pose proof (writable_take (files w) (output_dir self) (stem (input_file self)) 0
                  (batches (statements_per_file self) (readlines text)) k Hw i) as K.
    congruence.
Qed.

(** Files of a plan are distinct, so each keeps the batch written to it. *)
Lemma put_other t pb p : p <> fst pb -> put t pb !! p = t !! p.
Proof. intros H. unfold put. by rewrite lookup_insert_ne. Qed.

Lemma put_all_other t plan p : p ∉ map fst plan -> put_all t plan !! p = t !! p.
Proof.
  revert t. induction plan as [|pb plan IH]; intros t Hp; simpl; [done|].
  simpl in Hp. apply not_elem_of_cons in Hp as [H1 H2].
  by rewrite IH, put_other.
Qed.

Lemma targets_fresh dir fn first bs i :
  (i < first)%nat -> path_join dir (part_name fn i) ∉ map fst (targets dir fn first bs).
Proof.
  revert first. induction bs as [|b bs IH]; intros first Hi; simpl; [apply not_elem_of_nil|].
  apply not_elem_of_cons. split.
  - intros E. apply path_join_inj, part_name_inj in E. lia.
  - apply IH. lia.
Qed.

Lemma targets_NoDup dir fn first bs : NoDup (map fst (targets dir fn first bs)).
Proof.
  revert first. induction bs as [|b bs IH]; intros first; simpl; constructor; [|apply IH].
  apply targets_fresh. lia.
Qed.

Lemma put_all_holds t dir fn bs : forall first i b,
  bs !! i = Some b ->
  holds (put_all t (targets dir fn first bs)) (path_join dir (part_name fn (first + i))) b.
Proof.
  revert t. induction bs as [|b0 bs IH]; intros t first i b Hb; [done|].
  destruct i as [|i]; simpl in *.
  - injection Hb as ->. unfold holds. rewrite put_all_other.
    + rewrite Nat.add_0_r. unfold put. simpl. rewrite lookup_insert_eq. eauto.
    + rewrite Nat.add_0_r. apply targets_fresh. lia.
  - replace (first + S i)%nat with (S first + i)%nat by lia. by apply IH.
Qed.

Lemma targets_take dir fn first bs k :
  take k (targets dir fn first bs) = targets dir fn first (take k bs).
Proof. revert first k. induction bs as [|b bs IH]; intros first [|k]; simpl; try done. by rewrite IH. Qed.

Lemma targets_lookup dir fn first bs i p b :
  targets dir fn first bs !! i = Some (p, b) ->
  p = path_join dir (part_name fn (first + i)) /\ bs !! i = Some b.
Proof.
  revert first i. induction bs as [|b0 bs IH]; intros first i H; [done|].
  destruct i as [|i]; simpl in *.
  - injection H as <- <-. by rewrite Nat.add_0_r.
  - apply IH in H as [-> H]. split; [f_equal; f_equal; lia|done].
Qed.

End Run.

(** ** Batches, statements and names of a run *)

Section BatchFacts.

Lemma wrap_up_length l : (length (wrap_up l) <= 1)%nat.
Proof. unfold wrap_up. destruct (statements (last_statement l)); simpl; lia. Qed.

Lemma batches_bounds n lines i b :
  0 < n -> batches n lines !! i = Some b ->
  1 <= Z.of_nat (length b) <= n /\
  ((S i < length (batches n lines))%nat -> Z.of_nat (length b) = n).
Proof.
  intros Hn. rewrite batches_eq.
  set (l0 := Locals [] [] 0 0).
  destruct (sweep_full n lines l0 Hn) as [Hfull Hrest]; [simpl; lia|].
  pose proof (wrap_up_bounds n _ Hrest) as Hlast.
  pose proof (wrap_up_length (snd (sweep n lines l0))) as Hlen.
  rewrite length_app. intros Hb. apply lookup_app_Some in Hb as [Hb|[Hge Hb]].
  - rewrite Forall_lookup in Hfull. specialize (Hfull _ _ Hb). simpl in Hfull.
    split; [lia|done].
  - rewrite Forall_lookup in Hlast. specialize (Hlast _ _ Hb). simpl in Hlast.
    apply lookup_lt_Some in Hb. split; [done|]. lia.
Qed.

Lemma batches_none n lines : Spec.boundary_detection lines = [] -> batches n lines = [].
Proof.
  intros H. rewrite <- batches_detect with (n := n) in H.
  pose proof (batches_nonempty n lines) as Hne.
  destruct (batches n lines) as [|b bs]; [done|].
  apply Forall_cons in Hne as [Hb _]. simpl in H. by destruct b.
Qed.

End BatchFacts.

Section Claims.
Variable h : host.
Variable stem : path -> str.

(** What [split_sql] has written, in one statement. *)
Lemma split_sql_written self w :
  exists k bs,
    bs = take k match node_at (files w) (input_file self) with
                | Some (File _ text) => batches (statements_per_file self) (readlines text)
                | _ => []
                end /\
    written_by (split_sql h stem self) w
      = targets (output_dir self) (stem (input_file self)) 0 bs /\
    files (fst (split_sql h stem self w))
      = put_all (files w) (targets (output_dir self) (stem (input_file self)) 0 bs) /\
    (writable (files w) (output_dir self) (stem (input_file self)) ->
     (forall size text, node_at (files w) (input_file self) = Some (File size text) ->
                        file_size self = 0%N -> text = []) ->
     forall size text, node_at (files w) (input_file self) = Some (File size text) ->
     bs = batches (statements_per_file self) (readlines text)).
Proof.
  destruct (split_sql_refines h stem self w) as (k & Hk0 & Hk1 & Hk2 & _ & Hk4).
  exists k. eexists. split; [reflexivity|].
  apply written_by_app in Hk1. rewrite Hk1, Hk2. unfold planned in *.
  destruct (node_at (files w) (input_file self)) as [[|size text]|] eqn:En.
  - rewrite !take_nil. repeat split; try done.
  - rewrite targets_take. repeat split; try done.
    intros Hw Hsz size' text' E. injection E as <- <-.
    rewrite Hk4 by done. rewrite targets_length. apply firstn_all.
  - rewrite !take_nil. repeat split; try done.
Qed.

(** C1. With a positive [statements_per_file], every part file a run of
    [split_sql] writes holds the batch flushed to it; a batch has between 1
    and [statements_per_file] statements, and exactly [statements_per_file]
    unless it is the last one written; when the scanner finds no statement
    in the input nothing is written. This holds for every run, also one
    that a failing write or the progress display cuts short. *)
Theorem batch_size_bound self w :
  0 < statements_per_file self ->
  let new := written_by (split_sql h stem self) w in
  (forall i p b, new !! i = Some (p, b) ->
     holds (files (fst (split_sql h stem self w))) p b /\
     1 <= Z.of_nat (length b) <= statements_per_file self /\
     ((S i < length new)%nat -> Z.of_nat (length b) = statements_per_file self)) /\
  (forall size text,
     node_at (files w) (input_file self) = Some (File size text) ->
     Spec.boundary_detection (readlines text) = [] -> new = []).
Proof.
  intros Hn new. subst new.
  destruct (split_sql_written self w) as (k & bs & Hbs & Hnew & Hfiles & _).
  rewrite Hnew, Hfiles. split.
  - intros i p b Hi. apply targets_lookup in Hi as [-> Hb]. split.
    { by apply (put_all_holds _ _ _ bs 0 i b). }
    rewrite targets_length.
    destruct (node_at (files w) (input_file self)) as [[|size text]|];
      [subst bs; by rewrite take_nil in Hb| |subst bs; by rewrite take_nil in Hb].
    subst bs. apply lookup_take_Some in Hb as [Hb Hik].
    destruct (batches_bounds _ _ _ _ Hn Hb) as [H1 H2]. split; [done|].
    intros Hlt. apply H2. rewrite length_take in Hlt. lia.
  - intros size text En Hd. rewrite En in Hbs.
    rewrite (batches_none _ _ Hd), take_nil in Hbs. by subst bs.
Qed.

(** C3. When the input is a file, [file_size] is 0 only for an empty one,
    and no part file is barred, the statements of the batches written, in
    the order of the files and inside each file, are exactly the statements
    the scanner of the specification finds in one pass over the input; the
    files are numbered in that order and each holds its batch. *)
Theorem statements_preserved self w size text :
  node_at (files w) (input_file self) = Some (File size text) ->
  (file_size self = 0%N -> text = []) ->
  writable (files w) (output_dir self) (stem (input_file self)) ->
  let new := written_by (split_sql h stem self) w in
  statements_written (split_sql h stem self) w = Spec.boundary_detection (readlines text) /\
  map fst new
    = map (fun i => path_join (output_dir self) (part_name (stem (input_file self)) i))
          (seq 0 (length new)) /\
  (forall p b, (p, b) ∈ new -> holds (files (fst (split_sql h stem self w))) p b).
Proof.
  intros En Hsz Hw new. subst new. unfold statements_written.
  destruct (split_sql_written self w) as (k & bs & _ & Hnew & Hfiles & Hall).
  rewrite Hnew, Hfiles.
  assert (Hbs : bs = batches (statements_per_file self) (readlines text)).
  { apply (Hall Hw) with (size := size); [|done].
    intros size' text' E. rewrite En in E. by injection E as <- <-. }
  rewrite targets_snd, targets_fst, targets_length, Hbs, batches_detect.
  split; [done|]. split; [done|].
  intros p b Hin. apply list_elem_of_lookup in Hin as [i Hi].
  apply targets_lookup in Hi as [-> Hb].
  by apply (put_all_holds _ _ _ _ 0 i b).
Qed.

(** C4. The files a run writes are, in order, [stem_part001.sql],
    [stem_part002.sql], ... up to the number of files written, in the
    output directory: numbered from 1 without a gap, all distinct and all
    present afterwards. The number is printed on at least three columns; it
    denotes the index; below 1000 it takes exactly three columns and from
    1000 on it is the plain decimal number. *)
Theorem part_names_contiguous self w :
  let new := written_by (split_sql h stem self) w in
  map fst new
    = map (fun i => output_dir self
                    ++ [stem (input_file self) ++ lit "_part"
                        ++ format_03d (N.of_nat i + 1) ++ lit ".sql"])
          (seq 0 (length new)) /\
  NoDup (map fst new) /\
  (forall p, p ∈ map fst new ->
     exists size text, files (fst (split_sql h stem self w)) !! p = Some (File size text)) /\
  (forall n : N,
     (3 <= length (format_03d n))%nat /\ int_of (format_03d n) = n /\
     ((n < 1000)%N -> length (format_03d n) = 3%nat) /\
     ((1000 <= n)%N -> format_03d n = decimal n)).
Proof.
  intros new. subst new.
  destruct (split_sql_written self w) as (k & bs & _ & Hnew & Hfiles & _).
  rewrite Hnew, Hfiles, targets_fst, targets_length.
  split; [reflexivity|]. split; [rewrite <- targets_fst; apply targets_NoDup|]. split.
  - intros p Hp. rewrite <- targets_fst in Hp.
    apply list_elem_of_fmap in Hp as [[p' b] [-> Hin]].
    apply list_elem_of_lookup in Hin as [i Hi].
    apply targets_lookup in Hi as [-> Hb].
    destruct (put_all_holds (files w) (output_dir self) (stem (input_file self)) bs 0 i b Hb)
      as [size Hs].
    simpl in *. eauto.
  - intros n. destruct (format_03d_width n) as (H1 & H2 & H3).
    repeat split; auto using int_of_format_03d.
Qed.

End Claims.

(** ** Comment lines, the last statement, lines with semicolons *)

Section ScanFacts.

Lemma sweep_app n a b l :
  sweep n (a ++ b) l
  = (fst (sweep n a l) ++ fst (sweep n b (snd (sweep n a l))),
     snd (sweep n b (snd (sweep n a l)))).
Proof.
  revert l. induction a as [|x a IH]; intros l.
  - simpl. by destruct (sweep n b l).
  - change ((x :: a) ++ b) with (x :: (a ++ b)).
    rewrite (surjective_pairing (sweep n (x :: a ++ b) l)).
    rewrite !sweep_cons_fst, !sweep_cons_snd, IH. simpl. by rewrite app_assoc.
Qed.

Lemma sweep_comment n line rest l :
  is_comment line = true -> sweep n (line :: rest) l = sweep n rest l.
Proof.
  intros H. rewrite (surjective_pairing (sweep n (line :: rest) l)).
  rewrite sweep_cons_fst, sweep_cons_snd. unfold step. rewrite H. simpl.
  by destruct (sweep n rest l).
Qed.

Lemma batches_comment n before line after :
  is_comment line = true -> batches n (before ++ line :: after) = batches n (before ++ after).
Proof.
  intros H. rewrite !batches_eq, !sweep_app. cbn [fst snd].
  by rewrite (sweep_comment _ _ _ _ H).
Qed.

(** The scanner on an input without terminator after some point. *)
Lemma detect_unterminated tl : forall buffer,
  Forall (fun l => is_comment l = true \/ has_semicolon l = false) tl ->
  Spec.detect buffer tl
  = match strip (join [] (buffer ++ List.filter not_comment tl)) with
    | [] => []
    | statement => [statement]
    end.
Proof.
  induction tl as [|x tl IH]; intros buffer H; simpl.
  - by rewrite app_nil_r.
  - apply Forall_cons in H as [Hx H]. unfold not_comment at 1.
    destruct (is_comment x) eqn:Ec; simpl; [by apply IH|].
    destruct Hx as [Hx|Hx]; [done|]. rewrite Hx, IH by done.
    by rewrite <- app_assoc.
Qed.

Lemma detect_terminated ls0 t tl : forall buffer,
  is_comment t = false -> has_semicolon t = true ->
  Spec.detect buffer ((ls0 ++ [t]) ++ tl)
  = Spec.detect buffer (ls0 ++ [t]) ++ Spec.detect [] tl.
Proof.
  intros buffer Hc Hs. revert buffer.
  induction ls0 as [|x ls0 IH]; intros buffer; simpl.
  - rewrite Hc, Hs.
    change (strip (join [] [])) with (@nil N).
    destruct (strip (join [] (buffer ++ [t]))); simpl; by rewrite ?app_nil_r.
  - destruct (is_comment x); [apply IH|].
    destruct (has_semicolon x); [|apply IH].
    destruct (strip (join [] (buffer ++ [x]))); simpl; by rewrite IH.
Qed.

Lemma detect_trailing ls tl :
  (ls = [] \/ exists ls0 t, ls = ls0 ++ [t] /\ is_comment t = false /\ has_semicolon t = true) ->
  Forall (fun l => is_comment l = true \/ has_semicolon l = false) tl ->
  Spec.boundary_detection (ls ++ tl)
  = Spec.boundary_detection ls
    ++ match strip (join [] (List.filter not_comment tl)) with
       | [] => []
       | statement => [statement]
       end.
Proof.
  unfold Spec.boundary_detection.
  intros [->|(ls0 & t & -> & Hc & Hs)] Htl.
  - simpl app. change (Spec.detect [] []) with (@nil (list N)). simpl app.
    by rewrite detect_unterminated.
  - rewrite detect_terminated by done. by rewrite (detect_unterminated tl []).
Qed.

(** Every input splits this way: up to its last terminating line, and the
    rest. *)
Lemma lines_split_at_last_terminator lines :
  exists ls tl,
    lines = ls ++ tl /\
    (ls = [] \/
     exists ls0 t, ls = ls0 ++ [t] /\ is_comment t = false /\ has_semicolon t = true) /\
    Forall (fun l => is_comment l = true \/ has_semicolon l = false) tl.
Proof.
  induction lines as [|x lines IH] using rev_ind.
  - exists [], []. repeat split; auto.
  - destruct (is_comment x) eqn:Ec; [|destruct (has_semicolon x) eqn:Es].
    + destruct IH as (ls & tl & -> & Hls & Htl). exists ls, (tl ++ [x]).
      rewrite app_assoc. repeat split; auto.
      apply Forall_app. split; [done|]. constructor; auto.
    + exists (lines ++ [x]), []. rewrite app_nil_r.
      split; [done|]. split; [right; by exists lines, x|constructor].
    + destruct IH as (ls & tl & -> & Hls & Htl). exists ls, (tl ++ [x]).
      rewrite app_assoc. repeat split; auto.
      apply Forall_app. split; [done|]. constructor; auto.
Qed.

End ScanFacts.

Section LineClaims.
Variable h : host.

(** A run of the body that no write failure and no zero [file_size] cuts
    short writes all its batches. *)
Lemma body_written self fn lines w :
  file_size self <> 0%N -> writable (files w) (output_dir self) fn ->
  written_by (split_sql_body h self fn lines) w
    = targets (output_dir self) fn 0 (batches (statements_per_file self) lines) /\
  files (fst (split_sql_body h self fn lines w))
    = put_all (files w) (targets (output_dir self) fn 0 (batches (statements_per_file self) lines)) /\
  (snd (split_sql_body h self fn lines w) = Ret tt \/
   snd (split_sql_body h self fn lines w) = Raise ZeroDivisionError).
Proof.
  intros Hsz Hw.
  destruct (body_refines h self fn lines w) as (k & Hk0 & Hk1 & Hk2 & Hk3).
  assert (Hk : k = length (targets (output_dir self) fn 0
                             (batches (statements_per_file self) lines)) /\
               (snd (split_sql_body h self fn lines w) = Ret tt \/
                snd (split_sql_body h self fn lines w) = Raise ZeroDivisionError)).
  { destruct (snd (split_sql_body h self fn lines w)) as [[]|e|c].
    - auto.
    - destruct Hk3 as (-> & [(Hz & _)|Hk]); [done|auto].
    - exfalso. destruct Hk3 as (_ & i & Hi). rewrite Hk2 in Hi.
      pose proof (writable_take (files w) (output_dir self) fn 0
                    (batches (statements_per_file self) lines) k Hw i). congruence. }
  destruct Hk as [-> Hr]. rewrite firstn_all in Hk1, Hk2.
  apply written_by_app in Hk1. auto.
Qed.

Lemma body_statements self fn lines w :
  file_size self <> 0%N -> writable (files w) (output_dir self) fn ->
  statements_written (split_sql_body h self fn lines) w = Spec.boundary_detection lines.
Proof.
  intros Hsz Hw. unfold statements_written.
  destruct (body_written self fn lines w Hsz Hw) as (-> & _).
  by rewrite targets_snd, batches_detect.
Qed.

(** C5. A line whose trimmed form starts with [--] or [/*] is skipped: the
    turn of the loop leaves the locals (statement buffer, batch, counters),
    the files and the flushes as they were, whatever the line contains (the
    turn fails only where the progress display divides by a zero
    [file_size]); an input with the line and the input without it write the
    same files; and the line followed by [SELECT 1;] yields the one
    statement [SELECT 1;]. *)
Theorem comment_line_skipped line :
  is_comment line = true ->
  (forall fn self l w,
     files (fst (for_line h fn line (self, l) w)) = files w /\
     flushed (fst (for_line h fn line (self, l) w)) = flushed w /\
     ((exists self', snd (for_line h fn line (self, l) w) = Ret (self', l)) \/
      (snd (for_line h fn line (self, l) w) = Raise ZeroDivisionError /\
       file_size self = 0%N))) /\
  (forall fn self w before after,
     file_size self <> 0%N -> writable (files w) (output_dir self) fn ->
     written_by (split_sql_body h self fn (before ++ line :: after)) w
       = written_by (split_sql_body h self fn (before ++ after)) w /\
     files (fst (split_sql_body h self fn (before ++ line :: after) w))
       = files (fst (split_sql_body h self fn (before ++ after) w))) /\
  (forall fn self w,
     file_size self <> 0%N -> writable (files w) (output_dir self) fn ->
     statements_written (split_sql_body h self fn [line; lit "SELECT 1;" ++ [LF]]) w
       = [lit "SELECT 1;"]).
Proof.
  intros Hc. split; [|split].
  - intros fn self l w.
    destruct (for_line_refines h fn line self l w) as [(Hr & Hz & Hf & Hl)|(self' & _ & Hm)].
    + auto.
    + unfold step in Hm. rewrite Hc in Hm. simpl in Hm. destruct Hm as (Hr & Hf & Hl).
      eauto.
  - intros fn self w before after Hsz Hw.
    destruct (body_written self fn (before ++ line :: after) w Hsz Hw) as (-> & -> & _).
    destruct (body_written self fn (before ++ after) w Hsz Hw) as (-> & -> & _).
    by rewrite (batches_comment _ _ _ _ Hc).
  - intros fn self w Hsz Hw. rewrite body_statements by done.
    unfold Spec.boundary_detection. simpl Spec.detect. rewrite Hc. reflexivity.
Qed.

(** C6. In a run that nothing cuts short, when the input ends with lines
    that are comments or carry no semicolon, after an empty or terminated
    beginning, the statements written are those of the beginning followed
    by the remaining lines (comments left out) joined and trimmed, if that
    is not empty. The input [SELECT 1;\nSELECT 2] yields [SELECT 1;] and
    [SELECT 2]. *)
Theorem trailing_statement_kept fn self w :
  file_size self <> 0%N -> writable (files w) (output_dir self) fn ->
  (forall ls tl,
     (ls = [] \/
      exists ls0 t, ls = ls0 ++ [t] /\ is_comment t = false /\ has_semicolon t = true) ->
     Forall (fun l => is_comment l = true \/ has_semicolon l = false) tl ->
     statements_written (split_sql_body h self fn (ls ++ tl)) w
     = statements_written (split_sql_body h self fn ls) w
       ++ match strip (join [] (List.filter (fun l => negb (is_comment l)) tl)) with
          | [] => []
          | statement => [statement]
          end) /\
  statements_written
    (split_sql_body h self fn (readlines (lit "SELECT 1;" ++ [LF] ++ lit "SELECT 2"))) w
  = [lit "SELECT 1;"; lit "SELECT 2"].
Proof.
  intros Hsz Hw. split.
  - intros ls tl Hls Htl. rewrite !body_statements by done.
    by apply detect_trailing.
  - rewrite body_statements by done. reflexivity.
Qed.

(** C7. A line that is not a comment and contains a semicolon, however
    many, ends exactly one statement: the buffer and the whole line, joined
    and trimmed, which is never empty. The turn counts one statement more,
    empties the buffer, and the statement is the last one of the batch or
    of the file flushed in this turn. The turn ends otherwise only on a
    failed write or a division by a zero [file_size], and ends well when
    neither can happen. *)
Theorem semicolon_line_one_statement line :
  is_comment line = false -> has_semicolon line = true ->
  forall fn self l w,
    let statement := strip (join [] (current_statement l ++ [line])) in
    statement <> [] /\
    match snd (for_line h fn line (self, l) w) with
    | Ret (self', l') =>
        statement_count l' = S (statement_count l) /\
        current_statement l' = [] /\
        statements_written (for_line h fn line (self, l)) w ++ statements l'
          = statements l ++ [statement]
    | Raise e => e = ZeroDivisionError /\ file_size self = 0%N
    | SysExit c =>
        c = 1 /\
        can_write (files w) (output_dir self) (part_name fn (current_file_index l)) = false
    end /\
    (file_size self <> 0%N ->
     can_write (files w) (output_dir self) (part_name fn (current_file_index l)) = true ->
     exists self' l', snd (for_line h fn line (self, l) w) = Ret (self', l')).
Proof.
  intros Hc Hs fn self l w statement.
  pose proof (statement_truthy (current_statement l) line Hs) as Ht. fold statement in Ht.
  split; [by apply truthy_true|].
  unfold statements_written.
  destruct (for_line_refines h fn line self l w) as [(Hr & Hz & Hf & Hl)|(self' & _ & Hm)].
  { rewrite Hr. split; [done|]. intros Hsz. done. }
  unfold step in Hm. rewrite Hc, Hs in Hm. fold statement in Hm. rewrite Ht in Hm.
  destruct (statements_per_file self <=? _) eqn:En; cbn [fst snd] in Hm.
  - destruct Hm as [(Hw & Hr & Hf & Hl)|(Hw & Hr & Hf & Hl)]; rewrite Hr.
    + apply written_by_app in Hl. rewrite Hl. simpl. rewrite !app_nil_r.
      repeat split; eauto.
    + split; [done|]. intros _ Hw'. congruence.
  - destruct Hm as (Hr & Hf & Hl). rewrite Hr.
    rewrite <- (app_nil_r (flushed w)) in Hl. apply written_by_app in Hl. rewrite Hl.
    simpl. repeat split; eauto.
Qed.

End LineClaims.

(** ** The constructor *)

Section Makedirs.

Lemma on_way_cons base c rest q :
  on_way base (c :: rest) q <-> q = base ++ [c] \/ on_way (base ++ [c]) rest q.
Proof.
  unfold on_way. split.
  - intros (k & Hk & ->). destruct k as [|[|k]]; [lia|by left|right].
    exists (S k). simpl in *. split; [lia|]. by rewrite <- app_assoc.
  - intros [->|(k & Hk & ->)].
    + exists 1%nat. simpl. split; [lia|]. by rewrite take_0.
    + exists (S k). simpl. split; [lia|]. by rewrite <- app_assoc.
Qed.

Lemma on_way_nonempty base rest q : on_way base rest q -> q <> [].
Proof.
  intros (k & Hk & ->) E. apply app_eq_nil in E as [_ E].
  destruct rest, k; simpl in *; try lia; done.
Qed.

Lemma node_at_lookup t q : q <> [] -> node_at t q = t !! q.
Proof. by destruct q. Qed.

Lemma on_way_longer base rest q : on_way base rest q -> (length base < length q)%nat.
Proof.
  intros (k & Hk & ->). rewrite length_app, length_take. lia.
Qed.

Lemma mkdirs_from_spec rest : forall base t,
  (forall q size text, on_way base rest q -> t !! q <> Some (File size text)) ->
  exists t', mkdirs_from base rest t = inl t' /\
             (forall q, on_way base rest q -> t' !! q = Some Dir) /\
             (forall q, ~ on_way base rest q -> t' !! q = t !! q).
Proof.
  induction rest as [|c rest IH]; intros base t Hfree.
  - exists t. split; [done|]. split; [|done].
    intros q (k & Hk & _). simpl in Hk. lia.
  - simpl. rewrite node_at_lookup by (by destruct base).
    assert (Hhere : on_way base (c :: rest) (base ++ [c])) by (apply on_way_cons; by left).
    assert (Hnot : ~ on_way (base ++ [c]) rest (base ++ [c])).
    { intros H. apply on_way_longer in H. lia. }
    destruct (t !! (base ++ [c])) as [[|size text]|] eqn:E.
    + destruct (IH (base ++ [c]) t) as (t' & Ht & Hon & Hoff).
      { intros q size text Hq. apply Hfree, on_way_cons. by right. }
      exists t'. split; [done|]. split.
      * intros q Hq. apply on_way_cons in Hq as [->|Hq]; [|by apply Hon].
        by rewrite Hoff.
      * intros q Hq. apply Hoff. intros H. apply Hq, on_way_cons. by right.
    + by destruct (Hfree _ size text Hhere).
    + destruct (IH (base ++ [c]) (<[base ++ [c] := Dir]> t)) as (t' & Ht & Hon & Hoff).
      { intros q size text Hq.
        rewrite lookup_insert_ne by (intros <-; done).
        apply Hfree, on_way_cons. by right. }
      exists t'. split; [done|]. split.
      * intros q Hq. apply on_way_cons in Hq as [->|Hq]; [|by apply Hon].
        rewrite Hoff by done. apply lookup_insert_eq.
      * intros q Hq. rewrite Hoff.
        -- apply lookup_insert_ne. intros <-. apply Hq, on_way_cons. by left.
        -- intros H. apply Hq, on_way_cons. by right.
Qed.

Lemma on_way_root rest q : on_way [] rest q <-> q <> [] /\ q `prefix_of` rest.
Proof.
  split.
  - intros H. split; [by apply on_way_nonempty in H|].
    destruct H as (k & Hk & ->). simpl. exists (drop k rest). by rewrite take_drop.
  - intros [Hne [tl ->]]. exists (length q). simpl. rewrite take_app_length.
    split; [|done]. rewrite length_app. destruct q; [done|]. simpl. lia.
Qed.

End Makedirs.

Section Constructor.
Variable h : host.

(** C10, as the code has it. When the input path does not exist, is
    neither the output directory nor one of its ancestors, and no component
    of the output path is a regular file, the constructor raises the
    missing-input error after it has made the output directory and every
    directory above it; nothing else in the tree changes. *)
Theorem init_missing_input input output n w :
  node_at (files w) input = None ->
  ~ input `prefix_of` output ->
  (forall p size text, p `prefix_of` output -> node_at (files w) p <> Some (File size text)) ->
  snd (__init__ h input output n w) = Raise FileNotFoundError /\
  isdir (files (fst (__init__ h input output n w))) output = true /\
  (forall p, p `prefix_of` output ->
             isdir (files (fst (__init__ h input output n w))) p = true) /\
  (forall q, ~ q `prefix_of` output ->
             files (fst (__init__ h input output n w)) !! q = files w !! q).
Proof.
  intros Hin Hpre Hfree.
  assert (Hne : input <> []) by (intros ->; done).
  destruct (mkdirs_from_spec output [] (files w)) as (t' & Ht & Hon & Hoff).
  { intros q size text Hq. apply on_way_root in Hq as [Hq1 Hq2].
    rewrite <- node_at_lookup by done. by apply Hfree. }
  unfold __init__, bind, makedirs, path_exists, raise. rewrite Ht. cbn [files].
  assert (Hin' : node_at t' input = None).
  { rewrite node_at_lookup in * by done. rewrite Hoff; [done|].
    intros H. apply on_way_root in H as [_ H]. done. }
  rewrite Hin'. cbn [negb fst snd files].
  assert (Hdirs : forall p, p `prefix_of` output -> isdir t' p = true).
  { intros p Hp. unfold isdir. destruct p as [|c p]; [done|].
    rewrite node_at_lookup by done. rewrite Hon; [done|]. by apply on_way_root. }
  split; [done|]. split; [by apply Hdirs|]. split; [done|].
  intros q Hq. apply Hoff. intros H. apply on_way_root in H as [_ H]. done.
Qed.

End Constructor.

(** ** The writer; a bound that is not checked; the progress display *)

Section Writer.

(** C8. The writer names its file after the index plus one, printed on at
    least three columns, and gives it the statements joined by a blank
    line, with nothing after the last one. Where the output directory is
    there and the name is not taken by a directory, the file is written
    whatever was under the name before, and no other path changes;
    otherwise the writer exits with status 1 and the tree is as it was. *)
Theorem writer_contract self statements input_filename file_index w :
  let number := format_03d (N.of_nat file_index + 1) in
  let name := input_filename ++ lit "_part" ++ number ++ lit ".sql" in
  let target := output_dir self ++ [name] in
  let text := join [LF; LF] statements in
  let X := _write_statements_to_file self statements input_filename file_index w in
  (3 <= length number)%nat /\ int_of number = (N.of_nat file_index + 1)%N /\
  (forall earlier last, statements = earlier ++ [last] ->
     text = match earlier with
            | [] => last
            | _ => join [LF; LF] earlier ++ [LF; LF] ++ last
            end) /\
  if can_write (files w) (output_dir self) name then
    snd X = Ret tt /\
    files (fst X) = <[target := File (utf8_len text) text]> (files w) /\
    files (fst X) !! target = Some (File (utf8_len text) text) /\
    (forall q, q <> target -> files (fst X) !! q = files w !! q)
  else
    snd X = SysExit 1 /\ files (fst X) = files w.
Proof.
  intros number name target text X.
  split; [apply format_03d_width|]. split; [apply int_of_format_03d|]. split.
  - intros earlier last ->. subst text.
    destruct earlier as [|e earlier]; [done|]. by apply join_snoc.
  - subst X.
    destruct (write_statements_spec self statements input_filename file_index w)
      as [(Hc & Hr & Hf & _)|(Hc & Hr & Hf & _)];
      change (part_name input_filename file_index) with name in Hc; rewrite Hc.
    + rewrite Hr, Hf. unfold put. cbn [fst snd]. fold text.
      change (path_join (output_dir self) (part_name input_filename file_index)) with target.
      split; [done|]. split; [done|]. split; [apply lookup_insert_eq|].
      intros q Hq. by apply lookup_insert_ne.
    + by rewrite Hr, Hf.
Qed.

End Writer.

Section Unchecked.
Variable h : host.
Variable stem : path -> str.

Lemma update_progress_with self n size w :
  _update_progress h (with_statements self n) size w
  = match _update_progress h self size w with
    | (w', Ret s) => (w', Ret (with_statements s n))
    | r => r
    end.
Proof.
  unfold _update_progress, bind, time_time, memory_rss, print, ret, raise. simpl.
  destruct (Qle_bool _ _); [|done].
  by destruct (file_size self =? 0)%N.
Qed.

Lemma update_progress_config self size w w' s :
  _update_progress h self size w = (w', Ret s) -> same_config self s.
Proof.
  intros E. destruct (update_progress_spec h self size w) as (_ & _ & [(s' & Hr & Hc)|[Hr _]]);
    rewrite E in Hr; simpl in Hr; [by injection Hr as ->|done].
Qed.

Lemma for_line_with fn line self l w :
  statements_per_file self <= 1 ->
  for_line h fn line (with_statements self 1, l) w = retag 1 (for_line h fn line (self, l) w).
Proof.
  intros Hn. unfold for_line, bind. rewrite update_progress_with.
  destruct (_update_progress h self (utf8_len line) w) as [w1 [s1|e|c]] eqn:E; [|done..].
  apply update_progress_config in E as (_ & _ & Hs & _).
  destruct (is_comment line); [done|].
  destruct (has_semicolon line); [|done].
  destruct (truthy _); [|done].
  assert (Hlen : (1 <= Z.of_nat (length (statements l
                    ++ [strip (join [] (current_statement l ++ [line]))])))).
  { rewrite length_app. simpl. lia. }
  cbn [statements_per_file with_statements].
  destruct (Z.leb_spec 1 (Z.of_nat (length (statements l
              ++ [strip (join [] (current_statement l ++ [line]))])))) as [_|H]; [|lia].
  destruct (Z.leb_spec (statements_per_file s1) (Z.of_nat (length (statements l
              ++ [strip (join [] (current_statement l ++ [line]))])))) as [_|H]; [|lia].
  change (_write_statements_to_file (with_statements s1 1))
    with (_write_statements_to_file s1).
  by destruct (_write_statements_to_file s1 _ fn (current_file_index l) w1) as [w2 [[]|e|c]].
Qed.

Lemma for_line_config fn line self l w w' s l' :
  for_line h fn line (self, l) w = (w', Ret (s, l')) -> same_config self s.
Proof.
  intros E.
  destruct (for_line_refines h fn line self l w) as [(Hr & _)|(self' & Hc & Hm)];
    rewrite E in *; cbn [fst snd] in *; [done|].
  destruct (snd (step _ _ _)); [destruct Hm as [(_ & Hr & _)|(_ & Hr & _)]|destruct Hm as (Hr & _)];
    try done; by injection Hr as -> _.
Qed.

Lemma for_lines_with fn lines : forall self l w,
  statements_per_file self <= 1 ->
  for_lines h fn lines (with_statements self 1, l) w
  = retag 1 (for_lines h fn lines (self, l) w).
Proof.
  induction lines as [|line rest IH]; intros self l w Hn; [done|].
  rewrite !for_lines_cons, for_line_with by done.
  destruct (for_line h fn line (self, l) w) as [w1 [[s1 l1]|e|c]] eqn:E; [|done..].
  simpl. apply IH. apply for_line_config in E as (_ & _ & -> & _). done.
Qed.

Lemma split_sql_with self w :
  statements_per_file self <= 1 ->
  split_sql h stem (with_statements self 1) w = split_sql h stem self w.
Proof.
  intros Hn. unfold split_sql, try_except, bind. cbn [input_file with_statements].
  destruct (open_read (input_file self) w) as [w0 [text|e|c]]; [|done..].
  unfold split_sql_body, bind.
  rewrite (for_lines_with _ _ self _ _ Hn).
  by destruct (for_lines h _ _ (self, _) w0) as [w1 [[s1 l1]|e|c]].
Qed.

Lemma batches_single n lines :
  n <= 1 -> Forall (fun b => length b = 1%nat) (batches n lines).
Proof.
  intros Hn. rewrite batches_eq.
  destruct (sweep_single n lines (Locals [] [] 0 0) Hn eq_refl) as [H1 H2].
  apply Forall_app. split; [done|].
  unfold wrap_up. pose proof (last_statement_length (snd (sweep n lines (Locals [] [] 0 0)))) as K.
  rewrite H2 in K. simpl in K.
  destruct (statements (last_statement _)) as [|x b]; constructor; [|done].
  simpl in *. lia.
Qed.

(** C2, as the code has it. Nothing checks the bound: for a zero or
    negative [statements_per_file] the constructor does what it does for 1,
    the value apart, [split_sql] runs exactly as it does with 1, and every
    file it writes holds one statement. *)
Theorem nonpositive_bound_unchecked n :
  n <= 0 ->
  (forall input output w,
     __init__ h input output n w
     = match __init__ h input output 1 w with
       | (w', Ret s) => (w', Ret (with_statements s n))
       | r => r
       end) /\
  (forall self w, statements_per_file self = n ->
     split_sql h stem self w = split_sql h stem (with_statements self 1) w) /\
  (forall self w, statements_per_file self = n ->
     Forall (fun pb => length (snd pb) = 1%nat) (written_by (split_sql h stem self) w)).
Proof.
  intros Hn. split; [|split].
  - intros input output w.
    unfold __init__, bind, makedirs, path_exists, getsize, raise, print, ret, time_time.
    destruct (mkdirs_from [] output (files w)) as [g|e]; [|done]. cbn.
    destruct (node_at g input) as [[|size text]|] eqn:En; cbn; rewrite ?En; cbn;
      [done| |done].
    by destruct (_ <? size)%N.
  - intros self w Hs. symmetry. apply split_sql_with. lia.
  - intros self w Hs.
    destruct (split_sql_written h stem self w) as (k & bs & Hbs & -> & _).
    assert (Hall : Forall (fun b => length b = 1%nat) bs).
    { subst bs. apply Forall_take.
      destruct (node_at _ _) as [[|size text]|]; [constructor| |constructor].
      apply batches_single. lia. }
    apply Forall_forall. intros [p b] Hin.
    apply list_elem_of_lookup in Hin as [i Hi]. apply targets_lookup in Hi as [_ Hb].
    rewrite Forall_lookup in Hall. by apply (Hall i).
Qed.

(** Where [file_size] cannot be divided by zero and no write fails, what
    is written does not depend on the clock or the memory probe. *)
Lemma progress_is_observational h1 h2 self w :
  writable (files w) (output_dir self) (stem (input_file self)) ->
  (forall size text, node_at (files w) (input_file self) = Some (File size text) ->
                     file_size self = 0%N -> text = []) ->
  files (fst (split_sql h1 stem self w)) = files (fst (split_sql h2 stem self w)) /\
  written_by (split_sql h1 stem self) w = written_by (split_sql h2 stem self) w.
Proof.
  intros Hw Hsz.
  destruct (split_sql_written h1 stem self w) as (k1 & bs1 & Hb1 & -> & -> & H1).
  destruct (split_sql_written h2 stem self w) as (k2 & bs2 & Hb2 & -> & -> & H2).
  destruct (node_at (files w) (input_file self)) as [[|size text]|] eqn:E.
  - rewrite take_nil in Hb1, Hb2. by subst.
  - by rewrite (H1 Hw Hsz size text eq_refl), (H2 Hw Hsz size text eq_refl).
  - rewrite take_nil in Hb1, Hb2. by subst.
Qed.

End Unchecked.

(** ** Runs on a small dump *)

Import Trial.

Example readlines_universal :
  readlines (lit "a;" ++ [CR; LF] ++ lit "b" ++ [CR] ++ lit "c")
  = [lit "a;" ++ [LF]; lit "b" ++ [LF]; lit "c"].
Proof. reflexivity. Qed.

Example strip_both_ends : strip ([9; 32]%N ++ lit "a b" ++ [32; 13; 10; 160]%N) = lit "a b".
Proof. reflexivity. Qed.

Example format_03d_samples :
  format_03d 1 = lit "001" /\ format_03d 42 = lit "042" /\
  format_03d 999 = lit "999" /\ format_03d 1000 = lit "1000".
Proof. repeat split; reflexivity. Qed.

Example stem_samples :
  stem dump = lit "dump" /\ stem [lit "a.tar.gz"] = lit "a.tar" /\
  stem [lit ".profile"] = lit ".profile".
Proof. repeat split; reflexivity. Qed.

(** Three statements and a bound of 1: three files, one statement each. *)
Example one_statement_per_file :
  let text := two_statements ++ lit "SELECT 3" in
  let r := main slow stem dump out 1 (boot (tree_before (regular text))) in
  flushed (fst r)
  = [(out ++ [lit "dump_part001.sql"], [lit "SELECT 1;"]);
     (out ++ [lit "dump_part002.sql"], [lit "SELECT 2;"]);
     (out ++ [lit "dump_part003.sql"], [lit "SELECT 3"])] /\
  exit_status (snd r) = 0.
Proof. vm_compute. split; reflexivity. Qed.

(** A bound of 2 on the same input: the text of the first file. *)
Example two_statements_one_file :
  let text := two_statements ++ lit "SELECT 3" in
  let r := main slow stem dump out 2 (boot (tree_before (regular text))) in
  files (fst r) !! (out ++ [lit "dump_part001.sql"])
  = Some (regular (lit "SELECT 1;" ++ [LF; LF] ++ lit "SELECT 2;")) /\
  files (fst r) !! (out ++ [lit "dump_part002.sql"]) = Some (regular (lit "SELECT 3")) /\
  files (fst r) !! (out ++ [lit "dump_part003.sql"]) = None.
Proof. vm_compute. repeat split; reflexivity. Qed.

Lemma writable_ready input fn : writable (tree_ready input) out fn.
Proof.
  intros i. unfold can_write, isdir, tree_ready, node_at, path_join, out, dump. simpl.
  rewrite !lookup_insert_ne by discriminate. rewrite lookup_insert_eq. simpl.
  rewrite !lookup_insert_ne by discriminate. by rewrite lookup_empty.
Qed.

(** C9: with a pipe for input ([st_size] 0) the fast machine writes both
    files and the slow one, whose progress display is due at the first
    line, writes none. *)
Theorem progress_display_aborts_split :
  let run h := main h stem dump out 1 (boot (tree_before (pipe two_statements))) in
  let part1 := out ++ [lit "dump_part001.sql"] in
  map snd (flushed (fst (run fast))) = [[lit "SELECT 1;"]; [lit "SELECT 2;"]] /\
  files (fst (run fast)) !! part1 = Some (regular (lit "SELECT 1;")) /\
  exit_status (snd (run fast)) = 0 /\
  flushed (fst (run slow)) = [] /\
  files (fst (run slow)) !! part1 = None /\
  stdout (fst (run slow)) = [Error_processing ZeroDivisionError] /\
  exit_status (snd (run slow)) = 1.
Proof. vm_compute. repeat split; reflexivity. Qed.

(** C2 fails on the code: a bound of 0 is accepted and the run writes. *)
Lemma nonpositive_bound_accepted :
  let r := main slow stem dump out 0 (boot (tree_before (regular two_statements))) in
  exit_status (snd r) = 0 /\
  map snd (flushed (fst r)) = [[lit "SELECT 1;"]; [lit "SELECT 2;"]] /\
  files (fst r) !! (out ++ [lit "dump_part002.sql"]) = Some (regular (lit "SELECT 2;")).
Proof. vm_compute. repeat split; reflexivity. Qed.

(** C10 fails on the code: the input does not exist, yet no missing-input
    error is raised, when making the output directory makes the input path
    too, or when a regular file is in the way of the output directory. *)
Lemma init_accepts_missing_input :
  node_at (files (boot ∅)) [lit "data"] = None /\
  (exists self, snd (__init__ slow [lit "data"] [lit "data"; lit "out"] 100 (boot ∅))
                = Ret self) /\
  node_at (tree_before (regular two_statements)) [lit "nowhere"] = None /\
  snd (__init__ slow [lit "nowhere"] (dump ++ [lit "out"]) 100
                (boot (tree_before (regular two_statements))))
  = Raise NotADirectoryError.
Proof. vm_compute. repeat split; try reflexivity. eexists. reflexivity. Qed.

Lemma batch_size_bound_witness :
  0 < statements_per_file (splitter 2) /\
  let new := written_by (split_sql slow stem (splitter 2)) ready in
  (forall i p b, new !! i = Some (p, b) ->
     holds (files (fst (split_sql slow stem (splitter 2) ready))) p b /\
     1 <= Z.of_nat (length b) <= statements_per_file (splitter 2) /\
     ((S i < length new)%nat -> Z.of_nat (length b) = statements_per_file (splitter 2))) /\
  (forall size text,
     node_at (files ready) (input_file (splitter 2)) = Some (File size text) ->
     Spec.boundary_detection (readlines text) = [] -> new = []).
Proof.
  split; [reflexivity|].
  apply (batch_size_bound slow stem (splitter 2) ready). reflexivity.
Defined.

Lemma statements_preserved_witness :
  node_at (files ready) (input_file (splitter 2))
    = Some (File (utf8_len two_statements) two_statements) /\
  (file_size (splitter 2) = 0%N -> two_statements = []) /\
  writable (files ready) (output_dir (splitter 2)) (stem (input_file (splitter 2))) /\
  let new := written_by (split_sql slow stem (splitter 2)) ready in
  statements_written (split_sql slow stem (splitter 2)) ready
    = Spec.boundary_detection (readlines two_statements) /\
  map fst new
    = map (fun i => path_join (output_dir (splitter 2))
                              (part_name (stem (input_file (splitter 2))) i))
          (seq 0 (length new)) /\
  (forall p b, (p, b) ∈ new -> holds (files (fst (split_sql slow stem (splitter 2) ready))) p b).
Proof.
  assert (H1 : node_at (files ready) (input_file (splitter 2))
               = Some (File (utf8_len two_statements) two_statements)) by reflexivity.
  assert (H2 : file_size (splitter 2) = 0%N -> two_statements = []) by (intros H; discriminate H).
  assert (H3 : writable (files ready) (output_dir (splitter 2)) (stem (input_file (splitter 2))))
    by apply writable_ready.
  split; [exact H1|]. split; [exact H2|]. split; [exact H3|].
  exact (statements_preserved slow stem (splitter 2) ready _ _ H1 H2 H3).
Defined.

Lemma comment_line_skipped_witness :
  is_comment (lit "  -- comment; " ++ [LF]) = true /\
  forall fn self l w,
    files (fst (for_line slow fn (lit "  -- comment; " ++ [LF]) (self, l) w)) = files w /\
    flushed (fst (for_line slow fn (lit "  -- comment; " ++ [LF]) (self, l) w)) = flushed w /\
    ((exists self', snd (for_line slow fn (lit "  -- comment; " ++ [LF]) (self, l) w)
                    = Ret (self', l)) \/
     (snd (for_line slow fn (lit "  -- comment; " ++ [LF]) (self, l) w)
        = Raise ZeroDivisionError /\ file_size self = 0%N)).
Proof.
  split; [reflexivity|].
  exact (proj1 (comment_line_skipped slow (lit "  -- comment; " ++ [LF]) eq_refl)).
Defined.

Lemma trailing_statement_kept_witness :
  file_size (splitter 2) <> 0%N /\
  writable (files ready) (output_dir (splitter 2)) (lit "dump") /\
  statements_written
    (split_sql_body slow (splitter 2) (lit "dump")
                    (readlines (lit "SELECT 1;" ++ [LF] ++ lit "SELECT 2"))) ready
  = [lit "SELECT 1;"; lit "SELECT 2"].
Proof.
  assert (H1 : file_size (splitter 2) <> 0%N) by discriminate.
  assert (H2 : writable (files ready) (output_dir (splitter 2)) (lit "dump"))
    by apply writable_ready.
  split; [exact H1|]. split; [exact H2|].
  exact (proj2 (trailing_statement_kept slow (lit "dump") (splitter 2) ready H1 H2)).
Defined.

Lemma semicolon_line_one_statement_witness :
  is_comment (lit "SELECT 1; SELECT 2; x" ++ [LF]) = false /\
  has_semicolon (lit "SELECT 1; SELECT 2; x" ++ [LF]) = true /\
  strip (join [] (current_statement (Locals [] [lit "a" ++ [LF]] 0 0)
                  ++ [lit "SELECT 1; SELECT 2; x" ++ [LF]])) <> [].
Proof.
  split; [reflexivity|]. split; [reflexivity|].
  exact (proj1 (semicolon_line_one_statement slow (lit "SELECT 1; SELECT 2; x" ++ [LF])
                  eq_refl eq_refl (lit "dump") (splitter 2)
                  (Locals [] [lit "a" ++ [LF]] 0 0) ready)).
Defined.

Lemma init_missing_input_witness :
  node_at (files (boot ∅)) [lit "missing.sql"] = None /\
  ~ [lit "missing.sql"] `prefix_of` [lit "out"; lit "deep"] /\
  (forall p size text, p `prefix_of` [lit "out"; lit "deep"] ->
                       node_at (files (boot ∅)) p <> Some (File size text)) /\
  snd (__init__ slow [lit "missing.sql"] [lit "out"; lit "deep"] 100 (boot ∅))
    = Raise FileNotFoundError /\
  isdir (files (fst (__init__ slow [lit "missing.sql"] [lit "out"; lit "deep"] 100 (boot ∅))))
        [lit "out"; lit "deep"] = true.
Proof.
  assert (H1 : node_at (files (boot ∅)) [lit "missing.sql"] = None) by reflexivity.
  assert (H2 : ~ [lit "missing.sql"] `prefix_of` [lit "out"; lit "deep"]).
  { intros [k E]. discriminate E. }
  assert (H3 : forall p size text, p `prefix_of` [lit "out"; lit "deep"] ->
                 node_at (files (boot ∅)) p <> Some (File size text)).
  { intros p size text _. destruct p; [discriminate|]. simpl. by rewrite lookup_empty. }
  split; [exact H1|]. split; [exact H2|]. split; [exact H3|].
  pose proof (init_missing_input slow _ _ 100 _ H1 H2 H3) as (K1 & K2 & _).
  split; [exact K1|exact K2].
Defined.

Lemma nonpositive_bound_unchecked_witness :
  0 <= 0 /\
  forall self w, statements_per_file self = 0 ->
    split_sql slow stem self w = split_sql slow stem (with_statements self 1) w.
Proof.
  split; [discriminate|].
  exact (proj1 (proj2 (nonpositive_bound_unchecked slow stem 0 (Z.le_refl 0)))).
Defined.

(** * Further properties *)

Import More.

Section Exact.

Lemma can_write_put_other t dir fn i b j :
  i <> j ->
  can_write (put t (path_join dir (part_name fn i), b)) dir (part_name fn j)
  = can_write t dir (part_name fn j).
Proof.
  intros Hij. unfold can_write, isdir.
  rewrite !node_at_put_other; [done| |].
  - simpl. intros E. apply path_join_inj, part_name_inj in E. congruence.
  - simpl. intros E. symmetry in E. by apply path_join_not_dir in E.
Qed.

Lemma runs_until_put t dir fn i b bs : forall first,
  (i < first)%nat ->
  runs_until (put t (path_join dir (part_name fn i), b)) dir fn first bs
  = runs_until t dir fn first bs.
Proof.
  induction bs as [|b0 bs IH]; intros first Hi; simpl; [done|].
  rewrite can_write_put_other by lia. rewrite IH by lia. done.
Qed.

Lemma runs_until_le t dir fn bs : forall first,
  (runs_until t dir fn first bs <= length bs)%nat.
Proof.
  induction bs as [|b bs IH]; intros first; simpl; [lia|].
  destruct (can_write _ _ _); [specialize (IH (S first))|]; lia.
Qed.

Lemma runs_until_app t dir fn bs cs : forall first,
  runs_until t dir fn first (bs ++ cs)
  = if decide (runs_until t dir fn first bs = length bs)
    then (length bs + runs_until t dir fn (length bs + first) cs)%nat
    else runs_until t dir fn first bs.
Proof.
  induction bs as [|b bs IH]; intros first; simpl.
  - by destruct (decide (0 = 0)%nat).
  - destruct (can_write _ _ _); [|by destruct (decide (0 = S (length bs))%nat)].
    rewrite IH. replace (length bs + S first)%nat with (S (length bs + first)) by lia.
    destruct (decide (runs_until t dir fn (S first) bs = length bs)) as [E|E];
      destruct (decide (S (runs_until t dir fn (S first) bs) = S (length bs))) as [E'|E'];
      try done; lia.
Qed.

Lemma runs_until_writable t dir fn bs first :
  writable t dir fn -> runs_until t dir fn first bs = length bs.
Proof.
  intros Hw. revert first. induction bs as [|b bs IH]; intros first; simpl; [done|].
  by rewrite Hw, IH.
Qed.

Variable h : host.

(** The loop, to the file: where the progress display cannot divide by
    zero, the writes that succeed are exactly those before the first barred
    name. *)
Lemma for_lines_exact fn lines : forall self l w,
  (file_size self <> 0%N \/ lines = []) ->
  let X := for_lines h fn lines (self, l) w in
  let bs := fst (sweep (statements_per_file self) lines l) in
  let plan := targets (output_dir self) fn (current_file_index l) bs in
  let k := runs_until (files w) (output_dir self) fn (current_file_index l) bs in
  flushed (fst X) = flushed w ++ take k plan /\
  files (fst X) = put_all (files w) (take k plan) /\
  match snd X with
  | Ret (self', l') =>
      k = length bs /\ l' = snd (sweep (statements_per_file self) lines l) /\
      same_config self self'
  | Raise _ => False
  | SysExit c => c = 1 /\ (k < length bs)%nat
  end.
Proof.
  induction lines as [|line rest IH]; intros self l w Hsz X bs plan k.
  - subst X bs plan k. simpl. rewrite app_nil_r. repeat split; auto using same_config_refl.
  - subst X. rewrite for_lines_cons.
    destruct Hsz as [Hsz|Hsz]; [|done].
    destruct (for_line_refines h fn line self l w) as [(Hr & Hz & _)|(self' & Hcfg & Hm)];
      [done|].
    assert (Hsz' : file_size self' <> 0%N \/ rest = [])
      by (left; destruct Hcfg as (_ & _ & _ & -> & _); done).
    assert (Ho : output_dir self' = output_dir self) by apply Hcfg.
    assert (Hn : statements_per_file self' = statements_per_file self) by apply Hcfg.
    assert (Hbs : bs = opt_list (snd (step (statements_per_file self) line l))
                       ++ fst (sweep (statements_per_file self) rest
                                     (fst (step (statements_per_file self) line l))))
      by apply sweep_cons_fst.
    pose proof (step_index (statements_per_file self) line l) as Hidx.
    specialize (IH self' (fst (step (statements_per_file self) line l))).
    rewrite Ho, Hn in IH.
    destruct (snd (step (statements_per_file self) line l)) as [b|] eqn:Eo;
      cbn [opt_list length Nat.add app] in Hbs, Hidx.
    + subst k plan. rewrite Hbs. cbn [runs_until targets].
      destruct Hm as [(Hc & Hr & Hf & Hl)|(Hc & Hr & Hf & Hl)];
        destruct (for_line h fn line (self, l) w) as [w1 r1]; cbn [fst snd] in Hr, Hf, Hl;
        subst r1; rewrite Hc.
      * specialize (IH w1 Hsz'). cbv zeta in IH. rewrite Hidx, Hf, Hl in IH.
        rewrite runs_until_put in IH by lia.
        destruct IH as (I1 & I2 & I3). cbn [take].
        split; [by rewrite I1, <- app_assoc|]. split; [by rewrite I2|].
        destruct (for_lines h fn rest _ w1) as [w2 [[self2 l2]|e|c]]; cbn [fst snd] in *.
        -- destruct I3 as (Ik & -> & Hc2). split; [simpl; lia|]. split.
           ++ by rewrite sweep_cons_snd.
           ++ eapply same_config_trans; eauto.
        -- done.
        -- destruct I3 as (-> & Ik). split; [done|]. simpl. lia.
      * cbn [take]. rewrite app_nil_r. cbn [fst snd]. repeat split; auto. simpl. lia.
    + destruct Hm as (Hr & Hf & Hl).
      destruct (for_line h fn line (self, l) w) as [w1 r1]; cbn [fst snd] in Hr, Hf, Hl;
        subst r1.
      specialize (IH w1 Hsz'). cbv zeta in IH. rewrite Hidx, Hf, Hl in IH.
      subst k plan. rewrite Hbs.
      destruct IH as (I1 & I2 & I3).
      split; [done|]. split; [done|].
      destruct (for_lines h fn rest _ w1) as [w2 [[self2 l2]|e|c]]; cbn [fst snd] in *.
      * destruct I3 as (Ik & -> & Hc2). split; [done|]. split.
        -- by rewrite sweep_cons_snd.
        -- eapply same_config_trans; eauto.
      * done.
      * done.
Qed.

End Exact.

Section Counters.

Lemma sweep_count n lines : forall l,
  (statement_count (snd (sweep n lines l)) + length (statements l)
   = statement_count l + length (concat (fst (sweep n lines l)))
     + length (statements (snd (sweep n lines l))))%nat.
Proof.
  induction lines as [|line rest IH]; intros l; [simpl; lia|].
  rewrite sweep_cons_fst, sweep_cons_snd, concat_app, length_app.
  specialize (IH (fst (step n line l))).
  assert (K : (statement_count (fst (step n line l)) + length (statements l)
               = statement_count l + length (concat (opt_list (snd (step n line l))))
                 + length (statements (fst (step n line l))))%nat).
  { unfold step.
    repeat match goal with |- context [if ?b then _ else _] => destruct b end;
      simpl; rewrite ?length_app, ?app_nil_r; simpl; lia. }
  lia.
Qed.

Lemma last_statement_count l :
  (statement_count (last_statement l) + length (statements l)
   = statement_count l + length (statements (last_statement l)))%nat.
Proof.
  unfold last_statement.
  repeat match goal with |- context [if ?b then _ else _] => destruct b end;
    simpl; rewrite ?length_app; simpl; lia.
Qed.

(** The two figures of the summary, for a run over [lines]. *)
Lemma final_counts n lines :
  let le := last_statement (snd (sweep n lines (Locals [] [] 0 0))) in
  (current_file_index le + length (wrap_up (snd (sweep n lines (Locals [] [] 0 0)))))%nat
    = length (batches n lines) /\
  statement_count le = length (concat (batches n lines)).
Proof.
  intros le. subst le. rewrite batches_eq, length_app, concat_app, length_app, concat_wrap_up.
  rewrite last_statement_index, sweep_index.
  pose proof (sweep_count n lines (Locals [] [] 0 0)) as H1.
  pose proof (last_statement_count (snd (sweep n lines (Locals [] [] 0 0)))) as H2.
  simpl in *. lia.
Qed.

Lemma can_write_put_all_other t dir fn bs j : forall first,
  ((j < first)%nat \/ (first + length bs <= j)%nat) ->
  can_write (put_all t (targets dir fn first bs)) dir (part_name fn j)
  = can_write t dir (part_name fn j).
Proof.
  revert t. induction bs as [|b bs IH]; intros t first Hj; simpl; [done|].
  rewrite IH by (simpl in Hj; lia). apply can_write_put_other. simpl in Hj. lia.
Qed.

End Counters.

Section Clock.
Variable h : host.

Lemma update_progress_ticks self sz w :
  ticks (fst (_update_progress h self sz w)) = S (ticks w).
Proof.
  unfold _update_progress, bind, time_time, memory_rss, print, ret, raise. simpl.
  destruct (Qle_bool _ _); [|done]. by destruct (file_size self =? 0)%N.
Qed.

Lemma write_statements_ticks self stmts fn i w :
  ticks (fst (_write_statements_to_file self stmts fn i w)) = ticks w.
Proof.
  unfold _write_statements_to_file, try_except, bind, write_text, note_flush, print, sys_exit.
  destruct (node_at (files w) (output_dir self)) as [[|??]|]; try done.
  by destruct (node_at (files w) _) as [[|??]|].
Qed.

Lemma for_line_ticks fn line self l w :
  ticks (fst (for_line h fn line (self, l) w)) = S (ticks w).
Proof.
  unfold for_line, bind.
  pose proof (update_progress_ticks self (utf8_len line) w) as Ht.
  destruct (_update_progress h self (utf8_len line) w) as [w1 [s1|e|c]]; cbn [fst] in *; try done.
  destruct (is_comment line); [done|].
  destruct (has_semicolon line); [|done].
  destruct (truthy _); [|done].
  destruct (_ <=? _); [|done].
  pose proof (write_statements_ticks s1
                (statements l ++ [strip (join [] (current_statement l ++ [line]))])
                fn (current_file_index l) w1) as Hw.
  destruct (_write_statements_to_file _ _ _ _ w1) as [w2 [[]|e|c]]; cbn in *; congruence.
Qed.

Lemma for_lines_ticks fn lines : forall sl w w' sl',
  for_lines h fn lines sl w = (w', Ret sl') -> ticks w' = (ticks w + length lines)%nat.
Proof.
  induction lines as [|line rest IH]; intros [self l] w w' sl' E.
  - injection E as <- _. simpl. lia.
  - rewrite for_lines_cons in E.
    pose proof (for_line_ticks fn line self l w) as Ht.
    destruct (for_line h fn line (self, l) w) as [w1 [sl1|e|c]]; [|done..].
    apply IH in E. simpl in *. lia.
Qed.

Lemma last_batch_ret self fn l w w' l' :
  last_batch self fn l w = (w', Ret l') ->
  ticks w' = ticks w /\ statement_count l' = statement_count l /\
  current_file_index l' = (current_file_index l
                           + match statements l with [] => 0 | _ => 1 end)%nat.
Proof.
  unfold last_batch. destruct (statements l) as [|s ss] eqn:Es; cbn [truthy].
  - intros E. injection E as <- <-. repeat split; lia.
  - unfold bind.
    pose proof (write_statements_ticks self (s :: ss) fn (current_file_index l) w) as Ht.
    destruct (_write_statements_to_file self (s :: ss) fn (current_file_index l) w)
      as [w1 [[]|e|c]]; [|done..].
    intros E. injection E as <- <-. simpl in *. repeat split; [done|lia].
Qed.

(** [report] prints the figures it is given and fails only on a total time
    of zero. *)
Lemma report_outcome self l w :
  let total := (clock h (ticks w) - start_time self)%Q in
  if Qeq_bool total 0 then
    report h self l w
    = (World (files w) (stdout w ++ [Finished; Total_time total]) (S (ticks w)) (flushed w),
       Raise ZeroDivisionError)
  else
    report h self l w
    = (World (files w)
             (stdout w ++ [Finished; Total_time total;
                           Summary (current_file_index l) (statement_count l)
                                   (output_dir self)])
             (S (ticks w)) (flushed w),
       Ret tt).
Proof.
  intros total. subst total. unfold report, bind, time_time, print, raise. cbn.
  destruct (Qeq_bool _ _); cbn; by rewrite <- !app_assoc.
Qed.

(** The body of [split_sql], to the file and to the exit: which batches are
    written, and how the run ends. *)
Lemma body_exact self fn lines w :
  (file_size self <> 0%N \/ lines = []) ->
  let X := split_sql_body h self fn lines w in
  let bs := batches (statements_per_file self) lines in
  let plan := targets (output_dir self) fn 0 bs in
  let k := runs_until (files w) (output_dir self) fn 0 bs in
  let total := (clock h (ticks w + length lines) - start_time self)%Q in
  flushed (fst X) = flushed w ++ take k plan /\
  files (fst X) = put_all (files w) (take k plan) /\
  ((k < length bs)%nat -> snd X = SysExit 1) /\
  (k = length bs ->
   if Qeq_bool total 0 then snd X = Raise ZeroDivisionError
   else snd X = Ret tt /\
        last (stdout (fst X))
        = Some (Summary (length bs) (length (concat bs)) (output_dir self))).
Proof.
  intros Hsz X bs plan k total. subst X.
  set (n := statements_per_file self) in *.
  set (l0 := Locals [] [] 0 0).
  set (bs1 := fst (sweep n lines l0)). set (le := snd (sweep n lines l0)).
  assert (Hbs : bs = bs1 ++ wrap_up le) by apply batches_eq.
  destruct (final_counts n lines) as [Hfiles Hcount]. fold l0 le in Hfiles, Hcount.
  fold bs in Hfiles, Hcount.
  assert (Hk : k = if decide (runs_until (files w) (output_dir self) fn 0 bs1 = length bs1)
                   then (length bs1
                         + runs_until (files w) (output_dir self) fn (length bs1) (wrap_up le))%nat
                   else runs_until (files w) (output_dir self) fn 0 bs1).
  { subst k. rewrite Hbs, runs_until_app. by rewrite Nat.add_0_r. }
  assert (Hplan : plan = targets (output_dir self) fn 0 bs1
                         ++ targets (output_dir self) fn (length bs1) (wrap_up le)).
  { subst plan. rewrite Hbs, targets_app. by rewrite Nat.add_0_r. }
  assert (Hlen : length plan = length bs) by apply targets_length.
  destruct (for_lines_exact h fn lines self l0 w Hsz) as (H1 & H2 & H3).
  fold n in H1, H2, H3. cbn [current_file_index l0] in H1, H2, H3. fold bs1 le in H1, H2, H3.
  pose proof (for_lines_ticks fn lines (self, l0) w) as Hticks.
  pose proof (runs_until_le (files w) (output_dir self) fn bs1 0) as Hle.
  unfold split_sql_body, bind. fold l0.
  destruct (for_lines h fn lines (self, l0) w) as [w1 [[self1 l1]|e|c]]; cbn [fst snd] in *.
  - destruct H3 as (Hk1 & -> & Hcfg). specialize (Hticks _ _ eq_refl).
    rewrite Hk1 in Hk, H1, H2. rewrite <- (targets_length (output_dir self) fn 0 bs1) in H1, H2 at 1.
    rewrite firstn_all in H1, H2.
    destruct (decide (length bs1 = length bs1)) as [_|]; [|done].
    assert (Ho : output_dir self1 = output_dir self) by apply Hcfg.
    assert (Hst : start_time self1 = start_time self) by apply Hcfg.
    pose proof (last_batch_spec self1 fn (last_statement le) w1) as Hb. cbv zeta in Hb.
    pose proof (last_batch_ret self1 fn (last_statement le) w1) as Hret.
    rewrite last_statement_index in Hb.
    assert (Hi : current_file_index le = length bs1).
    { subst le bs1. rewrite sweep_index. simpl. lia. }
    rewrite Hi, Ho in Hb.
    rewrite H2, can_write_put_all_other in Hb by lia.
    unfold wrap_up in Hk, Hplan, Hfiles.
    destruct (statements (last_statement le)) as [|s ss] eqn:Es.
    + rewrite Hb. cbv beta iota. simpl in Hk, Hplan, Hfiles.
      rewrite Nat.add_0_r in Hk. rewrite app_nil_r in Hplan.
      assert (Hkk : k = length plan) by (by rewrite Hk, Hplan, targets_length).
      assert (Htake : take k plan = targets (output_dir self) fn 0 bs1)
        by (by rewrite Hkk, firstn_all).
      rewrite Htake.
      pose proof (report_outcome self1 (last_statement le) w1) as Hrep. cbv zeta in Hrep.
      rewrite Hticks, Hst, Ho in Hrep. fold total in Hrep.
      destruct (Qeq_bool total 0); rewrite Hrep; cbn [fst snd files flushed stdout];
        (split; [done|]); (split; [done|]); (split; [intros; lia|]); intros _; [done|].
      split; [done|].
      rewrite last_app. cbn. f_equal. rewrite Hcount. f_equal. lia.
    + cbn [runs_until] in Hk. cbn [targets] in Hplan. simpl in Hfiles.
      destruct Hb as [(Hc & (l' & Hr) & Hf & Hl)|(Hc & Hr & Hf & Hl)]; rewrite Hc in Hk.
      * destruct (last_batch self1 fn (last_statement le) w1) as [w2 r2] eqn:Elb;
          cbn [fst snd] in Hr, Hf, Hl; subst r2.
        destruct (Hret _ _ eq_refl) as (Ht2 & Hc2 & Hi2).
        rewrite last_statement_index in Hi2.
        pose proof (report_outcome self1 l' w2) as Hrep. cbv zeta in Hrep.
        rewrite Ht2, Hticks, Hst, Ho in Hrep. fold total in Hrep.
        assert (Hkk : k = length plan).
        { rewrite Hk, Hplan, length_app, targets_length. simpl. lia. }
        assert (Htake : take k plan
                        = targets (output_dir self) fn 0 bs1
                          ++ [(path_join (output_dir self) (part_name fn (length bs1)), s :: ss)])
          by (by rewrite Hkk, firstn_all).
        rewrite Htake.
        destruct (Qeq_bool total 0); rewrite Hrep; cbn [fst snd files flushed stdout];
          rewrite Hf, Hl, ?H1, ?H2, put_all_app, <- app_assoc;
          (split; [done|]); (split; [done|]); (split; [intros; lia|]); intros _; [done|].
        split; [done|].
        rewrite last_app. cbn. f_equal. rewrite Hc2, Hcount, Hi2. f_equal. lia.
      * destruct (last_batch self1 fn (last_statement le) w1) as [w2 r2];
          cbn [fst snd] in Hr, Hf, Hl; subst r2. cbv beta iota. cbn [fst snd].
        assert (Hkk : k = length (targets (output_dir self) fn 0 bs1))
          by (by rewrite Hk, Nat.add_0_r, targets_length).
        assert (Htake : take k plan = targets (output_dir self) fn 0 bs1)
          by (by rewrite Hkk, Hplan, take_app_length).
        rewrite Htake, Hf, Hl, ?H1, ?H2.
        split; [done|]. split; [done|]. split; [done|].
        intros E. rewrite Hkk, targets_length in E.
        rewrite last_statement_index in Hfiles. lia.
  - done.
  - destruct H3 as (-> & Hlt).
    destruct (decide (runs_until (files w) (output_dir self) fn 0 bs1 = length bs1)); [lia|].
    assert (Htake : take k plan
                    = take (runs_until (files w) (output_dir self) fn 0 bs1)
                           (targets (output_dir self) fn 0 bs1)).
    { rewrite Hk, Hplan, take_app_le by (rewrite targets_length; lia). done. }
    rewrite Htake.
    split; [done|]. split; [done|]. split; [done|].
    intros E. rewrite Hk, Hbs, length_app in E. lia.
Qed.

End Clock.

Section RunExact.
Variable h : host.
Variable stem : path -> str.

(** [split_sql] on a readable input, to the file and to the exit. *)
Lemma split_sql_exact self w size text :
  node_at (files w) (input_file self) = Some (File size text) ->
  (file_size self = 0%N -> text = []) ->
  let X := split_sql h stem self w in
  let fn := stem (input_file self) in
  let bs := batches (statements_per_file self) (readlines text) in
  let plan := targets (output_dir self) fn 0 bs in
  let k := runs_until (files w) (output_dir self) fn 0 bs in
  let total := (clock h (ticks w + length (readlines text)) - start_time self)%Q in
  flushed (fst X) = flushed w ++ take k plan /\
  files (fst X) = put_all (files w) (take k plan) /\
  ((k < length bs)%nat -> snd X = SysExit 1) /\
  (k = length bs ->
   if Qeq_bool total 0 then
     snd X = SysExit 1 /\ last (stdout (fst X)) = Some (Error_processing ZeroDivisionError)
   else
     snd X = Ret tt /\
     last (stdout (fst X)) = Some (Summary (length bs) (length (concat bs)) (output_dir self))).
Proof.
  intros Hin Hsz X fn bs plan k total. subst X.
  assert (Hsz' : file_size self <> 0%N \/ readlines text = []).
  { destruct (N.eq_dec (file_size self) 0%N) as [E|E]; [right|by left].
    by rewrite (Hsz E). }
  destruct (body_exact h self fn (readlines text) w Hsz') as (H1 & H2 & H3 & H4).
  fold bs plan k total in H1, H2, H3, H4.
  unfold split_sql, try_except, bind, open_read. rewrite Hin. fold fn.
  destruct (split_sql_body h self fn (readlines text) w) as [w1 [[]|e|c]] eqn:E;
    cbn [fst snd] in *.
  - repeat split; auto. intros Hk. specialize (H4 Hk).
    destruct (Qeq_bool total 0); [done|]. done.
  - unfold print, sys_exit. cbn [fst snd files flushed stdout].
    repeat split; auto. intros Hk. specialize (H4 Hk).
    destruct (Qeq_bool total 0); [|by destruct H4].
    injection H4 as ->. split; [done|]. by rewrite last_app.
  - repeat split; auto. intros Hk. specialize (H4 Hk).
    destruct (Qeq_bool total 0); [done|]. by destruct H4.
Qed.

Lemma runs_until_barred t dir fn bs j : forall first,
  (forall i, (i < j)%nat -> can_write t dir (part_name fn (first + i)) = true) ->
  can_write t dir (part_name fn (first + j)) = false ->
  (j < length bs)%nat ->
  runs_until t dir fn first bs = j.
Proof.
  revert j. induction bs as [|b bs IH]; intros j first Hok Hbar Hj; simpl in *; [lia|].
  destruct j as [|j].
  - rewrite Nat.add_0_r in Hbar. by rewrite Hbar.
  - rewrite <- (Nat.add_0_r first) at 1. rewrite Hok by lia. f_equal.
    apply IH; [|by replace (S first + j)%nat with (first + S j)%nat by lia|lia].
    intros i Hi. replace (S first + i)%nat with (first + S i)%nat by lia. apply Hok. lia.
Qed.

Lemma runs_until_can_write t dir fn bs i : forall first,
  (i < runs_until t dir fn first bs)%nat ->
  can_write t dir (part_name fn (first + i)) = true.
Proof.
  revert i. induction bs as [|b bs IH]; intros i first Hi; simpl in *; [lia|].
  destruct (can_write t dir (part_name fn first)) eqn:E; [|lia].
  destruct i as [|i]; [by rewrite Nat.add_0_r|].
  replace (first + S i)%nat with (S first + i)%nat by lia. apply IH. lia.
Qed.

End RunExact.

Section RunFacts.
Variable h : host.
Variable stem : path -> str.


Lemma split_sql_all_written self w size text :
  node_at (files w) (input_file self) = Some (File size text) ->
  (file_size self = 0%N -> text = []) ->
  writable (files w) (output_dir self) (stem (input_file self)) ->
  written_by (split_sql h stem self) w
    = targets (output_dir self) (stem (input_file self)) 0
              (batches (statements_per_file self) (readlines text)) /\
  files (fst (split_sql h stem self w))
    = put_all (files w)
        (targets (output_dir self) (stem (input_file self)) 0
                 (batches (statements_per_file self) (readlines text))).
Proof.
  intros Hin Hsz Hw.
  destruct (split_sql_exact h stem self w size text Hin Hsz) as (H1 & H2 & _).
  rewrite runs_until_writable in H1, H2 by done.
  rewrite <- (targets_length (output_dir self) (stem (input_file self)) 0) in H1, H2.
  rewrite firstn_all in H1, H2. apply written_by_app in H1. done.
Qed.

(** Directories are never written over. *)
Lemma put_keeps_dir t dir name b q :
  can_write t dir name = true -> t !! q = Some Dir ->
  put t (path_join dir name, b) !! q = Some Dir.
Proof.
  intros Hc Hq. rewrite put_other; [done|]. simpl. intros ->.
  unfold can_write in Hc. apply andb_true_iff in Hc as [_ Hc].
  rewrite node_at_join, Hq in Hc. done.
Qed.

Lemma for_line_keeps_dirs fn line self l w q :
  files w !! q = Some Dir -> files (fst (for_line h fn line (self, l) w)) !! q = Some Dir.
Proof.
  intros Hq.
  destruct (for_line_refines h fn line self l w) as [(_ & _ & -> & _)|(self' & _ & Hm)];
    [done|].
  destruct (snd (step _ _ _)).
  - destruct Hm as [(Hc & _ & -> & _)|(_ & _ & -> & _)]; [|done]. by apply put_keeps_dir.
  - by destruct Hm as (_ & -> & _).
Qed.

Lemma for_lines_keeps_dirs fn lines q : forall sl w,
  files w !! q = Some Dir -> files (fst (for_lines h fn lines sl w)) !! q = Some Dir.
Proof.
  induction lines as [|line rest IH]; intros [self l] w Hq; [done|].
  rewrite for_lines_cons.
  pose proof (for_line_keeps_dirs fn line self l w q Hq) as H1.
  destruct (for_line h fn line (self, l) w) as [w1 [sl1|e|c]]; cbn [fst] in *; auto.
Qed.

Lemma body_keeps_dirs self fn lines w q :
  files w !! q = Some Dir -> files (fst (split_sql_body h self fn lines w)) !! q = Some Dir.
Proof.
  intros Hq. unfold split_sql_body, bind.
  pose proof (for_lines_keeps_dirs fn lines q (self, Locals [] [] 0 0) w Hq) as H1.
  destruct (for_lines h fn lines _ w) as [w1 [[self1 l1]|e|c]]; cbn [fst snd] in *; auto.
  pose proof (last_batch_spec self1 fn (last_statement l1) w1) as Hb. cbv zeta in Hb.
  destruct (statements (last_statement l1)).
  - rewrite Hb. cbv beta iota.
    destruct (report_spec h self1 (last_statement l1) w1) as (Rf & _).
    destruct (report h self1 (last_statement l1) w1) as [w2 [[]|e|c]]; cbn [fst] in *;
      by rewrite Rf.
  - destruct Hb as [(Hc & (l' & Hr) & Hf & _)|(_ & Hr & Hf & _)];
      destruct (last_batch self1 fn (last_statement l1) w1) as [w2 r2];
      cbn [fst snd] in Hr, Hf; subst r2; cbv beta iota; cbn [fst].
    + destruct (report_spec h self1 l' w2) as (Rf & _).
      destruct (report h self1 l' w2) as [w3 [[]|e|c]]; cbn [fst] in *;
        rewrite Rf, Hf; by apply put_keeps_dir.
    + by rewrite Hf.
Qed.

Lemma split_sql_keeps_dirs self w q :
  files w !! q = Some Dir -> files (fst (split_sql h stem self w)) !! q = Some Dir.
Proof.
  intros Hq. unfold split_sql, try_except, bind, open_read.
  destruct (node_at (files w) (input_file self)) as [[|size text]|]; try done.
  pose proof (body_keeps_dirs self (stem (input_file self)) (readlines text) w q Hq) as H1.
  by destruct (split_sql_body h self _ _ w) as [w1 [[]|e|c]].
Qed.

(** The exact content of a file of the plan. *)
Lemma put_all_lookup t dir fn bs : forall first i b,
  bs !! i = Some b ->
  put_all t (targets dir fn first bs) !! path_join dir (part_name fn (first + i))
  = Some (File (utf8_len (join [LF; LF] b)) (join [LF; LF] b)).
Proof.
  revert t. induction bs as [|b0 bs IH]; intros t first i b Hb; [done|].
  destruct i as [|i]; simpl in *.
  - injection Hb as ->. rewrite Nat.add_0_r, put_all_other by (apply targets_fresh; lia).
    unfold put. simpl. apply lookup_insert_eq.
  - replace (first + S i)%nat with (S first + i)%nat by lia. by apply IH.
Qed.


End RunFacts.



(** X6: No rollback and no further attempt: when the part names before the
    [j]-th can be written and the [j]-th cannot, the run writes the [j]
    files an unhindered run writes first, leaves them in place, and exits
    with status 1. *)
Theorem barred_part_stops_the_run h stem self w w0 size size0 text j :
  node_at (files w) (input_file self) = Some (File size text) ->
  node_at (files w0) (input_file self) = Some (File size0 text) ->
  (file_size self = 0%N -> text = []) ->
  writable (files w0) (output_dir self) (stem (input_file self)) ->
  (forall i, (i < j)%nat ->
     can_write (files w) (output_dir self) (part_name (stem (input_file self)) i) = true) ->
  can_write (files w) (output_dir self) (part_name (stem (input_file self)) j) = false ->
  (j < length (written_by (split_sql h stem self) w0))%nat ->
  snd (split_sql h stem self w) = SysExit 1 /\
  written_by (split_sql h stem self) w = take j (written_by (split_sql h stem self) w0) /\
  (forall p b, (p, b) ∈ written_by (split_sql h stem self) w ->
               holds (files (fst (split_sql h stem self w))) p b) /\
  files (fst (split_sql h stem self w))
    !! path_join (output_dir self) (part_name (stem (input_file self)) j)
  = files w !! path_join (output_dir self) (part_name (stem (input_file self)) j).
Proof.
  intros Hin Hin0 Hsz Hw0 Hok Hbar Hj.
  destruct (split_sql_all_written h stem self w0 size0 text Hin0 Hsz Hw0) as (E0 & _).
  rewrite E0 in *. rewrite targets_length in Hj.
  destruct (split_sql_exact h stem self w size text Hin Hsz) as (H1 & H2 & H3 & _).
  rewrite (runs_until_barred _ _ _ _ j 0) in H1, H2, H3 by done.
  apply written_by_app in H1. rewrite H1, H2, targets_take.
  split; [by apply H3|]. split; [done|]. split.
  - intros p b Hpb. apply list_elem_of_lookup in Hpb as [i Hi].
    apply targets_lookup in Hi as [-> Hb].
    by apply (put_all_holds _ _ _ _ 0 i b).
  - apply put_all_other. rewrite targets_fst, length_take.
    intros Hin'. apply list_elem_of_fmap in Hin' as (i & E & Hi).
    apply path_join_inj, part_name_inj in E. subst i.
    apply elem_of_seq in Hi. lia.
Qed.

(** X7: [split_sql] only adds or replaces regular files: a path it has not
    written is as it was, a directory stays a directory and nothing
    disappears. *)
Theorem split_sql_touches_only_parts h stem self w :
  (forall q, q ∉ map fst (written_by (split_sql h stem self) w) ->
             files (fst (split_sql h stem self w)) !! q = files w !! q) /\
  (forall q, files w !! q = Some Dir ->
             files (fst (split_sql h stem self w)) !! q = Some Dir) /\
  (forall q, is_Some (files w !! q) -> is_Some (files (fst (split_sql h stem self w)) !! q)).
Proof.
  destruct (split_sql_written h stem self w) as (k & bs & _ & Hnew & Hfiles & _).
  split; [|split].
  - intros q Hq. rewrite Hnew in Hq. rewrite Hfiles. by apply put_all_other.
  - intros q. apply split_sql_keeps_dirs.
  - intros q Hq. rewrite Hfiles.
    destruct (decide (q ∈ map fst (targets (output_dir self) (stem (input_file self)) 0 bs)))
      as [Hin|Hout].
    + apply list_elem_of_fmap in Hin as [[p b] [-> Hin]].
      apply list_elem_of_lookup in Hin as [i Hi]. apply targets_lookup in Hi as [-> Hb].
      simpl. by rewrite (put_all_lookup _ _ _ _ 0 i b Hb).
    + by rewrite put_all_other.
Qed.


Section Trim.

Lemma lstrip_fix c s : isspace c = false -> lstrip (c :: s) = c :: s.
Proof. intros H. simpl. by rewrite H. Qed.

Lemma lstrip_shape s :
  lstrip s = [] \/ exists c t, lstrip s = c :: t /\ isspace c = false.
Proof.
  induction s as [|c s IH]; simpl; [by left|].
  destruct (isspace c) eqn:E; [done|]. right. eauto.
Qed.

Lemma lstrip_idem s : lstrip (lstrip s) = lstrip s.
Proof.
  destruct (lstrip_shape s) as [->|(c & t & -> & H)]; [done|]. by apply lstrip_fix.
Qed.

Lemma lstrip_snoc s c : isspace c = false -> lstrip (s ++ [c]) = lstrip s ++ [c].
Proof.
  intros H. induction s as [|d s IH]; simpl; [by rewrite H|].
  by destruct (isspace d).
Qed.

Lemma rstrip_cons c s : isspace c = false -> rstrip (c :: s) = c :: rstrip s.
Proof.
  intros H. unfold rstrip. simpl. rewrite lstrip_snoc by done.
  by rewrite rev_app_distr.
Qed.

Lemma strip_shape s :
  strip s = [] \/ exists c t, strip s = c :: t /\ isspace c = false.
Proof.
  unfold strip. destruct (lstrip_shape s) as [->|(c & t & -> & H)]; [by left|].
  right. rewrite rstrip_cons by done. eauto.
Qed.

Lemma rstrip_idem s : rstrip (rstrip s) = rstrip s.
Proof. unfold rstrip. by rewrite rev_involutive, lstrip_idem. Qed.

Lemma strip_idem s : strip (strip s) = strip s.
Proof.
  unfold strip at 1.
  destruct (strip_shape s) as [->|(c & t & E & H)]; [done|].
  rewrite E, lstrip_fix, <- E by done. unfold strip. apply rstrip_idem.
Qed.

Lemma lstrip_nil s : lstrip s = [] <-> Forall (fun c => isspace c = true) s.
Proof.
  induction s as [|c s IH]; simpl; [by split|].
  destruct (isspace c) eqn:E.
  - rewrite IH. split; [by constructor|by inversion 1].
  - split; [done|]. inversion 1; congruence.
Qed.

Lemma strip_nil s : strip s = [] <-> Forall (fun c => isspace c = true) s.
Proof.
  rewrite <- lstrip_nil. unfold strip, rstrip. split.
  - intros H. apply (f_equal (@rev _)) in H. rewrite rev_involutive in H. simpl in H.
    apply lstrip_nil in H.
    destruct (lstrip_shape s) as [E|(c & t & E & Hc)]; [done|]. rewrite E in H.
    apply Forall_rev in H. rewrite rev_involutive in H.
    apply Forall_inv in H. congruence.
  - by intros ->.
Qed.

End Trim.

Section Groups.

Lemma detect_trimmed lines : forall buffer s,
  s ∈ Spec.detect buffer lines -> s <> [] /\ strip s = s.
Proof.
  induction lines as [|x lines IH]; intros buffer s; simpl.
  - destruct (strip (join [] buffer)) as [|c t] eqn:E; [by intros H%elem_of_nil|].
    intros H%list_elem_of_singleton. subst s. split; [done|].
    rewrite <- E. apply strip_idem.
  - destruct (is_comment x); [apply IH|].
    destruct (has_semicolon x); [|apply IH].
    destruct (strip (join [] (buffer ++ [x]))) as [|c t] eqn:E; [apply IH|].
    intros [->|H]%elem_of_cons; [|by apply IH in H].
    split; [done|]. rewrite <- E. apply strip_idem.
Qed.

(** The statements the scanner finds are the runs of lines that are not
    comments, each up to and with the next line that has a semicolon, and
    what is left after the last such line if it does not trim to
    nothing. *)
Lemma detect_groups lines : forall buffer,
  Forall (fun l => has_semicolon l = false) buffer ->
  exists groups rest,
    buffer ++ List.filter not_comment lines = concat groups ++ rest /\
    Forall terminated groups /\
    Forall (fun l => has_semicolon l = false) rest /\
    Spec.detect buffer lines
    = map statement_of groups
      ++ match statement_of rest with [] => [] | s => [s] end.
Proof.
  induction lines as [|x lines IH]; intros buffer Hb; simpl.
  - exists [], buffer. simpl. rewrite app_nil_r. repeat split; auto.
  - unfold not_comment at 1. destruct (is_comment x) eqn:Ec; simpl; [by apply IH|].
    destruct (has_semicolon x) eqn:Es.
    + destruct (IH []) as (groups & rest & E & Hg & Hr & Hd); [constructor|].
      exists ((buffer ++ [x]) :: groups), rest. simpl in E.
      split; [simpl; by rewrite E, <- !app_assoc|].
      split; [constructor; [by exists buffer, x|done]|].
      split; [done|].
      pose proof (statement_truthy buffer x Es) as Ht.
      unfold statement_of at 1. simpl.
      destruct (strip (join [] (buffer ++ [x]))) as [|c t] eqn:E2; [done|].
      by rewrite Hd.
    + destruct (IH (buffer ++ [x])) as (groups & rest & E & Hg & Hr & Hd).
      { apply Forall_app. split; [done|]. by constructor. }
      exists groups, rest. rewrite <- app_assoc in E. simpl in E. done.
Qed.

Lemma length_concat_uniform {A} (n : nat) (l : list (list A)) :
  Forall (fun b => length b = n) l -> length (concat l) = (n * length l)%nat.
Proof.
  induction 1 as [|b l Hb Hl IH]; simpl; [lia|]. rewrite length_app, IH, Hb. lia.
Qed.

(** As many batches as the statements need, and no more. *)
Lemma batches_number n lines :
  0 < n ->
  let m := Z.of_nat (length (batches n lines)) in
  let total := Z.of_nat (length (concat (batches n lines))) in
  (m - 1) * n < total <= m * n /\ (total = 0 -> m = 0).
Proof.
  intros Hn m total. subst m total. rewrite batches_eq.
  set (l0 := Locals [] [] 0 0).
  destruct (sweep_full n lines l0 Hn) as [Hfull Hrest]; [simpl; lia|].
  pose proof (wrap_up_bounds n _ Hrest) as Hlast.
  rewrite concat_app, !length_app.
  assert (Hu : length (concat (fst (sweep n lines l0)))
               = (Z.to_nat n * length (fst (sweep n lines l0)))%nat).
  { apply length_concat_uniform. eapply Forall_impl; [exact Hfull|]. simpl. intros; lia. }
  rewrite Hu. unfold wrap_up in *.
  destruct (statements (last_statement (snd (sweep n lines l0)))) as [|s ss].
  - simpl. split; [nia|]. intros H. nia.
  - apply Forall_inv in Hlast. simpl in *. rewrite app_nil_r. split; [nia|]. intros H. nia.
Qed.

End Groups.

Section Blank.

Lemma blank_no_semicolon line :
  Forall (fun c => isspace c = true) line -> has_semicolon line = false.
Proof.
  unfold has_semicolon, contains. induction 1 as [|c line Hc Hl IH]; cbn [existsb]; [done|].
  rewrite IH, orb_false_r. apply N.eqb_neq. intros <-. done.
Qed.

Lemma detect_blank lines : forall buffer,
  Forall (Forall (fun c => isspace c = true)) buffer ->
  Forall (fun line => is_comment line = true \/ Forall (fun c => isspace c = true) line) lines ->
  Spec.detect buffer lines = [].
Proof.
  induction lines as [|x lines IH]; intros buffer Hb Hl; simpl.
  - assert (E : strip (join [] buffer) = []).
    { apply strip_nil. rewrite join_empty. by apply Forall_concat. }
    by rewrite E.
  - apply Forall_cons in Hl as [Hx Hl].
    destruct (is_comment x) eqn:Ec; [by apply IH|].
    destruct Hx as [Hx|Hx]; [done|].
    rewrite (blank_no_semicolon x Hx). apply IH; [|done].
    apply Forall_app. split; [done|]. by constructor.
Qed.

End Blank.

Section Counts.
Variable h : host.

(** A body that returns has written every batch and printed the summary
    last, with the number of files and of statements. *)
Lemma body_ret_summary self fn lines w :
  snd (split_sql_body h self fn lines w) = Ret tt ->
  last (stdout (fst (split_sql_body h self fn lines w)))
  = Some (Summary (length (batches (statements_per_file self) lines))
                  (length (concat (batches (statements_per_file self) lines)))
                  (output_dir self)).
Proof.
  set (n := statements_per_file self). set (l0 := Locals [] [] 0 0).
  destruct (final_counts n lines) as [Hfiles Hcount]. fold l0 in Hfiles, Hcount.
  destruct (for_lines_refines h fn lines self l0 w) as (k & _ & _ & _ & Hk3).
  fold n in Hk3.
  unfold split_sql_body, bind. fold l0.
  destruct (for_lines h fn lines (self, l0) w) as [w1 [[self1 l1]|e|c]]; cbn [fst snd] in *;
    [|done..].
  destruct Hk3 as (_ & -> & Hcfg).
  pose proof (last_batch_ret self1 fn (last_statement (snd (sweep n lines l0))) w1) as Hret.
  destruct (last_batch self1 fn _ w1) as [w2 [l'|e|c]]; [|done..].
  destruct (Hret _ _ eq_refl) as (_ & Hc2 & Hi2).
  pose proof (report_outcome h self1 l' w2) as Hrep. cbv zeta in Hrep.
  destruct (Qeq_bool _ 0); rewrite Hrep; cbn [fst snd stdout]; [done|].
  intros _. rewrite last_app. cbn. f_equal.
  assert (Ho : output_dir self1 = output_dir self) by apply Hcfg.
  rewrite Ho, Hc2, Hcount, Hi2. f_equal.
  rewrite <- Hfiles. unfold wrap_up.
  by destruct (statements (last_statement (snd (sweep n lines l0)))).
Qed.

End Counts.

(** X2: Every statement written is trimmed and is not empty. *)
Theorem written_statements_are_trimmed h stem self w p b s :
  (p, b) ∈ written_by (split_sql h stem self) w -> s ∈ b ->
  s <> [] /\ strip s = s /\ exists c t, s = c :: t /\ isspace c = false.
Proof.
  intros Hpb Hs.
  destruct (split_sql_written h stem self w) as (k & bs & Hbs & Hnew & _).
  rewrite Hnew in Hpb. apply list_elem_of_lookup in Hpb as [i Hi].
  apply targets_lookup in Hi as [_ Hb].
  destruct (node_at (files w) (input_file self)) as [[|size text]|];
    [subst bs; by rewrite take_nil in Hb| |subst bs; by rewrite take_nil in Hb].
  subst bs. apply lookup_take_Some in Hb as [Hb _].
  assert (Hin : s ∈ Spec.boundary_detection (readlines text)).
  { rewrite <- (batches_detect (statements_per_file self)).
    apply list_elem_of_In, in_concat. exists b.
    split; apply list_elem_of_In; [by apply list_elem_of_lookup_2 in Hb|done]. }
  apply detect_trimmed in Hin as [H1 H2]. split; [done|]. split; [done|].
  destruct (strip_shape s) as [E|(c & t & E & Hc)]; [congruence|].
  rewrite H2 in E. eauto.
Qed.

(** X1: What a statement is: in a run that nothing cuts short, the statements
    written are the runs of lines that are not comments, each up to and
    with the next line that has a semicolon, joined and trimmed, and then
    what is left after the last such line, if it does not trim to
    nothing. *)
Theorem statements_are_terminated_runs h self fn lines w :
  file_size self <> 0%N -> writable (files w) (output_dir self) fn ->
  exists groups rest,
    List.filter not_comment lines = concat groups ++ rest /\
    Forall terminated groups /\
    Forall (fun l => has_semicolon l = false) rest /\
    statements_written (split_sql_body h self fn lines) w
    = map statement_of groups ++ match statement_of rest with [] => [] | s => [s] end.
Proof.
  intros Hsz Hw. rewrite body_statements by done.
  destruct (detect_groups lines []) as (groups & rest & E & Hg & Hr & Hd); [constructor|].
  exists groups, rest. done.
Qed.

(** X4: The batch kept in memory never reaches [statements_per_file] (never
    holds anything when that is below 1): after any number of turns of the
    loop it is shorter. *)
Theorem batch_never_fills h fn lines self l w :
  Z.of_nat (length (statements l)) < Z.max 1 (statements_per_file self) ->
  match snd (for_lines h fn lines (self, l) w) with
  | Ret (_, l') => Z.of_nat (length (statements l')) < Z.max 1 (statements_per_file self)
  | _ => True
  end.
Proof.
  intros Hl.
  destruct (for_lines_refines h fn lines self l w) as (k & _ & _ & _ & Hk3).
  destruct (snd (for_lines h fn lines (self, l) w)) as [[self' l']|e|c]; [|done..].
  destruct Hk3 as (_ & -> & _).
  destruct (Z.le_gt_cases (statements_per_file self) 1) as [Hn|Hn].
  - rewrite Z.max_l in * by lia.
    destruct (sweep_single (statements_per_file self) lines l Hn) as [_ ->]; [|simpl; lia].
    destruct (statements l); [done|simpl in Hl; lia].
  - rewrite Z.max_r in * by lia.
    by destruct (sweep_full (statements_per_file self) lines l) as [_ H]; [lia|done|].
Qed.

(** X3: The number of part files is the number of statements divided by
    [statements_per_file], rounded up. *)
Theorem number_of_files h stem self w size text :
  node_at (files w) (input_file self) = Some (File size text) ->
  (file_size self = 0%N -> text = []) ->
  writable (files w) (output_dir self) (stem (input_file self)) ->
  0 < statements_per_file self ->
  let m := Z.of_nat (length (written_by (split_sql h stem self) w)) in
  let total := Z.of_nat (length (statements_written (split_sql h stem self) w)) in
  (m - 1) * statements_per_file self < total <= m * statements_per_file self /\
  m = (total + statements_per_file self - 1) / statements_per_file self.
Proof.
  intros Hin Hsz Hw Hn m total. subst m total. unfold statements_written.
  destruct (split_sql_all_written h stem self w size text Hin Hsz Hw) as (-> & _).
  rewrite targets_snd, targets_length.
  destruct (batches_number (statements_per_file self) (readlines text) Hn) as [H1 H2].
  split; [done|].
  apply (Z.div_unique_pos _ _ _
           (Z.of_nat (length (concat (batches (statements_per_file self) (readlines text))))
            + statements_per_file self - 1
            - Z.of_nat (length (batches (statements_per_file self) (readlines text)))
              * statements_per_file self)); lia.
Qed.


(** X11: When [split_sql] returns, the last line printed is the summary, and its
    figures are the number of files written and the number of statements in
    them. *)
Theorem summary_counts_what_was_written h stem self w :
  snd (split_sql h stem self w) = Ret tt ->
  last (stdout (fst (split_sql h stem self w)))
  = Some (Summary (length (written_by (split_sql h stem self) w))
                  (length (statements_written (split_sql h stem self) w))
                  (output_dir self)).
Proof.
  unfold statements_written, written_by, split_sql, try_except, bind, open_read.
  destruct (node_at (files w) (input_file self)) as [[|size text]|]; [done| |done].
  pose proof (body_ret_summary h self (stem (input_file self)) (readlines text) w) as Hs.
  destruct (body_refines h self (stem (input_file self)) (readlines text) w)
    as (k & _ & Hf & _ & Hk).
  destruct (split_sql_body h self (stem (input_file self)) (readlines text) w)
    as [w1 [[]|e|c]]; cbn [fst snd] in *; [|done..].
  intros _. rewrite (Hs eq_refl), Hf, Hk, firstn_all, drop_app_length.
  by rewrite targets_length, targets_snd.
Qed.

(** X5: An input of comments and blank lines only, or an empty one, writes no
    file. *)
Theorem blank_input_writes_nothing h stem self w size text :
  node_at (files w) (input_file self) = Some (File size text) ->
  Forall (fun line => is_comment line = true \/ Forall (fun c => isspace c = true) line)
         (readlines text) ->
  written_by (split_sql h stem self) w = [] /\
  files (fst (split_sql h stem self w)) = files w.
Proof.
  intros Hin Hblank.
  destruct (split_sql_written h stem self w) as (k & bs & Hbs & -> & -> & _).
  rewrite Hin in Hbs.
  rewrite (batches_none _ (readlines text)), take_nil in Hbs.
  - by subst bs.
  - by apply detect_blank.
Qed.

Section Init.
Variable h : host.

(** [__init__] in one piece. *)
Lemma init_unfold input output n w :
  __init__ h input output n w
  = match mkdirs_from [] output (files w) with
    | inr e => (w, Raise e)
    | inl t =>
        match node_at t input with
        | None => (World t (stdout w) (ticks w) (flushed w), Raise FileNotFoundError)
        | Some node =>
            let size := match node with Dir => dir_size | File sz _ => sz end in
            (World t
                   (stdout w ++ if (1024 * 1024 * 1024 <? size)%N
                                then [Warn_large size] else [])
                   (S (S (ticks w))) (flushed w),
             Ret (Self input output n size (clock h (ticks w)) 0 (clock h (S (ticks w)))))
        end
    end.
Proof.
  unfold __init__, bind, makedirs, path_exists, getsize, raise, print, ret, time_time.
  destruct (mkdirs_from [] output (files w)) as [t|e]; [|done]. cbn.
  destruct (node_at t input) as [[|size text]|] eqn:En; cbn; rewrite ?En; cbn.
  - by rewrite app_nil_r.
  - destruct (_ <? size)%N; cbn; by rewrite ?app_nil_r.
  - done.
Qed.

Lemma mkdirs_from_blocked rest : forall base t q size text,
  on_way base rest q -> t !! q = Some (File size text) ->
  mkdirs_from base rest t = inr FileExistsError \/
  mkdirs_from base rest t = inr NotADirectoryError.
Proof.
  induction rest as [|c rest IH]; intros base t q size text Hq Ht.
  - destruct Hq as (k & Hk & _). simpl in Hk. lia.
  - simpl. rewrite node_at_lookup by (by destruct base).
    apply on_way_cons in Hq.
    destruct (t !! (base ++ [c])) as [[|sz tx]|] eqn:E.
    + destruct Hq as [->|Hq]; [congruence|]. by apply (IH _ _ q size text).
    + destruct rest; auto.
    + destruct Hq as [->|Hq]; [congruence|]. apply (IH _ _ q size text); [done|].
      rewrite lookup_insert_ne; [done|]. intros <-. congruence.
Qed.

Lemma mkdirs_root output t :
  (forall p size text, p `prefix_of` output -> node_at t p <> Some (File size text)) ->
  exists t', mkdirs_from [] output t = inl t' /\
             (forall p, p `prefix_of` output -> isdir t' p = true) /\
             (forall q, ~ q `prefix_of` output -> t' !! q = t !! q) /\
             (forall q node, node_at t q = Some node -> node_at t' q = Some node) /\
             t' !! [] = t !! [].
Proof.
  intros Hfree.
  destruct (mkdirs_from_spec output [] t) as (t' & Ht & Hon & Hoff).
  { intros q size text Hq. apply on_way_root in Hq as [Hq1 Hq2].
    rewrite <- node_at_lookup by done. by apply Hfree. }
  exists t'. split; [done|]. split; [|split; [|split]].
  - intros p Hp. unfold isdir. destruct p as [|c p]; [done|].
    rewrite node_at_lookup by done. rewrite Hon; [done|]. by apply on_way_root.
  - intros q Hq. apply Hoff. intros H. by apply on_way_root in H as [_ H].
  - intros q node Hq. destruct q as [|c q]; [done|]. cbn [node_at] in *.
    destruct (decide ((c :: q) `prefix_of` output)) as [Hw|Hw].
    + rewrite Hon by (by apply on_way_root).
      destruct node as [|size text]; [done|]. by destruct (Hfree (c :: q) size text Hw).
    + rewrite Hoff; [done|]. intros H. by apply on_way_root in H as [_ H].
  - apply Hoff. intros H. by apply on_way_nonempty in H.
Qed.

End Init.

(** X16: Construction on an input that is there: the splitter gets the size
    [stat] reports and the clock readings, the output directory and the
    directories above it are made, nothing else changes, and a size above
    1 GiB only adds a warning. *)
Theorem init_on_existing_input h input output n w node :
  node_at (files w) input = Some node ->
  (forall p size text, p `prefix_of` output -> node_at (files w) p <> Some (File size text)) ->
  let size := match node with Dir => dir_size | File sz _ => sz end in
  snd (__init__ h input output n w)
    = Ret (Self input output n size (clock h (ticks w)) 0 (clock h (S (ticks w)))) /\
  stdout (fst (__init__ h input output n w))
    = stdout w ++ (if (2 ^ 30 <? size)%N then [Warn_large size] else []) /\
  ticks (fst (__init__ h input output n w)) = S (S (ticks w)) /\
  flushed (fst (__init__ h input output n w)) = flushed w /\
  (forall p, p `prefix_of` output -> isdir (files (fst (__init__ h input output n w))) p = true) /\
  (forall q, ~ q `prefix_of` output ->
             files (fst (__init__ h input output n w)) !! q = files w !! q).
Proof.
  intros Hin Hfree size.
  destruct (mkdirs_root output (files w) Hfree) as (t' & Ht & Hdirs & Hoff & Hkeep & _).
  rewrite init_unfold, Ht, (Hkeep _ _ Hin). fold size. cbn [fst snd stdout ticks flushed files].
  change (1024 * 1024 * 1024)%N with (2 ^ 30)%N. done.
Qed.

(** X17: Construction on an output directory that is there already, with the
    directories above it, leaves the tree as it is, whether the input
    exists or not. *)
Theorem init_keeps_existing_output_dir h input output n w :
  (forall p, p `prefix_of` output -> isdir (files w) p = true) ->
  files (fst (__init__ h input output n w)) = files w /\
  (node_at (files w) input = None ->
   snd (__init__ h input output n w) = Raise FileNotFoundError).
Proof.
  intros Hdirs.
  assert (Hfree : forall p size text,
             p `prefix_of` output -> node_at (files w) p <> Some (File size text)).
  { intros p size text Hp E. specialize (Hdirs p Hp). unfold isdir in Hdirs.
    by rewrite E in Hdirs. }
  destruct (mkdirs_root output (files w) Hfree) as (t' & Ht & Hdirs' & Hoff & Hkeep & Hroot).
  assert (Et : t' = files w).
  { apply map_eq. intros q.
    destruct (decide (q `prefix_of` output)) as [Hq|Hq]; [|by apply Hoff].
    destruct q as [|c q]; [done|].
    specialize (Hdirs _ Hq). specialize (Hdirs' _ Hq). unfold isdir in *.
    cbn [node_at] in *.
    destruct (t' !! (c :: q)) as [[|]|]; destruct (files w !! (c :: q)) as [[|]|]; done. }
  rewrite init_unfold, Ht, Et. split.
  - by destruct (node_at (files w) input).
  - by intros ->.
Qed.

(** X18: A regular file where the output directory or one of the directories
    above it should be stops the construction with the error of
    [os.makedirs], before the input is looked at and with nothing
    changed. *)
Theorem init_stops_at_a_file_in_the_way h input output n w p size text :
  p `prefix_of` output -> node_at (files w) p = Some (File size text) ->
  fst (__init__ h input output n w) = w /\
  (snd (__init__ h input output n w) = Raise FileExistsError \/
   snd (__init__ h input output n w) = Raise NotADirectoryError).
Proof.
  intros Hp Hfile.
  assert (Hne : p <> []) by (intros ->; done).
  rewrite init_unfold.
  destruct (mkdirs_from_blocked output [] (files w) p size text) as [E|E];
    [by apply on_way_root|by rewrite <- node_at_lookup| |]; rewrite E; auto.
Qed.

(** X19: A missing input whose path is the output directory, or a directory
    above it, is not reported as missing: making the output directory makes
    it, construction succeeds, and the run ends in [split_sql], which
    cannot open a directory: exit status 1, nothing written. *)
Theorem missing_input_above_output_dir h stem input output n w :
  node_at (files w) input = None ->
  input `prefix_of` output ->
  (forall p size text, p `prefix_of` output -> node_at (files w) p <> Some (File size text)) ->
  (exists self, snd (__init__ h input output n w) = Ret self /\ file_size self = dir_size) /\
  snd (main h stem input output n w) = SysExit 1 /\
  last (stdout (fst (main h stem input output n w))) = Some (Error_processing IsADirectoryError) /\
  flushed (fst (main h stem input output n w)) = flushed w /\
  isdir (files (fst (main h stem input output n w))) input = true.
Proof.
  intros Hin Hpre Hfree.
  destruct (mkdirs_root output (files w) Hfree) as (t' & Ht & Hdirs & _).
  pose proof (Hdirs input Hpre) as Hd. unfold isdir in Hd.
  destruct (node_at t' input) as [[|]|] eqn:En; try done.
  unfold main, try_except, bind. rewrite init_unfold, Ht, En. cbn [fst snd].
  split; [eauto|].
  unfold split_sql, try_except, bind, open_read, print, sys_exit.
  cbn [input_file files]. rewrite En. cbn [fst snd stdout flushed files].
  repeat split; try done.
  - by rewrite last_app.
  - unfold isdir. by rewrite En.
Qed.

(** X20: [main] on an input that does not exist (and is not made by making the
    output directory): the output directory is made, one line reports the
    error, the exit status is 1, the clock is not read and nothing is
    written. *)
Theorem main_on_missing_input h stem input output n w :
  node_at (files w) input = None ->
  ~ input `prefix_of` output ->
  (forall p size text, p `prefix_of` output -> node_at (files w) p <> Some (File size text)) ->
  snd (main h stem input output n w) = SysExit 1 /\
  stdout (fst (main h stem input output n w)) = stdout w ++ [Error_main FileNotFoundError] /\
  ticks (fst (main h stem input output n w)) = ticks w /\
  flushed (fst (main h stem input output n w)) = flushed w /\
  isdir (files (fst (main h stem input output n w))) output = true /\
  (forall q, ~ q `prefix_of` output ->
             files (fst (main h stem input output n w)) !! q = files w !! q).
Proof.
  intros Hin Hpre Hfree.
  assert (Hne : input <> []) by (intros ->; done).
  destruct (mkdirs_root output (files w) Hfree) as (t' & Ht & Hdirs & Hoff & _).
  assert (En : node_at t' input = None).
  { rewrite node_at_lookup in * by done. by rewrite Hoff. }
  unfold main, try_except, bind. rewrite init_unfold, Ht, En.
  unfold print, sys_exit. cbn. repeat split; auto.
Qed.


Section Lines.

Lemma split_lines_concat s : forall cur, concat (split_lines cur s) = cur ++ s.
Proof.
  induction s as [|c s IH]; intros cur; simpl.
  - destruct cur; simpl; by rewrite ?app_nil_r.
  - destruct (c =? LF)%N; simpl; rewrite IH; by rewrite <- ?app_assoc.
Qed.

Lemma universal_newlines_cons c s :
  universal_newlines (c :: s) =
  if (c =? CR)%N then
    LF :: match s with
          | [] => []
          | d :: s'' => if (d =? LF)%N then universal_newlines s''
                        else universal_newlines s
          end
  else c :: universal_newlines s.
Proof. reflexivity. Qed.

Lemma utf8_len_cons c s : utf8_len (c :: s) = (utf8_width c + utf8_len s)%N.
Proof. reflexivity. Qed.

Lemma utf8_len_app s t : utf8_len (s ++ t) = (utf8_len s + utf8_len t)%N.
Proof. induction s; cbn [app]; rewrite ?utf8_len_cons, ?IHs; [done|lia]. Qed.

Lemma utf8_len_universal_upto n : forall s, (length s <= n)%nat ->
  (utf8_len (universal_newlines s) <= utf8_len s)%N.
Proof.
  induction n as [|n IH]; intros [|c s] Hn; cbn [length] in Hn; try done; try lia.
  rewrite universal_newlines_cons.
  destruct (c =? CR)%N eqn:Ec.
  - apply N.eqb_eq in Ec. subst c.
    destruct s as [|d s]; [done|].
    destruct (d =? LF)%N eqn:Ed.
    + apply N.eqb_eq in Ed. subst d.
      rewrite !utf8_len_cons. assert (H := IH s). cbn [length] in Hn.
      specialize (H ltac:(lia)). change (utf8_width CR) with 1%N.
      change (utf8_width LF) with 1%N. lia.
    + rewrite (utf8_len_cons LF), (utf8_len_cons CR). assert (H := IH (d :: s) ltac:(lia)).
      change (utf8_width CR) with 1%N. change (utf8_width LF) with 1%N. lia.
  - rewrite !utf8_len_cons. assert (H := IH s ltac:(lia)). lia.
Qed.

Lemma utf8_len_universal s : (utf8_len (universal_newlines s) <= utf8_len s)%N.
Proof. by apply (utf8_len_universal_upto (length s)). Qed.

End Lines.

Section Throttle.
Variable h : host.

Lemma progress_times_app a b :
  progress_times (a ++ b) = progress_times a ++ progress_times b.
Proof. induction a as [|[] a IH]; simpl; by rewrite ?IH. Qed.

Lemma progress_figures_app a b :
  progress_figures (a ++ b) = progress_figures a ++ progress_figures b.
Proof. induction a as [|[] a IH]; simpl; by rewrite ?IH. Qed.

Lemma printed_by_app {A} (m : M A) w evs :
  stdout (fst (m w)) = stdout w ++ evs -> printed_by m w = evs.
Proof. intros E. unfold printed_by. rewrite E. apply drop_app_length. Qed.

Lemma update_progress_prints self sz w :
  let r := _update_progress h self sz w in
  (stdout (fst r) = stdout w /\
   forall self', snd r = Ret self' -> next self sz (last_progress_time self) self')
  \/ exists ct mem,
       (1 # 2 <= ct - last_progress_time self)%Q /\ file_size self <> 0%N /\
       stdout (fst r) = stdout w ++
         [Progress (processed_size self + sz) (file_size self) (ct - start_time self) mem] /\
       forall self', snd r = Ret self' -> next self sz ct self'.
Proof.
  unfold _update_progress, bind, time_time, memory_rss, print, ret, raise. cbn.
  destruct (Qle_bool _ _) eqn:Eq; cbn.
  - destruct (file_size self =? 0)%N eqn:E; cbn.
    + left. split; [done|]. intros ? [=].
    + right. exists (clock h (ticks w)), (rss h (S (ticks w))).
      split; [by apply Qle_bool_iff|]. split; [by apply N.eqb_neq|]. split; [done|].
      intros ? [= <-]. by repeat split.
  - left. split; [done|]. intros ? [= <-]. by repeat split.
Qed.

Lemma write_statements_prints self stmts fn i w :
  exists evs, stdout (fst (_write_statements_to_file self stmts fn i w)) = stdout w ++ evs /\
              progress_times evs = [] /\ progress_figures evs = [].
Proof.
  unfold _write_statements_to_file, try_except, bind, write_text, note_flush, print, sys_exit.
  destruct (node_at (files w) (output_dir self)) as [[]|]; cbn;
    try (by eexists [_]);
    destruct (node_at _ _) as [[]|]; cbn;
    try (by eexists [_]); by (exists []; rewrite app_nil_r).
Qed.

Lemma for_line_prints fn line self l w :
  let r := for_line h fn line (self, l) w in
  exists evs, stdout (fst r) = stdout w ++ evs /\
    ((progress_times evs = [] /\ progress_figures evs = [] /\
      forall self' l', snd r = Ret (self', l') ->
        next self (utf8_len line) (last_progress_time self) self')
     \/ exists ct,
          (1 # 2 <= ct - last_progress_time self)%Q /\ file_size self <> 0%N /\
          progress_times evs = [(ct - start_time self)%Q] /\
          progress_figures evs = [((processed_size self + utf8_len line)%N, file_size self)] /\
          forall self' l', snd r = Ret (self', l') -> next self (utf8_len line) ct self').
Proof.
  intros r. subst r. unfold for_line, bind.
  pose proof (update_progress_prints self (utf8_len line) w) as Hu. cbv zeta in Hu.
  destruct (_update_progress h self (utf8_len line) w) as [w1 [self1| |]] eqn:Eu;
    cbn [fst snd] in *.
  2,3: destruct Hu as [[Hs _]|(ct & mem & Hq & Hz & Hs & _)];
       [exists []; rewrite app_nil_r; split; [done|]; left; by repeat split
       |eexists [_]; split; [exact Hs|]; right; exists ct; by repeat split].
  assert (Hrest : forall (m : M (SQLSplitter * locals)) evs2,
    stdout (fst (m w1)) = stdout w1 ++ evs2 ->
    progress_times evs2 = [] -> progress_figures evs2 = [] ->
    (forall s' l', snd (m w1) = Ret (s', l') -> s' = self1) ->
    exists evs, stdout (fst (m w1)) = stdout w ++ evs /\
    ((progress_times evs = [] /\ progress_figures evs = [] /\
      forall self' l', snd (m w1) = Ret (self', l') ->
        next self (utf8_len line) (last_progress_time self) self')
     \/ exists ct,
          (1 # 2 <= ct - last_progress_time self)%Q /\ file_size self <> 0%N /\
          progress_times evs = [(ct - start_time self)%Q] /\
          progress_figures evs = [((processed_size self + utf8_len line)%N, file_size self)] /\
          forall self' l', snd (m w1) = Ret (self', l') -> next self (utf8_len line) ct self')).
  { intros m evs2 Hs2 Ht2 Hf2 Hself.
    destruct Hu as [[Hs Hn]|(ct & mem & Hq & Hz & Hs & Hn)].
    - exists evs2. split; [by rewrite Hs2, Hs|]. left. repeat split; try done;
        apply Hself in H; subst; by apply Hn.
    - eexists (_ :: evs2). split; [rewrite Hs2, Hs, <- app_assoc; done|].
      right. exists ct. cbn. rewrite Ht2, Hf2. repeat split; try done;
        apply Hself in H; subst; by apply Hn. }
  assert (Hret : forall (x : SQLSplitter * locals), fst x = self1 ->
    exists evs, stdout (fst (ret x w1)) = stdout w ++ evs /\
    ((progress_times evs = [] /\ progress_figures evs = [] /\
      forall self' l', snd (ret x w1) = Ret (self', l') ->
        next self (utf8_len line) (last_progress_time self) self')
     \/ exists ct,
          (1 # 2 <= ct - last_progress_time self)%Q /\ file_size self <> 0%N /\
          progress_times evs = [(ct - start_time self)%Q] /\
          progress_figures evs = [((processed_size self + utf8_len line)%N, file_size self)] /\
          forall self' l', snd (ret x w1) = Ret (self', l') -> next self (utf8_len line) ct self')).
  { intros x Hx. apply (Hrest (ret x) []); try done.
    - cbn. by rewrite app_nil_r.
    - cbn. intros ? ? [= E]. by rewrite <- Hx, E. }
  destruct (is_comment line); [by apply Hret|].
  destruct (has_semicolon line); [|by apply Hret].
  destruct (truthy _); [|by apply Hret].
  destruct (_ <=? _)%Z; [|by apply Hret].
  destruct (write_statements_prints self1 (statements l ++ [strip (join [] (current_statement l ++ [line]))])
              fn (current_file_index l) w1) as (evs2 & Hs2 & Ht2 & Hf2).
  match goal with |- context [match ?m w1 with _ => _ end] =>
    change (match m w1 with
            | (w', Ret a) => ret (self1, Locals [] [] (S (current_file_index l)) (S (statement_count l))) w'
            | (w', Raise e) => (w', Raise e)
            | (w', SysExit c) => (w', SysExit c)
            end)
    with (bind m (fun _ => ret (self1, Locals [] [] (S (current_file_index l)) (S (statement_count l)))) w1)
  end.
  apply (Hrest _ evs2); try done.
  - unfold bind. destruct (_write_statements_to_file _ _ _ _ _) as [w2 []]; cbn in *; done.
  - unfold bind. destruct (_write_statements_to_file _ _ _ _ _) as [w2 []]; cbn; congruence.
Qed.

Lemma utf8_len_concat_cons (line : str) (lines : list str) :
  utf8_len (concat (line :: lines)) = (utf8_len line + utf8_len (concat lines))%N.
Proof. cbn [concat]. apply utf8_len_app. Qed.

Lemma spaced_shift t0 t1 ts : (t0 == t1)%Q -> spaced t0 ts -> spaced t1 ts.
Proof. destruct ts as [|t ts]; [done|]. cbn. intros E [H1 H2]. split; [lra|done]. Qed.

(** The loop: progress lines are half a second apart, each reports the
    bytes of the lines read so far against the size taken at construction. *)
Lemma for_lines_prints fn lines : forall self l w,
  let r := for_lines h fn lines (self, l) w in
  exists evs, stdout (fst r) = stdout w ++ evs /\
    spaced (last_progress_time self - start_time self) (progress_times evs) /\
    Forall (fun pt => snd pt = file_size self /\ snd pt <> 0%N /\
                      (processed_size self <= fst pt
                       <= processed_size self + utf8_len (concat lines))%N)
           (progress_figures evs) /\
    forall self' l', snd r = Ret (self', l') ->
      processed_size self' = (processed_size self + utf8_len (concat lines))%N /\
      start_time self' = start_time self /\ file_size self' = file_size self.
Proof.
  induction lines as [|line lines IH]; intros self l w r; subst r.
  - exists []. cbn. rewrite app_nil_r. repeat split; try done; injection H as <- _; try done.
    unfold utf8_len. cbn. lia.
  - cbn [for_lines]. unfold bind.
    destruct (for_line_prints fn line self l w) as (evs1 & Hs1 & Hc). cbv zeta in Hc.
    rewrite utf8_len_concat_cons.
    destruct (for_line h fn line (self, l) w) as [w1 [[self1 l1]| |]] eqn:E1; cbn [fst snd] in *.
    2,3: exists evs1; split; [done|];
         destruct Hc as [(Ht & Hf & _)|(ct & Hq & Hz & Ht & Hf & _)]; rewrite Ht, Hf;
         (split; [cbn; try split; try done; lra|]); (split; [|done]);
         repeat constructor; cbn; lia.
    destruct (IH self1 l1 w1) as (evs2 & Hs2 & Hsp & Hfig & Hret). cbv zeta in *.
    exists (evs1 ++ evs2). split; [by rewrite Hs2, Hs1, app_assoc|].
    rewrite progress_times_app, progress_figures_app.
    destruct Hc as [(Ht & Hf & Hn)|(ct & Hq & Hz & Ht & Hf & Hn)];
      destruct (Hn _ _ eq_refl) as (Hp & Hst & Hfs & Hl); rewrite Ht, Hf; cbn [app].
    + rewrite Hl, Hst in Hsp. split; [done|]. split.
      * eapply Forall_impl; [exact Hfig|]. cbn. intros [p t] (? & ? & ?). cbn in *.
        split; [congruence|]. split; [done|lia].
      * intros s' l' Hr. destruct (Hret _ _ Hr) as (? & ? & ?). repeat split; try congruence. lia.
    + rewrite Hl, Hst in Hsp. split; [cbn; split; [lra|done]|]. split.
      * constructor; [cbn; split; [done|]; split; [done|lia]|].
        eapply Forall_impl; [exact Hfig|]. cbn. intros [p t] (? & ? & ?). cbn in *.
        split; [congruence|]. split; [done|lia].
      * intros s' l' Hr. destruct (Hret _ _ Hr) as (? & ? & ?). repeat split; try congruence. lia.
Qed.

End Throttle.

Section Printed.
Variable h : host.

Lemma last_batch_prints self fn l w :
  exists evs, stdout (fst (last_batch self fn l w)) = stdout w ++ evs /\ quiet evs.
Proof.
  unfold last_batch. destruct (truthy _).
  - destruct (write_statements_prints self (statements l) fn (current_file_index l) w)
      as (evs & Hs & Ht & Hf).
    exists evs. split; [|done]. unfold bind.
    destruct (_write_statements_to_file _ _ _ _ _) as [w2 []]; cbn in *; done.
  - exists []. cbn. by rewrite app_nil_r.
Qed.

Lemma report_prints self l w :
  exists evs, stdout (fst (report h self l w)) = stdout w ++ evs /\ quiet evs.
Proof.
  unfold report, bind, time_time, print, raise. cbn.
  destruct (Qeq_bool _ _); cbn; rewrite <- ?app_assoc; by eexists.
Qed.

Lemma body_prints self fn lines w :
  exists evs, stdout (fst (split_sql_body h self fn lines w)) = stdout w ++ evs /\
    spaced (last_progress_time self - start_time self) (progress_times evs) /\
    Forall (fun pt => snd pt = file_size self /\ snd pt <> 0%N /\
                      (processed_size self <= fst pt
                       <= processed_size self + utf8_len (concat lines))%N)
           (progress_figures evs).
Proof.
  unfold split_sql_body, bind.
  destruct (for_lines_prints h fn lines self (Locals [] [] 0 0) w)
    as (evs1 & Hs1 & Hsp & Hfig & _). cbv zeta in *.
  destruct (for_lines h fn lines _ w) as [w1 [[self1 l1]| |]]; cbn [fst snd] in *.
  2,3: by exists evs1.
  destruct (last_batch_prints self1 fn (last_statement l1) w1) as (evs2 & Hs2 & Ht2 & Hf2).
  destruct (last_batch self1 fn _ w1) as [w2 [l2| |]]; cbn [fst snd] in *.
  2,3: exists (evs1 ++ evs2); rewrite Hs2, Hs1, app_assoc, progress_times_app,
         progress_figures_app, Ht2, Hf2, !app_nil_r; done.
  destruct (report_prints self1 l2 w2) as (evs3 & Hs3 & Ht3 & Hf3).
  exists (evs1 ++ evs2 ++ evs3).
  rewrite Hs3, Hs2, Hs1, !progress_times_app, !progress_figures_app, Ht2, Hf2, Ht3, Hf3,
    !app_nil_r, <- !app_assoc. done.
Qed.

Lemma split_sql_prints stem self w :
  exists evs, stdout (fst (split_sql h stem self w)) = stdout w ++ evs /\
    spaced (last_progress_time self - start_time self) (progress_times evs) /\
    forall size text, node_at (files w) (input_file self) = Some (File size text) ->
      Forall (fun pt => snd pt = file_size self /\ snd pt <> 0%N /\
                        (processed_size self <= fst pt
                         <= processed_size self + utf8_len (universal_newlines text))%N)
             (progress_figures evs).
Proof.
  unfold split_sql, try_except, bind, open_read.
  destruct (node_at (files w) (input_file self)) as [[|size text]|] eqn:En; cbn.
  1,3: eexists [_]; repeat split; try done.
  destruct (body_prints self (stem (input_file self)) (readlines text) w)
    as (evs & Hs & Hsp & Hfig).
  unfold readlines in Hfig at 1. rewrite split_lines_concat in Hfig. cbn [app] in Hfig.
  destruct (split_sql_body _ _ _ _ _) as [w1 [[]|e|c]]; cbn [fst snd] in *.
  1,3: exists evs; repeat split; try done; by intros ? ? [= _ <-].
  exists (evs ++ [Error_processing e]). cbn. rewrite Hs, <- app_assoc.
  rewrite progress_times_app, progress_figures_app, !app_nil_r.
  repeat split; try done. by intros ? ? [= _ <-].
Qed.

End Printed.

(** ** The figures of a progress line *)

Import Display.

Section Figures.

Lemma Qle_bool_false a b : Qle_bool a b = false -> (b < a)%Q.
Proof.
  intros H. apply Qnot_le_lt. intros L. apply Qle_bool_iff in L. congruence.
Qed.

Lemma divide_some a b : ~ (b == 0)%Q -> divide a b = Some (a / b)%Q.
Proof.
  intros H. unfold divide. destruct (Qeq_bool b 0) eqn:E; [|done].
  by apply Qeq_bool_iff in E.
Qed.

Lemma of_N_zero n : (of_N n == 0)%Q <-> n = 0%N.
Proof.
  unfold of_N. split.
  - intros H. unfold Qeq in H. simpl in H. lia.
  - intros ->. reflexivity.
Qed.

Lemma of_N_le a b : (a <= b)%N -> (of_N a <= of_N b)%Q.
Proof. intros H. unfold of_N. rewrite <- Zle_Qle. lia. Qed.

End Figures.

(** X15: The unit [_format_size] picks: the number it formats times the unit is
    the size, the number is below 1024 under every unit but TB, and a unit
    above B is only picked for a size that reaches it. *)
Theorem format_size_picks_the_unit size :
  (fst (_format_size size) * rank (snd (_format_size size)) == size)%Q /\
  (snd (_format_size size) <> TB -> (fst (_format_size size) < 1024)%Q) /\
  (snd (_format_size size) <> B -> (1 <= fst (_format_size size))%Q).
Proof.
  assert (K : forall (v : Q) u, (v * rank u == size)%Q ->
                (u <> TB -> (v < 1024)%Q) -> (u <> B -> (1 <= v)%Q) ->
                (fst (v, u) * rank (snd (v, u)) == size)%Q /\
                (snd (v, u) <> TB -> (fst (v, u) < 1024)%Q) /\
                (snd (v, u) <> B -> (1 <= fst (v, u))%Q)).
  { intros v u H1 H2 H3. cbn [fst snd]. done. }
  assert (D : forall x : Q, (x / 1024 * 1024 == x)%Q) by (intros; field).
  unfold _format_size, scale.
  destruct (Qle_bool 1024 size) eqn:E1;
    [apply Qle_bool_iff in E1
    |apply Qle_bool_false in E1; eapply K; [unfold rank; lra|intros _; lra|done]].
  pose proof (D size) as D1. set (v1 := (size / 1024)%Q) in *.
  destruct (Qle_bool 1024 v1) eqn:E2;
    [apply Qle_bool_iff in E2
    |apply Qle_bool_false in E2; eapply K; [unfold rank; lra|intros _; lra|intros _; lra]].
  pose proof (D v1) as D2. set (v2 := (v1 / 1024)%Q) in *.
  destruct (Qle_bool 1024 v2) eqn:E3;
    [apply Qle_bool_iff in E3
    |apply Qle_bool_false in E3; eapply K; [unfold rank; lra|intros _; lra|intros _; lra]].
  pose proof (D v2) as D3. set (v3 := (v2 / 1024)%Q) in *.
  destruct (Qle_bool 1024 v3) eqn:E4;
    [apply Qle_bool_iff in E4|apply Qle_bool_false in E4].
  - pose proof (D v3) as D4. set (v4 := (v3 / 1024)%Q) in *.
    eapply K; [unfold rank; lra|done|intros _; lra].
  - eapply K; [unfold rank; lra|intros _; lra|intros _; lra].
Qed.

Section Estimate.

Lemma estimate_zero p el : estimate p 0 el = None.
Proof. reflexivity. Qed.

Lemma estimate_some p t el : t <> 0%N ->
  exists progress speed eta,
    estimate p t el = Some (progress, speed, eta) /\
    (progress * of_N t == 100 * of_N p)%Q /\
    ((0 < el)%Q -> (speed * el == of_N p)%Q) /\
    ((el <= 0)%Q -> (speed == 0)%Q) /\
    ((0 < el)%Q -> (0 < p)%N -> (eta * of_N p == (of_N t - of_N p) * el)%Q) /\
    ((el <= 0)%Q \/ p = 0%N -> (eta == 0)%Q) /\
    ((p <= t)%N -> (0 <= progress <= 100)%Q /\ (0 <= eta)%Q).
Proof.
  intros Ht. unfold estimate.
  assert (Ht' : ~ (of_N t == 0)%Q) by (by rewrite of_N_zero).
  rewrite (divide_some _ _ Ht'). cbn [mbind option_bind].
  assert (Hp0 : (0 <= of_N p)%Q) by (change 0%Q with (of_N 0); apply of_N_le; lia).
  assert (Ht0 : (0 < of_N t)%Q).
  { assert (0 <= of_N t)%Q by (change 0%Q with (of_N 0); apply of_N_le; lia). lra. }
  assert (Hpc : (p <= t)%N -> (0 <= of_N p / of_N t * 100 <= 100)%Q).
  { intros Hle. apply of_N_le in Hle.
    assert (0 <= of_N p / of_N t)%Q by (apply Qle_shift_div_l; lra).
    assert (of_N p / of_N t <= 1)%Q by (apply Qle_shift_div_r; lra).
    lra. }
  destruct (Qle_bool el 0) eqn:Eel.
  - apply Qle_bool_iff in Eel. cbn [mbind option_bind].
    change (Qle_bool 0 0) with true. cbn iota.
    eexists _, _, _. split; [reflexivity|].
    split; [field; exact Ht'|]. split; [intros; lra|]. split; [reflexivity|].
    split; [intros; lra|]. split; [reflexivity|].
    intros Hle. split; [by apply Hpc|lra].
  - apply Qle_bool_false in Eel.
    assert (Hel : ~ (el == 0)%Q) by lra.
    rewrite (divide_some _ _ Hel). cbn [mbind option_bind].
    destruct (Qle_bool (of_N p / el) 0) eqn:Es.
    + apply Qle_bool_iff in Es. cbn [mbind option_bind].
      assert (Hpz : (of_N p == 0)%Q).
      { assert (E : (of_N p / el * el == of_N p)%Q) by (field; exact Hel).
        pose proof (Qmult_le_compat_r _ _ el Es (Qlt_le_weak _ _ Eel)) as H.
        lra. }
      eexists _, _, _. split; [reflexivity|].
      split; [field; exact Ht'|]. split; [intros; field; exact Hel|].
      split; [intros; lra|].
      split; [intros _ Hp; apply of_N_zero in Hpz; lia|]. split; [reflexivity|].
      intros Hle. split; [by apply Hpc|lra].
    + apply Qle_bool_false in Es.
      assert (Hs : ~ (of_N p / el == 0)%Q) by lra.
      rewrite (divide_some _ _ Hs). cbn [mbind option_bind].
      assert (Hpn : ~ (of_N p == 0)%Q).
      { intros E. apply Hs. rewrite E. field. exact Hel. }
      eexists _, _, _. split; [reflexivity|].
      split; [field; exact Ht'|]. split; [intros; field; exact Hel|].
      split; [intros; lra|].
      split; [intros; field; split; [exact Hel|exact Hpn]|].
      split; [intros [H|H]; [lra|]; subst p; exfalso; by apply Hpn|].
      intros Hle. split; [by apply Hpc|].
      apply of_N_le in Hle. apply Qle_shift_div_l; lra.
Qed.

End Estimate.

(** X14: The figures of a progress line: the division by the size of the file is
    the only one that can fail, the two others being guarded. With a size
    that is not 0 the percentage, the speed and the remaining time are
    computed; the speed is bytes by second, or 0 before any time has
    passed; the remaining time extends the time elapsed in proportion to
    the bytes left, or is 0 when nothing has been read or no time has
    passed. *)
Theorem estimate_guards_its_divisions p t el :
  (t = 0%N -> estimate p t el = None) /\
  (t <> 0%N ->
   exists progress speed eta,
     estimate p t el = Some (progress, speed, eta) /\
     (progress * of_N t == 100 * of_N p)%Q /\
     ((0 < el)%Q -> (speed * el == of_N p)%Q) /\
     ((el <= 0)%Q -> (speed == 0)%Q) /\
     ((0 < el)%Q -> (0 < p)%N -> (eta * of_N p == (of_N t - of_N p) * el)%Q) /\
     ((el <= 0)%Q \/ p = 0%N -> (eta == 0)%Q) /\
     ((p <= t)%N -> (0 <= progress <= 100)%Q /\ (0 <= eta)%Q)).
Proof.
  split; [intros ->; apply estimate_zero|apply estimate_some].
Qed.


(** X13: For a regular file that is as it was when the splitter was made, no
    progress line reports more bytes read than the file has, nor more than
    its text has once line ends are translated: the percentage shown is
    between 0 and 100 and the remaining time is not negative. *)
Theorem progress_stays_within_total h stem self w text :
  node_at (files w) (input_file self) = Some (File (utf8_len text) text) ->
  file_size self = utf8_len text ->
  processed_size self = 0%N ->
  Forall (fun pt =>
            snd pt = file_size self /\ (fst pt <= snd pt)%N /\
            (fst pt <= utf8_len (universal_newlines text))%N /\
            forall elapsed, exists progress speed eta,
              estimate (fst pt) (snd pt) elapsed = Some (progress, speed, eta) /\
              (0 <= progress <= 100)%Q /\ (0 <= eta)%Q)
         (progress_figures (printed_by (split_sql h stem self) w)).
Proof.
  intros Hn Hsz Hp.
  destruct (split_sql_prints h stem self w) as (evs & Hs & _ & Hfig).
  rewrite (printed_by_app _ _ _ Hs).
  eapply Forall_impl; [exact (Hfig _ _ Hn)|]. cbn. intros [p t] (Ht & Hz & Hb). cbn in *.
  pose proof (utf8_len_universal text). rewrite Hp in Hb.
  assert (Hle : (p <= t)%N) by lia.
  repeat split; try done; try lia. intros el.
  destruct (estimate_some p t el Hz) as (pr & sp & eta & E & _ & _ & _ & _ & _ & K).
  exists pr, sp, eta. split; [done|]. by apply K.
Qed.

(** ** Runs *)

Import Cases.



Lemma barred_part_stops_the_run_witness :
  node_at (files barred) (input_file (splitter 1))
    = Some (File (utf8_len two_statements) two_statements) /\
  writable (files ready) (output_dir (splitter 1)) (stem (input_file (splitter 1))) /\
  can_write (files barred) (output_dir (splitter 1))
            (part_name (stem (input_file (splitter 1))) 0) = true /\
  can_write (files barred) (output_dir (splitter 1))
            (part_name (stem (input_file (splitter 1))) 1) = false /\
  length (written_by (split_sql slow stem (splitter 1)) ready) = 2%nat /\
  snd (split_sql slow stem (splitter 1) barred) = SysExit 1 /\
  written_by (split_sql slow stem (splitter 1)) barred
  = take 1 (written_by (split_sql slow stem (splitter 1)) ready).
Proof.
  assert (H1 : node_at (files barred) (input_file (splitter 1))
               = Some (File (utf8_len two_statements) two_statements)) by reflexivity.
  assert (H0 : node_at (files ready) (input_file (splitter 1))
               = Some (File (utf8_len two_statements) two_statements)) by reflexivity.
  assert (H2 : file_size (splitter 1) = 0%N -> two_statements = []) by (intros H; discriminate H).
  assert (H3 : writable (files ready) (output_dir (splitter 1)) (stem (input_file (splitter 1))))
    by apply writable_ready.
  assert (H4 : forall i, (i < 1)%nat ->
            can_write (files barred) (output_dir (splitter 1))
                      (part_name (stem (input_file (splitter 1))) i) = true).
  { intros i Hi. assert (i = 0%nat) as -> by lia. reflexivity. }
  assert (H5 : can_write (files barred) (output_dir (splitter 1))
                         (part_name (stem (input_file (splitter 1))) 1) = false) by reflexivity.
  assert (H6 : length (written_by (split_sql slow stem (splitter 1)) ready) = 2%nat)
    by reflexivity.
  assert (H7 : (1 < length (written_by (split_sql slow stem (splitter 1)) ready))%nat)
    by (rewrite H6; lia).
  split; [exact H1|]. split; [exact H3|]. split; [exact (H4 0%nat Nat.lt_0_1)|].
  split; [exact H5|]. split; [exact H6|].
  pose proof (barred_part_stops_the_run slow stem (splitter 1) barred ready _ _ _ 1
                H1 H0 H2 H3 H4 H5 H7) as (K1 & K2 & _).
  split; [exact K1|exact K2].
Defined.


Lemma written_statements_are_trimmed_witness :
  (path_join out (lit "dump_part001.sql"), [lit "SELECT 1;"; lit "SELECT 2;"])
    ∈ written_by (split_sql slow stem (splitter 2)) ready /\
  lit "SELECT 2;" ∈ [lit "SELECT 1;"; lit "SELECT 2;"] /\
  strip (lit "SELECT 2;") = lit "SELECT 2;".
Proof.
  assert (H1 : (path_join out (lit "dump_part001.sql"), [lit "SELECT 1;"; lit "SELECT 2;"])
                 ∈ written_by (split_sql slow stem (splitter 2)) ready)
    by (apply list_elem_of_In; left; reflexivity).
  assert (H2 : lit "SELECT 2;" ∈ [lit "SELECT 1;"; lit "SELECT 2;"])
    by (apply list_elem_of_In; right; left; reflexivity).
  split; [exact H1|]. split; [exact H2|].
  exact (proj1 (proj2 (written_statements_are_trimmed slow stem (splitter 2) ready _ _ _ H1 H2))).
Defined.

Lemma statements_are_terminated_runs_witness :
  file_size (splitter 2) <> 0%N /\
  writable (files ready) (output_dir (splitter 2)) (lit "dump") /\
  exists groups rest,
    List.filter not_comment (readlines two_statements) = concat groups ++ rest /\
    Forall terminated groups /\
    Forall (fun l => has_semicolon l = false) rest /\
    statements_written (split_sql_body slow (splitter 2) (lit "dump")
                                       (readlines two_statements)) ready
    = map statement_of groups ++ match statement_of rest with [] => [] | s => [s] end.
Proof.
  assert (H1 : file_size (splitter 2) <> 0%N) by discriminate.
  assert (H2 : writable (files ready) (output_dir (splitter 2)) (lit "dump"))
    by apply writable_ready.
  split; [exact H1|]. split; [exact H2|].
  exact (statements_are_terminated_runs slow (splitter 2) (lit "dump")
           (readlines two_statements) ready H1 H2).
Defined.

Lemma batch_never_fills_witness :
  Z.of_nat (length (statements (Locals [] [] 0 0))) < Z.max 1 (statements_per_file (splitter 2)) /\
  match snd (for_lines slow (lit "dump") (readlines (lit "SELECT 1;" ++ [LF]))
                       (splitter 2, Locals [] [] 0 0) ready) with
  | Ret (_, l') => Z.of_nat (length (statements l')) < Z.max 1 (statements_per_file (splitter 2))
  | _ => True
  end.
Proof.
  assert (H : Z.of_nat (length (statements (Locals [] [] 0 0)))
              < Z.max 1 (statements_per_file (splitter 2))) by reflexivity.
  split; [exact H|].
  exact (batch_never_fills slow (lit "dump") (readlines (lit "SELECT 1;" ++ [LF]))
           (splitter 2) (Locals [] [] 0 0) ready H).
Defined.

Lemma number_of_files_witness :
  node_at (files ready) (input_file (splitter 1))
    = Some (File (utf8_len two_statements) two_statements) /\
  writable (files ready) (output_dir (splitter 1)) (stem (input_file (splitter 1))) /\
  0 < statements_per_file (splitter 1) /\
  let m := Z.of_nat (length (written_by (split_sql slow stem (splitter 1)) ready)) in
  let total := Z.of_nat (length (statements_written (split_sql slow stem (splitter 1)) ready)) in
  (m - 1) * statements_per_file (splitter 1) < total <= m * statements_per_file (splitter 1) /\
  m = (total + statements_per_file (splitter 1) - 1) / statements_per_file (splitter 1).
Proof.
  assert (H1 : node_at (files ready) (input_file (splitter 1))
               = Some (File (utf8_len two_statements) two_statements)) by reflexivity.
  assert (H2 : file_size (splitter 1) = 0%N -> two_statements = []) by (intros H; discriminate H).
  assert (H3 : writable (files ready) (output_dir (splitter 1)) (stem (input_file (splitter 1))))
    by apply writable_ready.
  assert (H4 : 0 < statements_per_file (splitter 1)) by reflexivity.
  split; [exact H1|]. split; [exact H3|]. split; [exact H4|].
  exact (number_of_files slow stem (splitter 1) ready _ _ H1 H2 H3 H4).
Defined.

Lemma summary_counts_what_was_written_witness :
  snd (split_sql slow stem (splitter 1) ready) = Ret tt /\
  last (stdout (fst (split_sql slow stem (splitter 1) ready)))
  = Some (Summary (length (written_by (split_sql slow stem (splitter 1)) ready))
                  (length (statements_written (split_sql slow stem (splitter 1)) ready))
                  (output_dir (splitter 1))).
Proof.
  assert (H : snd (split_sql slow stem (splitter 1) ready) = Ret tt) by reflexivity.
  split; [exact H|]. exact (summary_counts_what_was_written slow stem (splitter 1) ready H).
Defined.

Lemma blank_input_writes_nothing_witness :
  node_at (files ready_notes) (input_file (splitter 2))
    = Some (File (utf8_len notes_only) notes_only) /\
  Forall (fun line => is_comment line = true \/ Forall (fun c => isspace c = true) line)
         (readlines notes_only) /\
  written_by (split_sql slow stem (splitter 2)) ready_notes = [] /\
  files (fst (split_sql slow stem (splitter 2) ready_notes)) = files ready_notes.
Proof.
  assert (H1 : node_at (files ready_notes) (input_file (splitter 2))
               = Some (File (utf8_len notes_only) notes_only)) by reflexivity.
  assert (H2 : Forall (fun line => is_comment line = true
                                   \/ Forall (fun c => isspace c = true) line)
                      (readlines notes_only)).
  { change (readlines notes_only)
      with [lit "-- note" ++ [LF]; lit "  " ++ [LF]; lit "/* x; */" ++ [LF]].
    constructor; [left; reflexivity|].
    constructor; [right; repeat constructor|].
    constructor; [left; reflexivity|]. constructor. }
  split; [exact H1|]. split; [exact H2|].
  exact (blank_input_writes_nothing slow stem (splitter 2) ready_notes _ _ H1 H2).
Defined.

Lemma init_on_existing_input_witness :
  node_at (files (boot (tree_before (regular two_statements)))) dump
    = Some (regular two_statements) /\
  (forall p size text, p `prefix_of` out ->
     node_at (files (boot (tree_before (regular two_statements)))) p
     <> Some (File size text)) /\
  snd (__init__ slow dump out 2 (boot (tree_before (regular two_statements))))
    = Ret (Self dump out 2 (utf8_len two_statements) (clock slow 0) 0 (clock slow 1)) /\
  isdir (files (fst (__init__ slow dump out 2 (boot (tree_before (regular two_statements))))))
        out = true.
Proof.
  assert (H1 : node_at (files (boot (tree_before (regular two_statements)))) dump
               = Some (regular two_statements)) by reflexivity.
  assert (H2 : forall p size text, p `prefix_of` out ->
     node_at (files (boot (tree_before (regular two_statements)))) p
     <> Some (File size text)).
  { intros p size text [k E]. destruct p as [|c [|d p]]; [discriminate| |discriminate E].
    injection E as <-. discriminate. }
  split; [exact H1|]. split; [exact H2|].
  pose proof (init_on_existing_input slow dump out 2 _ _ H1 H2) as (K1 & _ & _ & _ & K5 & _).
  split; [exact K1|]. apply K5. reflexivity.
Defined.

Lemma init_keeps_existing_output_dir_witness :
  (forall p, p `prefix_of` out -> isdir (files ready) p = true) /\
  files (fst (__init__ slow dump out 2 ready)) = files ready /\
  snd (__init__ slow [lit "missing.sql"] out 2 ready) = Raise FileNotFoundError.
Proof.
  assert (H : forall p, p `prefix_of` out -> isdir (files ready) p = true).
  { intros p [k E]. destruct p as [|c [|d p]]; [reflexivity| |discriminate E].
    injection E as <-. reflexivity. }
  split; [exact H|].
  split; [exact (proj1 (init_keeps_existing_output_dir slow dump out 2 ready H))|].
  exact (proj2 (init_keeps_existing_output_dir slow [lit "missing.sql"] out 2 ready H) eq_refl).
Defined.

Lemma init_stops_at_a_file_in_the_way_witness :
  dump `prefix_of` dump ++ [lit "parts"] /\
  node_at (files (boot (tree_before (regular two_statements)))) dump
    = Some (File (utf8_len two_statements) two_statements) /\
  fst (__init__ slow dump (dump ++ [lit "parts"]) 2
                (boot (tree_before (regular two_statements))))
  = boot (tree_before (regular two_statements)) /\
  (snd (__init__ slow dump (dump ++ [lit "parts"]) 2
                 (boot (tree_before (regular two_statements)))) = Raise FileExistsError \/
   snd (__init__ slow dump (dump ++ [lit "parts"]) 2
                 (boot (tree_before (regular two_statements)))) = Raise NotADirectoryError).
Proof.
  assert (H1 : dump `prefix_of` dump ++ [lit "parts"]) by (exists [lit "parts"]; reflexivity).
  assert (H2 : node_at (files (boot (tree_before (regular two_statements)))) dump
               = Some (File (utf8_len two_statements) two_statements)) by reflexivity.
  split; [exact H1|]. split; [exact H2|].
  exact (init_stops_at_a_file_in_the_way slow dump (dump ++ [lit "parts"]) 2 _ _ _ _ H1 H2).
Defined.

Lemma missing_input_above_output_dir_witness :
  node_at (files (boot ∅)) [lit "out"] = None /\
  [lit "out"] `prefix_of` [lit "out"; lit "parts"] /\
  (forall p size text, p `prefix_of` [lit "out"; lit "parts"] ->
                       node_at (files (boot ∅)) p <> Some (File size text)) /\
  snd (main slow stem [lit "out"] [lit "out"; lit "parts"] 2 (boot ∅)) = SysExit 1 /\
  last (stdout (fst (main slow stem [lit "out"] [lit "out"; lit "parts"] 2 (boot ∅))))
  = Some (Error_processing IsADirectoryError).
Proof.
  assert (H1 : node_at (files (boot ∅)) [lit "out"] = None) by reflexivity.
  assert (H2 : [lit "out"] `prefix_of` [lit "out"; lit "parts"])
    by (exists [lit "parts"]; reflexivity).
  assert (H3 : forall p size text, p `prefix_of` [lit "out"; lit "parts"] ->
                 node_at (files (boot ∅)) p <> Some (File size text)).
  { intros p size text _. destruct p; [discriminate|]. simpl. by rewrite lookup_empty. }
  split; [exact H1|]. split; [exact H2|]. split; [exact H3|].
  pose proof (missing_input_above_output_dir slow stem _ _ 2 _ H1 H2 H3) as (_ & K1 & K2 & _).
  split; [exact K1|exact K2].
Defined.

Lemma main_on_missing_input_witness :
  node_at (files (boot ∅)) [lit "missing.sql"] = None /\
  ~ [lit "missing.sql"] `prefix_of` [lit "out"; lit "deep"] /\
  (forall p size text, p `prefix_of` [lit "out"; lit "deep"] ->
                       node_at (files (boot ∅)) p <> Some (File size text)) /\
  snd (main slow stem [lit "missing.sql"] [lit "out"; lit "deep"] 2 (boot ∅)) = SysExit 1 /\
  stdout (fst (main slow stem [lit "missing.sql"] [lit "out"; lit "deep"] 2 (boot ∅)))
  = [Error_main FileNotFoundError].
Proof.
  assert (H1 : node_at (files (boot ∅)) [lit "missing.sql"] = None) by reflexivity.
  assert (H2 : ~ [lit "missing.sql"] `prefix_of` [lit "out"; lit "deep"]).
  { intros [k E]. discriminate E. }
  assert (H3 : forall p size text, p `prefix_of` [lit "out"; lit "deep"] ->
                 node_at (files (boot ∅)) p <> Some (File size text)).
  { intros p size text _. destruct p; [discriminate|]. simpl. by rewrite lookup_empty. }
  split; [exact H1|]. split; [exact H2|]. split; [exact H3|].
  pose proof (main_on_missing_input slow stem _ _ 2 _ H1 H2 H3) as (K1 & K2 & _).
  split; [exact K1|exact K2].
Defined.

Lemma progress_stays_within_total_witness :
  node_at (files ready) (input_file (splitter 2))
    = Some (File (utf8_len two_statements) two_statements) /\
  file_size (splitter 2) = utf8_len two_statements /\
  processed_size (splitter 2) = 0%N /\
  progress_figures (printed_by (split_sql slow stem (splitter 2)) ready)
    = [(10, 20); (20, 20)]%N /\
  Forall (fun pt =>
            snd pt = file_size (splitter 2) /\ (fst pt <= snd pt)%N /\
            (fst pt <= utf8_len (universal_newlines two_statements))%N /\
            forall elapsed, exists progress speed eta,
              estimate (fst pt) (snd pt) elapsed = Some (progress, speed, eta) /\
              (0 <= progress <= 100)%Q /\ (0 <= eta)%Q)
         (progress_figures (printed_by (split_sql slow stem (splitter 2)) ready)).
Proof.
  assert (H1 : node_at (files ready) (input_file (splitter 2))
               = Some (File (utf8_len two_statements) two_statements)) by reflexivity.
  assert (H2 : file_size (splitter 2) = utf8_len two_statements) by reflexivity.
  assert (H3 : processed_size (splitter 2) = 0%N) by reflexivity.
  split; [exact H1|]. split; [exact H2|]. split; [exact H3|]. split; [reflexivity|].
  exact (progress_stays_within_total slow stem (splitter 2) ready two_statements H1 H2 H3).
Defined.
